(** * Reading deep-dive: metric computation and issue classification

    A shallow embedding of the metric pipeline of [generate_crm.py] and of
    the matching parts of the older stand-alone script
    [analyze_low_growth.py].

    Conventions of the embedding:
    - a pandas/numpy float is an exact rational ([Q]); a missing value
      ([NaN], [NaT], [None]) is [None] of an [option];
    - a cell of a numeric activity column is an [int64] or a [float64]
      value; the sum of an [int64] column wraps around as two's
      complement arithmetic does;
    - a calendar date is its proleptic Gregorian ordinal ([date.toordinal]),
      so [d + timedelta(days=k)] is [d + k] and dates compare as integers;
    - a test grade level is a whole number, so [int(g)] is the identity on
      present grades;
    - a division whose divisor is zero does not produce a number: it is
      [None] in the error monad that [compute_student_metrics] runs in;
    - [round] is taken on the exact value of its argument; the code rounds
      the binary float, which where the exact value is a tie can be the
      other neighbouring tenth;
    - a DataFrame is the list of its rows, in row order. *)

From Stdlib Require Import ZArith NArith QArith Qabs Qround List String Ascii Bool Lia Lqa.
From Stdlib Require Import OrderedTypeEx Sorted Permutation.
Import ListNotations.

Local Open Scope Z_scope.

(* ================================================================= *)
(** ** Small Python / pandas vocabulary *)

(** Error monad: [None] stands for a raised exception or a [NaN] that a
    zero divisor would have produced. *)
Definition bind {A B : Type} (c : option A) (k : A -> option B) : option B :=
  match c with
  | Some a => k a
  | None => None
  end.

Notation "x <- c ;; k" := (bind c (fun x => k))
  (at level 61, c at next level, right associativity).

(** [x in TABLE] for a set of strings. *)
Definition str_in (s : string) (table : list string) : bool :=
  existsb (String.eqb s) table.

(** [d in S] for a set of integers (dates, grades). *)
Definition z_in (z : Z) (table : list Z) : bool :=
  existsb (Z.eqb z) table.

(** Comparisons on floats. *)
Definition Qltb (a b : Q) : bool := negb (Qle_bool b a).
Definition Qgeb (a b : Q) : bool := Qle_bool b a.
Definition Qgtb (a b : Q) : bool := negb (Qle_bool a b).

(** A comparison with a missing operand is [False] (numpy's [NaN]). *)
Definition opt_test (p : Q -> bool) (o : option Q) : bool :=
  match o with
  | Some q => p q
  | None => false
  end.

(** [pd.notna] / [pd.isna]. *)
Definition notna {A : Type} (o : option A) : bool :=
  match o with
  | Some _ => true
  | None => false
  end.

Definition isna {A : Type} (o : option A) : bool := negb (notna o).

(** [int(x)] on a float: truncation toward zero. *)
Definition py_int (x : Q) : Z := Z.quot (Qnum x) (Zpos (Qden x)).

(** Rounding to the nearest integer, ties to the even neighbour. *)
Definition round_half_even (x : Q) : Z :=
  let f := Qfloor x in
  match Qcompare (x - inject_Z f) (1 # 2) with
  | Lt => f
  | Gt => f + 1
  | Eq => if Z.even f then f else f + 1
  end.

(** [round(x, 1)]. *)
Definition round1 (x : Q) : Q := (inject_Z (round_half_even (x * 10)) / 10)%Q.

(** [round(x, 0)]. *)
Definition round0 (x : Q) : Q := inject_Z (round_half_even x).

(** [a / b]: no number comes out of a zero divisor. *)
Definition fdiv (a b : Q) : option Q :=
  if Qeq_bool b 0 then None else Some (a / b)%Q.

(** [round(a / b * 100, 1)]. *)
Definition percent (a b : Q) : option Q :=
  r <- fdiv a b ;; Some (round1 (r * 100)).

(** [sum(...)] of a float column. *)
Definition Qsum (l : list Q) : Q := fold_right Qplus 0%Q l.

Definition nat_Q (n : nat) : Q := inject_Z (Z.of_nat n).

(** A cell of a numeric column.  The column that
    [pd.to_numeric(...).fillna(0)] leaves is an [int64] column when every
    cell of the file is a whole number and a [float64] column otherwise:
    [Int z] is a cell of an [int64] column ([z] in the [int64] range),
    [Float q] a cell of a [float64] column. *)
Inductive num : Type :=
  | Int (z : Z)
  | Float (q : Q).

Definition value (n : num) : Q :=
  match n with
  | Int z => inject_Z z
  | Float q => q
  end.

Definition is_int (n : num) : bool :=
  match n with
  | Int _ => true
  | Float _ => false
  end.

Definition int_of (n : num) : Z :=
  match n with
  | Int z => z
  | Float q => Qfloor q
  end.

(** The wrap-around of [int64] arithmetic (two's complement). *)
Definition wrap64 (z : Z) : Z := (z + 2 ^ 63) mod 2 ^ 64 - 2 ^ 63.

(** [col.sum()]: an [int64] column is summed in [int64], silently
    wrapping around; a [float64] column is summed as floats. *)
Definition col_sum (l : list num) : Q :=
  if forallb is_int l
  then inject_Z (wrap64 (fold_right Z.add 0 (map int_of l)))
  else Qsum (map value l).

(** [np.nanmean] / [np.mean] of a list that holds no [NaN]: the empty
    list has no mean. *)
Definition mean (l : list Q) : option Q :=
  match l with
  | [] => None
  | _ => Some (Qsum l / nat_Q (List.length l))%Q
  end.

(** Ascending list of the distinct values of an integer column (the
    index of a [groupby], or [sorted(col.unique())]). *)
Fixpoint insert_uniq (z : Z) (l : list Z) : list Z :=
  match l with
  | [] => [z]
  | y :: ys =>
      if z <? y then z :: l
      else if z =? y then l
      else y :: insert_uniq z ys
  end.

Definition sorted_unique (l : list Z) : list Z := fold_right insert_uniq [] l.

(** The same for a string column. *)
Fixpoint insert_uniq_str (s : string) (l : list string) : list string :=
  match l with
  | [] => [s]
  | y :: ys =>
      if String.ltb s y then s :: l
      else if String.eqb s y then l
      else y :: insert_uniq_str s ys
  end.

Definition sorted_unique_str (l : list string) : list string :=
  fold_right insert_uniq_str [] l.

(** The present values of a column ([dropna]). *)
Fixpoint dropna {A : Type} (l : list (option A)) : list A :=
  match l with
  | [] => []
  | Some a :: r => a :: dropna r
  | None :: r => dropna r
  end.

(** [col.max()] of an integer column, skipping missing values; missing
    when nothing is present. *)
Definition col_max (l : list (option Z)) : option Z :=
  match dropna l with
  | [] => None
  | z :: zs => Some (fold_left Z.max zs z)
  end.

(** A Python [dict] keyed by strings: insertion-ordered, a repeated key
    keeps its position and takes the new value. *)
Fixpoint dict_set {V : Type} (k : string) (v : V) (d : list (string * V))
  : list (string * V) :=
  match d with
  | [] => [(k, v)]
  | (k', v') :: r =>
      if String.eqb k k' then (k, v) :: r else (k', v') :: dict_set k v r
  end.

(* ================================================================= *)
(** ** App categorization (generate_crm.py) *)

Inductive category : Type :=
  | Instruction
  | Practice
  | Testing
  | EarlyLit
  | AdminOther
  | Unknown.

Definition category_eqb (a b : category) : bool :=
  match a, b with
  | Instruction, Instruction | Practice, Practice | Testing, Testing
  | EarlyLit, EarlyLit | AdminOther, AdminOther | Unknown, Unknown => true
  | _, _ => false
  end.

Definition INSTRUCTION_APPS : list string := ["MobyMax"%string].
Definition PRACTICE_APPS : list string := ["Alpha Read"%string].
Definition TESTING_APPS : list string :=
  ["Mastery Track"; "100 for 100"; "Alpha Tests"; "100x100"; "100 for 100"]%string.
Definition EARLY_LIT_APPS : list string :=
  ["Anton"; "ClearFluency"; "Clear Fluency"; "Amplify"; "Mentava";
   "Literably"; "Lalilo"; "Lexia Core5"; "FastPhonics"; "TeachTales";
   "AlphaLiteracy"]%string.
Definition ADMIN_APPS : list string :=
  ["Manual XP Assign"; "Manual XP"; "Timeback UI"; "TimeBack Dash";
   "Acely SAT"; "AlphaLearn"; "Alpha Timeback"; "Timeback Learn"]%string.

Definition categorize_app (app_name : string) : category :=
  if str_in app_name INSTRUCTION_APPS then Instruction
  else if str_in app_name PRACTICE_APPS then Practice
  else if str_in app_name TESTING_APPS then Testing
  else if str_in app_name EARLY_LIT_APPS then EarlyLit
  else if str_in app_name ADMIN_APPS then AdminOther
  else AdminOther.

(* ================================================================= *)
(** ** School calendar *)

(** [datetime._days_before_year], [_is_leap], [_days_before_month] and
    [_ymd2ord]: the ordinal of a calendar date, 0001-01-01 being day 1. *)
Definition days_before_year (y : Z) : Z :=
  let p := y - 1 in p * 365 + p / 4 - p / 100 + p / 400.

Definition is_leap (y : Z) : bool :=
  (y mod 4 =? 0) && (negb (y mod 100 =? 0) || (y mod 400 =? 0)).

Definition days_before_month (y m : Z) : Z :=
  nth (Z.to_nat (m - 1)) [0; 31; 59; 90; 120; 151; 181; 212; 243; 273; 304; 334] 0
  + (if (2 <? m) && is_leap y then 1 else 0).

Definition date (y m d : Z) : Z :=
  days_before_year y + days_before_month y m + d.

(** [d.weekday()]: Monday is 0, Sunday is 6. *)
Definition weekday (d : Z) : Z := (d + 6) mod 7.

(** [range(0, n)]. *)
Definition range0 (n : nat) : list Z := map Z.of_nat (seq 0 n).

Definition START_DATE : Z := date 2025 8 14.
Definition END_DATE : Z := date 2026 1 23.
Definition EXPECTED_DAILY_MINUTES : Z := 25.
Definition PASS_THRESHOLD : Q := 895 # 10.

(** The dates the loop [d = start; while d <= stop: ...; d += 1 day]
    visits. *)
Fixpoint days_from (d : Z) (n : nat) : list Z :=
  match n with
  | O => []
  | S k => d :: days_from (d + 1) k
  end.

Definition days_between (start stop : Z) : list Z :=
  days_from start (Z.to_nat (stop - start + 1)).

(** The fixed exclusion list: MAP testing weeks, Labor Day, October
    break, Thanksgiving, the December/January break, MLK Day. *)
Definition non_school : list Z :=
  map (fun o => date 2025 8 19 + o) (range0 4)
  ++ map (fun o => date 2025 8 26 + o) (range0 4)
  ++ [date 2025 9 1]
  ++ map (fun o => date 2025 10 6 + o) (range0 5)
  ++ map (fun o => date 2025 11 24 + o) (range0 5)
  ++ filter (fun day => weekday day <? 5)
       (map (fun o => date 2025 12 22 + o) (range0 12))
  ++ [date 2026 1 19].

Section Calendar.
(** The term window; the source fixes it in [START_DATE], [END_DATE]. *)
Variables (start_date end_date : Z).

Definition all_days : list Z :=
  filter (fun d => weekday d <? 5) (days_between start_date end_date).

Definition non_school_weekdays : list Z :=
  filter (fun d => (weekday d <? 5) && (start_date <=? d) && (d <=? end_date))
         non_school.

Definition school_days : list Z :=
  filter (fun d => negb (z_in d non_school_weekdays)) all_days.

(** [compute_school_days]: effective days, expected minutes and the
    school dates.  One day is taken off for the two half-days. *)
Definition compute_school_days : Z * Z * list Z :=
  let effective_days := Z.of_nat (List.length school_days) - 1 in
  let expected_minutes := effective_days * EXPECTED_DAILY_MINUTES in
  (effective_days, expected_minutes, school_days).
End Calendar.

(* ================================================================= *)
(** ** Input records *)

(** One row of the MAP analysis sheet, numeric columns already coerced
    ([pd.to_numeric(..., errors='coerce')]). *)
Record AssessmentRecord : Type := {
  Email : string;
  Level : string;
  HMG : option Q;
  AgeGrade : option Q;
  GrowthFW : option Q;
  FallRIT : option Q
}.

(** One row of the daily metrics export.  The numeric columns went
    through [fillna(0)]; the [app] cell is as read from the file, missing
    ([NaN]) when the row names no app. *)
Record ActivityRecord : Type := {
  app : option string;
  xp_earned : num;
  active_minutes : num
}.

(** A parsed [score_date_utc]: the day and the seconds into that day. *)
Record timestamp : Type := {
  ts_day : Z;
  ts_seconds : N
}.

(** One row of the reading test results. *)
Record TestAttemptRecord : Type := {
  student_email : string;
  subject : string;
  score_date_utc : option timestamp;
  score : option Q;
  test_grade : option Z
}.

(** [ts >= 'yyyy-mm-dd']: the string is midnight of that day; a missing
    timestamp ([NaT]) compares false. *)
Definition ts_geb_day (o : option timestamp) (day : Z) : bool :=
  match o with
  | Some ts => (day <? ts_day ts) || ((ts_day ts =? day) && (0 <=? ts_seconds ts)%N)
  | None => false
  end.

(** [load_reading_results]: the two row filters. *)
Definition load_reading_results (df : list TestAttemptRecord)
  : list TestAttemptRecord :=
  let df := filter (fun r => String.eqb (subject r) "Reading") df in
  filter (fun r => ts_geb_day (score_date_utc r) (date 2025 8 14)) df.

(** [results_by_email.get(email, pd.DataFrame())]. *)
Definition tests_of (email : string) (results_df : list TestAttemptRecord)
  : list TestAttemptRecord :=
  filter (fun r => String.eqb (student_email r) email) results_df.

(* ================================================================= *)
(** ** Per-student metric computation *)

Inductive issue : Type :=
  | NEEDS_HS_INSTRUCTION
  | NEEDS_MM_INSTRUCTION
  | OVER_TESTING
  | DOOM_LOOP
  | LOW_ENGAGEMENT
  | TIME_NO_GROWTH
  | AT_GRADE_NO_MOTIVATION
  | LARGE_GAP
  | LOW_EFFECTIVE_TESTS.

Definition issue_eqb (a b : issue) : bool :=
  match a, b with
  | NEEDS_HS_INSTRUCTION, NEEDS_HS_INSTRUCTION
  | NEEDS_MM_INSTRUCTION, NEEDS_MM_INSTRUCTION
  | OVER_TESTING, OVER_TESTING
  | DOOM_LOOP, DOOM_LOOP
  | LOW_ENGAGEMENT, LOW_ENGAGEMENT
  | TIME_NO_GROWTH, TIME_NO_GROWTH
  | AT_GRADE_NO_MOTIVATION, AT_GRADE_NO_MOTIVATION
  | LARGE_GAP, LARGE_GAP
  | LOW_EFFECTIVE_TESTS, LOW_EFFECTIVE_TESTS => true
  | _, _ => false
  end.

Inductive reading_group_t : Type :=
  | G3_8
  | G9_plus.

(** The five XP accumulators of the per-app loop. *)
Record xp_split : Type := {
  instr_of : Q;
  practice_of : Q;
  testing_of : Q;
  elit_of : Q;
  admin_of : Q
}.

Definition xp_zero : xp_split :=
  {| instr_of := 0; practice_of := 0; testing_of := 0; elit_of := 0;
     admin_of := 0 |}.

(** [r['app'] == k], false on a missing app cell. *)
Definition app_is (k : string) (r : ActivityRecord) : bool :=
  match app r with
  | Some a => String.eqb a k
  | None => false
  end.

(** [daily_data.groupby('app').agg({'XP Earned': 'sum', ...})]: one row
    per distinct app, in key order.  A row whose app cell is missing is
    in no group ([groupby] drops missing keys). *)
Definition app_groups (daily_data : list ActivityRecord) : list (string * Q) :=
  map (fun k => (k, col_sum (map xp_earned (filter (app_is k) daily_data))))
      (sorted_unique_str (dropna (map app daily_data))).

(** One turn of [for _, ag in app_groups.iterrows()].  The group total
    reaches the loop as a Python number, so the accumulators add without
    wrap-around. *)
Definition add_group (acc : xp_split) (ag : string * Q) : xp_split :=
  let xp_val := snd ag in
  match categorize_app (fst ag) with
  | Instruction =>
      {| instr_of := instr_of acc + xp_val; practice_of := practice_of acc;
         testing_of := testing_of acc; elit_of := elit_of acc;
         admin_of := admin_of acc |}
  | Practice =>
      {| instr_of := instr_of acc; practice_of := practice_of acc + xp_val;
         testing_of := testing_of acc; elit_of := elit_of acc;
         admin_of := admin_of acc |}
  | Testing =>
      {| instr_of := instr_of acc; practice_of := practice_of acc;
         testing_of := testing_of acc + xp_val; elit_of := elit_of acc;
         admin_of := admin_of acc |}
  | EarlyLit =>
      {| instr_of := instr_of acc; practice_of := practice_of acc;
         testing_of := testing_of acc; elit_of := elit_of acc + xp_val;
         admin_of := admin_of acc |}
  | _ =>
      {| instr_of := instr_of acc; practice_of := practice_of acc;
         testing_of := testing_of acc; elit_of := elit_of acc;
         admin_of := admin_of acc + xp_val |}
  end%Q.

(** [tr['score'] >= PASS_THRESHOLD], false on a missing score. *)
Definition passed (tr : TestAttemptRecord) : bool :=
  opt_test (fun s => Qgeb s PASS_THRESHOLD) (score tr).

(** [tr['score'] < PASS_THRESHOLD], false on a missing score. *)
Definition failed (tr : TestAttemptRecord) : bool :=
  opt_test (fun s => Qltb s PASS_THRESHOLD) (score tr).

(** [test_data[test_data['score'] < PASS_THRESHOLD].groupby('test_grade').size()]
    at key [g]. *)
Definition grade_fails (test_data : list TestAttemptRecord) (g : Z) : nat :=
  count_occ Z.eq_dec (dropna (map test_grade (filter failed test_data))) g.

Definition grades_passed (test_data : list TestAttemptRecord) : list Z :=
  dropna (map test_grade (filter passed test_data)).

(** Doom loop detection: 3+ failed attempts at the same grade, excluding
    grades eventually passed. *)
Definition doom_grades_of (test_data : list TestAttemptRecord) : list Z :=
  let index :=
    sorted_unique (dropna (map test_grade (filter failed test_data))) in
  filter (fun g => negb (z_in g (grades_passed test_data)))
         (filter (fun g => (3 <=? grade_fails test_data g)%nat) index).

(** HMG fallback: a missing or very low MAP HMG gives way to the best
    grade passed in the test results. *)
Definition resolve_hmg (hmg : option Q) (test_data : list TestAttemptRecord)
  : option Q :=
  let has_tests := negb (Nat.eqb (List.length test_data) 0) in
  if (isna hmg || opt_test (fun h => Qle_bool h 1) hmg) && has_tests then
    let passed_tests := filter passed test_data in
    if (0 <? List.length passed_tests)%nat then
      let test_hmg := option_map inject_Z (col_max (map test_grade passed_tests)) in
      if isna hmg
         || match test_hmg, hmg with
            | Some t, Some h => Qgtb t h
            | _, _ => false
            end
      then test_hmg
      else hmg
    else hmg
  else hmg.

(** Reading group assignment (G3-8 vs G9+). *)
Definition reading_group_of (level : string) (hmg age_grade : option Q)
  : reading_group_t :=
  let hs := String.eqb level "HS" in
  let hmg_ge8 := opt_test (fun h => Qgeb h 8) hmg in
  if hs && notna hmg && hmg_ge8 then G9_plus
  else if opt_test (fun h => Qle_bool 2 h && Qle_bool h 7) hmg then G3_8
  else if opt_test (fun a => Qle_bool 3 a && Qle_bool a 8) age_grade
          && opt_test (fun h => Qle_bool 2 h && Qle_bool h 12) hmg then G3_8
  else if hmg_ge8 && hs then G9_plus
  else if isna hmg || opt_test (fun h => Qle_bool h 1) hmg then
    if opt_test (fun a => Qgeb a 9) age_grade && hs then G9_plus else G3_8
  else G3_8.

(** The part of the metrics record the classifier and the systemic
    aggregator read; identity and display strings are left out. *)
Record StudentMetrics : Type := {
  email : string;
  level : string;
  age_grade : option Q;
  hmg : option Q;
  reading_grade : option Z;
  reading_group : reading_group_t;
  growth : option Q;
  gap : option Q;
  summer_slide : option Q;
  has_daily_data : bool;
  total_active_minutes : Q;
  total_xp : Q;
  pct_expected : Q;
  daily_avg : Q;
  instr_xp : Q;
  practice_xp : Q;
  testing_xp : Q;
  elit_xp : Q;
  admin_xp : Q;
  pct_instr : Q;
  pct_practice : Q;
  pct_testing : Q;
  has_test_data : bool;
  total_tests : nat;
  eff_tests : nat;
  eff_rate : Q;
  hmg_plus1_total : nat;
  hmg_plus1_passed : nat;
  hmg_plus1_eff_rate : Q;
  doom_grades : list Z;
  doom_loop_above_hmg : bool;
  issues : list issue
}.

(** [[x] if cond else []], the shape of each [issues.append]. *)
Definition flag (cond : bool) (i : issue) : list issue :=
  if cond then [i] else [].

Definition compute_student_metrics
    (row : AssessmentRecord) (daily_data : list ActivityRecord)
    (test_data : list TestAttemptRecord) (spring_rit : option Q)
    (effective_days expected_minutes : Z) : option StudentMetrics :=
  let growth_fw := GrowthFW row in
  let age := AgeGrade row in
  (* --- Daily metrics aggregation --- *)
  let has_daily := (0 <? List.length daily_data)%nat in
  let total_active :=
    if has_daily then col_sum (map active_minutes daily_data) else 0%Q in
  let total_xp_ :=
    if has_daily then col_sum (map xp_earned daily_data) else 0%Q in
  pct_expected_ <-
    (if 0 <? expected_minutes
     then percent total_active (inject_Z expected_minutes) else Some 0%Q) ;;
  daily_avg_ <-
    (if 0 <? effective_days
     then r <- fdiv total_active (inject_Z effective_days) ;; Some (round1 r)
     else Some 0%Q) ;;
  (* Per-app breakdown *)
  let groups := if has_daily then app_groups daily_data else [] in
  let xp := fold_left add_group groups xp_zero in
  pct_instr_ <-
    (if Qltb 0 total_xp_ then percent (instr_of xp) total_xp_ else Some 0%Q) ;;
  pct_practice_ <-
    (if Qltb 0 total_xp_ then percent (practice_of xp) total_xp_ else Some 0%Q) ;;
  pct_testing_ <-
    (if Qltb 0 total_xp_ then percent (testing_of xp) total_xp_ else Some 0%Q) ;;
  (* --- Test results aggregation --- *)
  let has_tests := (0 <? List.length test_data)%nat in
  let total_tests_ := if has_tests then List.length test_data else O in
  let eff_tests_ :=
    if has_tests then List.length (filter passed test_data) else O in
  let doom := if has_tests then doom_grades_of test_data else [] in
  eff_rate_ <-
    (if (0 <? total_tests_)%nat
     then percent (nat_Q eff_tests_) (nat_Q total_tests_) else Some 0%Q) ;;
  let hmg_ := resolve_hmg (HMG row) test_data in
  (* --- HMG+1 effective test rate --- *)
  let at_target :=
    match hmg_ with
    | Some h =>
        if has_tests then
          filter (fun tr => match test_grade tr with
                            | Some g => g =? py_int h + 1
                            | None => false
                            end) test_data
        else []
    | None => []
    end in
  let plus1_total := List.length at_target in
  let plus1_passed := List.length (filter passed at_target) in
  plus1_rate <-
    (if (0 <? plus1_total)%nat
     then percent (nat_Q plus1_passed) (nat_Q plus1_total) else Some 0%Q) ;;
  let gap_ :=
    match hmg_, age with
    | Some h, Some a => Some (h - a)%Q
    | _, _ => None
    end in
  let slide :=
    match spring_rit, FallRIT row with
    | Some s, Some f => Some (f - s)%Q
    | _, _ => None
    end in
  (* --- Issue detection --- *)
  let hmg_ge8 := opt_test (fun h => Qgeb h 8) hmg_ in
  let in_mm_range := opt_test (fun h => Qle_bool 2 h && Qle_bool h 7) hmg_ in
  let ever_enrolled_mm :=
    existsb (fun ag => String.eqb (fst ag) "MobyMax") groups in
  let has_doom := (0 <? List.length doom)%nat in
  let above :=
    has_doom
    && match hmg_ with
       | None => true
       | Some h => existsb (fun g => py_int h <? g) doom
       end in
  let issues_ :=
    (if hmg_ge8 then [NEEDS_HS_INSTRUCTION]
     else flag (in_mm_range && negb ever_enrolled_mm && has_daily)
               NEEDS_MM_INSTRUCTION)
    ++ flag (Qgtb pct_testing_ 50) OVER_TESTING
    ++ flag has_doom DOOM_LOOP
    ++ flag (Qltb pct_expected_ 50) LOW_ENGAGEMENT
    ++ flag (Qgeb pct_expected_ 100 && opt_test (fun g => Qle_bool g 0) growth_fw)
            TIME_NO_GROWTH
    ++ flag (opt_test (fun g => Qgeb g 0) gap_
             && opt_test (fun g => Qltb g 0) growth_fw)
            AT_GRADE_NO_MOTIVATION
    ++ flag (opt_test (fun g => Qle_bool g (-3)) gap_) LARGE_GAP
    ++ flag ((2 <? plus1_total)%nat && Qltb plus1_rate 50) LOW_EFFECTIVE_TESTS in
  Some {|
    email := Email row;
    level := Level row;
    age_grade := age;
    hmg := hmg_;
    reading_grade := option_map (fun h => py_int (h + 1)) hmg_;
    reading_group := reading_group_of (Level row) hmg_ age;
    growth := growth_fw;
    gap := option_map round1 gap_;
    summer_slide := option_map round1 slide;
    has_daily_data := has_daily;
    total_active_minutes := round1 total_active;
    total_xp := round1 total_xp_;
    pct_expected := pct_expected_;
    daily_avg := daily_avg_;
    instr_xp := round1 (instr_of xp);
    practice_xp := round1 (practice_of xp);
    testing_xp := round1 (testing_of xp);
    elit_xp := round1 (elit_of xp);
    admin_xp := round1 (admin_of xp);
    pct_instr := pct_instr_;
    pct_practice := pct_practice_;
    pct_testing := pct_testing_;
    has_test_data := has_tests;
    total_tests := total_tests_;
    eff_tests := eff_tests_;
    eff_rate := eff_rate_;
    hmg_plus1_total := plus1_total;
    hmg_plus1_passed := plus1_passed;
    hmg_plus1_eff_rate := plus1_rate;
    doom_grades := doom;
    doom_loop_above_hmg := above;
    issues := issues_
  |}.

(* ================================================================= *)
(** ** Systemic issues detection *)

(** [detail_counts] of the three kinds of summary. *)
Inductive detail : Type :=
  | TestingDetail (over_testing doom_loops : nat)
  | InstructionDetail (needs_hs needs_mm : nat)
  | TimeDetail (avg_daily_minutes : Q) (avg_pct_expected : Z)
               (neg_growth_count : nat).

(** One ranked summary; title, description and colour are display text. *)
Record SystemicIssue : Type := {
  key : string;
  count : nat;
  avg_growth : option Q;
  students : list StudentMetrics;
  detail_counts : detail
}.

(** [issue_counts.get(i, [])] after the counting loop: every student is
    appended once per occurrence of [i] in their issue list. *)
Definition issue_counts (i : issue) (studs : list StudentMetrics)
  : list StudentMetrics :=
  flat_map (fun s => map (fun _ => s) (filter (issue_eqb i) (issues s))) studs.

(** [{s['email']: s for s in l}]. *)
Definition set_by_email (d : list (string * StudentMetrics))
    (s : StudentMetrics) : list (string * StudentMetrics) :=
  dict_set (email s) s d.

Definition by_email (l : list StudentMetrics) : list (string * StudentMetrics) :=
  fold_left set_by_email l [].

(** [round(np.nanmean([s['growth'] ... if s['growth'] is not None]), 1)],
    [None] when no affected student has a growth value. *)
Definition avg_growth_of (l : list StudentMetrics) : option Q :=
  option_map round1 (mean (dropna (map growth l))).

(** Stable sort on [-x['count']]. *)
Fixpoint insert_ranked (x : SystemicIssue) (l : list SystemicIssue)
  : list SystemicIssue :=
  match l with
  | [] => [x]
  | y :: ys =>
      if (count y <=? count x)%nat then x :: l else y :: insert_ranked x ys
  end.

Definition sort_ranked (l : list SystemicIssue) : list SystemicIssue :=
  fold_right insert_ranked [] l.

(** The merged summary for over-testing and doom loops. *)
Definition testing_summary (studs : list StudentMetrics) : list SystemicIssue :=
  let ot_students := issue_counts OVER_TESTING studs in
  let dl_students := issue_counts DOOM_LOOP studs in
  let dl_above_hmg_students := filter doom_loop_above_hmg dl_students in
  let merged_students := by_email (ot_students ++ dl_students) in
  if (0 <? List.length merged_students)%nat then
    [{| key := "OVER_TESTING_DOOM";
        count := List.length merged_students;
        avg_growth := avg_growth_of (map snd merged_students);
        students := map snd merged_students;
        detail_counts :=
          TestingDetail (List.length ot_students)
                        (List.length dl_above_hmg_students) |}]
  else [].

(** The merged summary for missing reading instruction. *)
Definition instruction_summary (studs : list StudentMetrics)
  : list SystemicIssue :=
  let hs_instr := issue_counts NEEDS_HS_INSTRUCTION studs in
  let mm_instr := issue_counts NEEDS_MM_INSTRUCTION studs in
  let merged_instr := by_email (hs_instr ++ mm_instr) in
  if (0 <? List.length merged_instr)%nat then
    [{| key := "MISSING_READING_INSTRUCTION";
        count := List.length merged_instr;
        avg_growth := avg_growth_of (map snd merged_instr);
        students := map snd merged_instr;
        detail_counts :=
          InstructionDetail (List.length hs_instr) (List.length mm_instr) |}]
  else [].

(** The summary for minutes without growth. *)
Definition time_summary (studs : list StudentMetrics) : list SystemicIssue :=
  let tng_students := issue_counts TIME_NO_GROWTH studs in
  let n := nat_Q (List.length tng_students) in
  if (0 <? List.length tng_students)%nat then
    [{| key := "TIME_NO_GROWTH";
        count := List.length tng_students;
        avg_growth := avg_growth_of tng_students;
        students := tng_students;
        detail_counts :=
          TimeDetail
            (round1 (Qsum (map daily_avg tng_students) / n))
            (round_half_even (Qsum (map pct_expected tng_students) / n))
            (List.length
               (filter (fun s => opt_test (fun g => Qltb g 0) (growth s))
                       tng_students)) |}]
  else [].

Definition detect_systemic_issues (studs : list StudentMetrics)
  : list SystemicIssue :=
  let ranked :=
    testing_summary studs ++ instruction_summary studs ++ time_summary studs in
  firstn 3 (sort_ranked ranked).

(* ================================================================= *)
(** ** The stand-alone low-growth analysis (analyze_low_growth.py) *)

Module LowGrowth.

Definition INSTRUCTION_APPS : list string := ["Alpha Read"; "MobyMax"]%string.
Definition TESTING_APPS : list string :=
  ["Mastery Track"; "100 for 100"; "Alpha Tests"; "100x100"]%string.
Definition EARLY_LIT_APPS : list string :=
  ["Anton"; "ClearFluency"; "Amplify"; "Mentava"; "Literably";
   "Lalilo"; "Lexia Core5"; "FastPhonics"; "TeachTales"]%string.
Definition ADMIN_APPS : list string :=
  ["Manual XP Assign"; "Timeback UI"; "TimeBack Dash"; "Manual XP";
   "Acely SAT"; "AlphaLearn"]%string.

Definition categorize_app (app_name : string) : category :=
  if str_in app_name INSTRUCTION_APPS then Instruction
  else if str_in app_name TESTING_APPS then Testing
  else if str_in app_name EARLY_LIT_APPS then EarlyLit
  else if str_in app_name ADMIN_APPS then AdminOther
  else Unknown.

(** The XP buckets of analysis 2, [unknown_xp] among them. *)
Record xp_buckets : Type := {
  instruction_xp : Q;
  testing_xp : Q;
  early_lit_xp : Q;
  admin_xp : Q;
  unknown_xp : Q
}.

(** [categorize_app(xp_row['app'])]: a missing app cell ([NaN]) is in
    none of the tables. *)
Definition categorize_cell (app : option string) : category :=
  match app with
  | Some app_name => categorize_app app_name
  | None => Unknown
  end.

(** One turn of [for _, xp_row in student_xp.iterrows()]; the XP cell is
    a Python number there, so the buckets do not wrap around. *)
Definition add_row (acc : xp_buckets) (xp_row : option string * Q) : xp_buckets :=
  let xp := snd xp_row in
  match categorize_cell (fst xp_row) with
  | Instruction =>
      {| instruction_xp := instruction_xp acc + xp; testing_xp := testing_xp acc;
         early_lit_xp := early_lit_xp acc; admin_xp := admin_xp acc;
         unknown_xp := unknown_xp acc |}
  | Testing =>
      {| instruction_xp := instruction_xp acc; testing_xp := testing_xp acc + xp;
         early_lit_xp := early_lit_xp acc; admin_xp := admin_xp acc;
         unknown_xp := unknown_xp acc |}
  | EarlyLit =>
      {| instruction_xp := instruction_xp acc; testing_xp := testing_xp acc;
         early_lit_xp := early_lit_xp acc + xp; admin_xp := admin_xp acc;
         unknown_xp := unknown_xp acc |}
  | AdminOther =>
      {| instruction_xp := instruction_xp acc; testing_xp := testing_xp acc;
         early_lit_xp := early_lit_xp acc; admin_xp := admin_xp acc + xp;
         unknown_xp := unknown_xp acc |}
  | _ =>
      {| instruction_xp := instruction_xp acc; testing_xp := testing_xp acc;
         early_lit_xp := early_lit_xp acc; admin_xp := admin_xp acc;
         unknown_xp := unknown_xp acc + xp |}
  end%Q.

Definition xp_breakdown (student_xp : list (option string * Q)) : xp_buckets :=
  fold_left add_row student_xp
    {| instruction_xp := 0; testing_xp := 0; early_lit_xp := 0;
       admin_xp := 0; unknown_xp := 0 |}.

(** The category totals the script reports for a student: instruction,
    testing, early literacy and admin XP. *)
Definition reported_xp (b : xp_buckets) : Q :=
  (instruction_xp b + testing_xp b + early_lit_xp b + admin_xp b)%Q.

Definition total_xp (b : xp_buckets) : Q :=
  (instruction_xp b + testing_xp b + early_lit_xp b + admin_xp b
   + unknown_xp b)%Q.

(** One row of the school-year test history. *)
Record TestRow : Type := {
  test_grade : option Z;
  attempt_no : option Z;
  effective_test : option Q
}.

(** [student_tests.groupby('Test Grade')['Test Attempt #'].max()] at
    key [g]. *)
Definition attempts_by_grade (student_tests : list TestRow) (g : Z)
  : option Z :=
  col_max (map attempt_no
               (filter (fun r => match test_grade r with
                                 | Some g' => g' =? g
                                 | None => false
                                 end) student_tests)).

Definition doom_loop_grades (student_tests : list TestRow) : list Z :=
  filter (fun g => match attempts_by_grade student_tests g with
                   | Some m => 3 <=? m
                   | None => false
                   end)
         (sorted_unique (dropna (map test_grade student_tests))).

(** The script's calendar block, over a term window. *)
Definition effective_school_days (start_date end_date : Z) : Z :=
  Z.of_nat (List.length (school_days start_date end_date)) - 1.

Definition EXPECTED_MINUTES (start_date end_date : Z) : Z :=
  effective_school_days start_date end_date * 25.

End LowGrowth.

(* ================================================================= *)
(** ** Statements used by the theorems *)


(** The un-rounded category totals of a student's activity rows. *)
Definition category_xp (daily_data : list ActivityRecord) : xp_split :=
  fold_left add_group (app_groups daily_data) xp_zero.

Definition split_total (x : xp_split) : Q :=
  (instr_of x + practice_of x + testing_of x + elit_of x + admin_of x)%Q.

(** The XP and the active minutes a row holds. *)
Definition xp_of (r : ActivityRecord) : Q := value (xp_earned r).
Definition minutes_of (r : ActivityRecord) : Q := value (active_minutes r).

(** The row names an app. *)
Definition named (r : ActivityRecord) : bool := notna (app r).

(** No sum over cells of the column leaves the [int64] range: the
    absolute values of the cells add up to less than 2^63. *)
Definition in_int64_range (l : list num) : Prop :=
  (Qsum (map (fun n => Qabs (value n)) l) < inject_Z (2 ^ 63))%Q.

(** A test attempt at grade [g]. *)
Definition at_grade (g : Z) (tr : TestAttemptRecord) : Prop :=
  test_grade tr = Some g.

(** A name that none of the pipeline's category tables holds. *)
Definition unlisted (app_name : string) : Prop :=
  str_in app_name INSTRUCTION_APPS = false
  /\ str_in app_name PRACTICE_APPS = false
  /\ str_in app_name TESTING_APPS = false
  /\ str_in app_name EARLY_LIT_APPS = false
  /\ str_in app_name ADMIN_APPS = false.

(** A name that none of the low-growth script's tables holds. *)
Definition unlisted_low_growth (app_name : string) : Prop :=
  str_in app_name LowGrowth.INSTRUCTION_APPS = false
  /\ str_in app_name LowGrowth.TESTING_APPS = false
  /\ str_in app_name LowGrowth.EARLY_LIT_APPS = false
  /\ str_in app_name LowGrowth.ADMIN_APPS = false.

(** The attempts at the grade right above the resolved HMG. *)
Definition hmg_plus1_tests (h : option Q) (test_data : list TestAttemptRecord)
  : list TestAttemptRecord :=
  match h with
  | Some q =>
      filter (fun tr => match test_grade tr with
                        | Some g => g =? py_int q + 1
                        | None => false
                        end) test_data
  | None => []
  end.

(** What [compute_student_metrics] puts in the fields the properties
    below are about, read off its body. *)
Record fields_of (row : AssessmentRecord) (daily_data : list ActivityRecord)
    (test_data : list TestAttemptRecord) (effective_days expected_minutes : Z)
    (m : StudentMetrics) : Prop := {
  f_hmg : hmg m = resolve_hmg (HMG row) test_data;
  f_doom : doom_grades m = doom_grades_of test_data;
  f_total_tests : total_tests m = List.length test_data;
  f_eff_tests : eff_tests m = List.length (filter passed test_data);
  f_plus1_total :
    hmg_plus1_total m = List.length (hmg_plus1_tests (hmg m) test_data);
  f_plus1_passed :
    hmg_plus1_passed m
    = List.length (filter passed (hmg_plus1_tests (hmg m) test_data));
  f_pct_expected_0 : (0 <? expected_minutes) = false -> pct_expected m = 0%Q;
  f_pct_expected :
    (0 <? expected_minutes) = true ->
    pct_expected m
    = round1 (col_sum (map active_minutes daily_data)
              / inject_Z expected_minutes * 100);
  f_daily_avg_0 : (0 <? effective_days) = false -> daily_avg m = 0%Q;
  f_daily_avg :
    (0 <? effective_days) = true ->
    daily_avg m
    = round1 (col_sum (map active_minutes daily_data) / inject_Z effective_days);
  f_pct_xp_0 :
    Qltb 0 (col_sum (map xp_earned daily_data)) = false ->
    pct_instr m = 0%Q /\ pct_practice m = 0%Q /\ pct_testing m = 0%Q;
  f_pct_xp :
    Qltb 0 (col_sum (map xp_earned daily_data)) = true ->
    pct_instr m
    = round1 (instr_of (category_xp daily_data)
              / col_sum (map xp_earned daily_data) * 100)
    /\ pct_practice m
       = round1 (practice_of (category_xp daily_data)
                 / col_sum (map xp_earned daily_data) * 100)
    /\ pct_testing m
       = round1 (testing_of (category_xp daily_data)
                 / col_sum (map xp_earned daily_data) * 100);
  f_eff_rate_0 : total_tests m = O -> eff_rate m = 0%Q;
  f_eff_rate :
    total_tests m <> O ->
    eff_rate m = round1 (nat_Q (eff_tests m) / nat_Q (total_tests m) * 100);
  f_plus1_rate_0 : hmg_plus1_total m = O -> hmg_plus1_eff_rate m = 0%Q;
  f_plus1_rate :
    hmg_plus1_total m <> O ->
    hmg_plus1_eff_rate m
    = round1 (nat_Q (hmg_plus1_passed m) / nat_Q (hmg_plus1_total m) * 100)
}.

(** [tr] is an attempt at grade [g]. *)
Definition grade_is (g : Z) (tr : TestAttemptRecord) : bool :=
  match test_grade tr with
  | Some g' => g' =? g
  | None => false
  end.

(** The student's failing and passing attempts at grade [g]. *)
Definition failing_attempts (g : Z) (test_data : list TestAttemptRecord) : nat :=
  List.length (filter (fun tr => failed tr && grade_is g tr) test_data).

Definition passing_attempts (g : Z) (test_data : list TestAttemptRecord) : nat :=
  List.length (filter (fun tr => passed tr && grade_is g tr) test_data).

(* ================================================================= *)
(** ** Sample inputs *)

Definition sample_row (h : option Q) (g : option Q) : AssessmentRecord :=
  {| Email := "student@example.org"; Level := "MS"; HMG := h;
     AgeGrade := None; GrowthFW := g; FallRIT := None |}.

(** A row of a daily metrics file whose numeric columns are [float64]. *)
Definition activity (a : string) (xp minutes : Q) : ActivityRecord :=
  {| app := Some a; xp_earned := Float xp; active_minutes := Float minutes |}.

(** A row of a daily metrics file whose numeric columns are [int64]. *)
Definition int_activity (a : option string) (xp minutes : Z) : ActivityRecord :=
  {| app := a; xp_earned := Int xp; active_minutes := Int minutes |}.

(** A reading attempt of the sample student on 2025-09-15. *)
Definition attempt (g : Z) (s : option Q) : TestAttemptRecord :=
  {| student_email := "student@example.org"; subject := "Reading";
     score_date_utc := Some {| ts_day := date 2025 9 15; ts_seconds := 0 |};
     score := s; test_grade := Some g |}.

Definition fail_at (g : Z) : TestAttemptRecord := attempt g (Some 60%Q).
Definition pass_at (g : Z) : TestAttemptRecord := attempt g (Some 95%Q).


(** 100 XP in a row that names no app, 100 XP in MobyMax. *)
Definition unnamed_and_instruction : list ActivityRecord :=
  [{| app := None; xp_earned := Float 100; active_minutes := Float 10 |};
   activity "MobyMax" 100%Q 10%Q].

(** Rows of an [int64] file: whole XP and minutes in MobyMax and Alpha
    Read. *)
Definition whole_minutes : list ActivityRecord :=
  [int_activity (Some "MobyMax"%string) 60 30;
   int_activity (Some "Alpha Read"%string) 40 20].

(** Two rows of an [int64] file with 2^63 - 1 active minutes each. *)
Definition overflowing_minutes : list ActivityRecord :=
  [int_activity (Some "Alpha Read"%string) 10 (2 ^ 63 - 1);
   int_activity (Some "Alpha Read"%string) 10 (2 ^ 63 - 1)].


(** A row of the low-growth script's test history: grade, attempt
    number, and the effective-test flag (1 for a passed test). *)
Definition history_row (g n : Z) (e : Q) : LowGrowth.TestRow :=
  {| LowGrowth.test_grade := Some g; LowGrowth.attempt_no := Some n;
     LowGrowth.effective_test := Some e |}.

(** Three failed attempts at grade 5, then a pass. *)
Definition passed_on_fourth : list LowGrowth.TestRow :=
  [history_row 5 1 0%Q; history_row 5 2 0%Q; history_row 5 3 0%Q;
   history_row 5 4 1%Q].

(** A reading attempt submitted on 2026-02-01, after the term end. *)
Definition late_attempt : TestAttemptRecord :=
  {| student_email := "student@example.org"; subject := "Reading";
     score_date_utc := Some {| ts_day := date 2026 2 1; ts_seconds := 3600 |};
     score := Some 95%Q; test_grade := Some 5 |}.

(** A reading attempt submitted on 2025-08-01, before the term start. *)
Definition early_attempt : TestAttemptRecord :=
  {| student_email := "student@example.org"; subject := "Reading";
     score_date_utc := Some {| ts_day := date 2025 8 1; ts_seconds := 3600 |};
     score := Some 95%Q; test_grade := Some 5 |}.

(** The metrics of a student who logged no activity and took no test. *)
Definition idle_student (who : string) : option StudentMetrics :=
  compute_student_metrics
    {| Email := who; Level := "MS"; HMG := None; AgeGrade := None;
       GrowthFW := None; FallRIT := None |}
    [] [] None 86 2150.

(** The metrics of a student who met the expected minutes in a practice
    app and did not grow. *)
Definition diligent_student (who : string) : option StudentMetrics :=
  compute_student_metrics
    {| Email := who; Level := "MS"; HMG := None; AgeGrade := None;
       GrowthFW := Some 0%Q; FallRIT := None |}
    [activity "Alpha Read" 100%Q 2150%Q] [] None 86 2150.

(** The metrics of a student who spends all XP on tests and is stuck at
    grade 5: over-testing and doom loop at once. *)
Definition test_bound_student (who : string) : option StudentMetrics :=
  compute_student_metrics
    {| Email := who; Level := "MS"; HMG := Some 4%Q; AgeGrade := None;
       GrowthFW := Some 3%Q; FallRIT := None |}
    [activity "MobyMax" 10%Q 1000%Q; activity "Alpha Tests" 90%Q 1150%Q]
    [fail_at 5; fail_at 5; fail_at 5] None 86 2150.

(* ================================================================= *)
(** ** The classifier of compute_student_metrics, read apart *)

(** The grade gap before it is rounded for the record. *)
Definition raw_gap (h a : option Q) : option Q :=
  match h, a with
  | Some h', Some a' => Some (h' - a')%Q
  | _, _ => None
  end.

(** The issue detection block, as a function of the values it reads. *)
Definition issues_of (h : option Q) (ever_enrolled_mm has_daily : bool)
    (pct_testing_ : Q) (doom : list Z) (pct_expected_ : Q)
    (growth_fw gap_ : option Q) (plus1_total : nat) (plus1_rate : Q)
  : list issue :=
  (if opt_test (fun q => Qgeb q 8) h then [NEEDS_HS_INSTRUCTION]
   else flag (opt_test (fun q => Qle_bool 2 q && Qle_bool q 7) h
              && negb ever_enrolled_mm && has_daily)
             NEEDS_MM_INSTRUCTION)
  ++ flag (Qgtb pct_testing_ 50) OVER_TESTING
  ++ flag (0 <? List.length doom)%nat DOOM_LOOP
  ++ flag (Qltb pct_expected_ 50) LOW_ENGAGEMENT
  ++ flag (Qgeb pct_expected_ 100 && opt_test (fun g => Qle_bool g 0) growth_fw)
          TIME_NO_GROWTH
  ++ flag (opt_test (fun g => Qgeb g 0) gap_
           && opt_test (fun g => Qltb g 0) growth_fw)
          AT_GRADE_NO_MOTIVATION
  ++ flag (opt_test (fun g => Qle_bool g (-3)) gap_) LARGE_GAP
  ++ flag ((2 <? plus1_total)%nat && Qltb plus1_rate 50) LOW_EFFECTIVE_TESTS.

(** Whether the student was ever enrolled in MobyMax, from the per-app
    breakdown. *)
Definition enrolled_mm (daily_data : list ActivityRecord) : bool :=
  existsb (fun ag => String.eqb (fst ag) "MobyMax") (app_groups daily_data).

(** What [compute_student_metrics] puts in the classification fields,
    read off its body. *)
Record derived_of (row : AssessmentRecord) (daily_data : list ActivityRecord)
    (test_data : list TestAttemptRecord) (m : StudentMetrics) : Prop := {
  d_email : email m = Email row;
  d_level : level m = Level row;
  d_age_grade : age_grade m = AgeGrade row;
  d_growth : growth m = GrowthFW row;
  d_has_daily : has_daily_data m = (0 <? List.length daily_data)%nat;
  d_has_tests : has_test_data m = (0 <? List.length test_data)%nat;
  d_gap : gap m = option_map round1 (raw_gap (hmg m) (AgeGrade row));
  d_reading_grade : reading_grade m = option_map (fun h => py_int (h + 1)) (hmg m);
  d_reading_group :
    reading_group m = reading_group_of (Level row) (hmg m) (AgeGrade row);
  d_above :
    doom_loop_above_hmg m
    = (0 <? List.length (doom_grades m))%nat
      && match hmg m with
         | None => true
         | Some h => existsb (fun g => py_int h <? g) (doom_grades m)
         end;
  d_issues :
    issues m
    = issues_of (hmg m) (enrolled_mm daily_data) (has_daily_data m)
                (pct_testing m) (doom_grades m) (pct_expected m)
                (GrowthFW row) (raw_gap (hmg m) (AgeGrade row))
                (hmg_plus1_total m) (hmg_plus1_eff_rate m)
}.

(* ================================================================= *)
(** ** Further derived labels of compute_student_metrics *)

(** The high-school reading label; [HS_none] stands for the empty label
    of a student outside the HS level. *)
Inductive hs_reading_category_t : Type :=
  | HS_none
  | HS_le_G8
  | HS_G9_plus
  | HS_no_HMG.

(** HS reading category, from the level and the resolved HMG. *)
Definition hs_reading_category_of (level_ : string) (h : option Q)
  : hs_reading_category_t :=
  if String.eqb level_ "HS" then
    if opt_test (fun q => Qle_bool q 7) h then HS_le_G8
    else if opt_test (fun q => Qgeb q 8) h then HS_G9_plus
    else HS_no_HMG
  else HS_none.

Inductive growth_category_t : Type :=
  | Growth_negative
  | Growth_zero
  | Growth_positive
  | Growth_unknown.

(** Growth category of the fall-to-winter growth. *)
Definition growth_category_of (growth_fw : option Q) : growth_category_t :=
  match growth_fw with
  | Some g =>
      if Qltb g 0 then Growth_negative
      else if Qeq_bool g 0 then Growth_zero
      else Growth_positive
  | None => Growth_unknown
  end.

(** 2x growth check: at least 2 RIT points of growth. *)
Definition met_2x_of (growth_fw : option Q) : bool :=
  opt_test (fun g => Qgeb g 2) growth_fw.

(** [growth_class], the CSS class of a growth figure. *)
Definition growth_class (g : option Q) : string :=
  match g with
  | None => ""
  | Some q =>
      if Qltb q 0 then "growth-neg"
      else if Qeq_bool q 0 then "growth-zero"
      else "growth-pos"
  end.

(** [pct_class], the CSS class of a percent-of-expected figure. *)
Definition pct_class (p : option Q) : string :=
  match p with
  | None => ""
  | Some q =>
      if Qltb q 75 then "pct-warn"
      else if Qgeb q 100 then "pct-ok"
      else ""
  end.

(** [i in s['issues']]. *)
Definition flagged (i : issue) (s : StudentMetrics) : bool :=
  existsb (issue_eqb i) (issues s).

(** The metrics of a student like [test_bound_student] but without a
    growth value. *)
Definition ungraded_tester (who : string) : option StudentMetrics :=
  compute_student_metrics
    {| Email := who; Level := "MS"; HMG := Some 4%Q; AgeGrade := None;
       GrowthFW := None; FallRIT := None |}
    [activity "MobyMax" 10%Q 1000%Q; activity "Alpha Tests" 90%Q 1150%Q]
    [fail_at 5; fail_at 5; fail_at 5] None 86 2150.

(** The metrics of a student with HMG 6 who failed grade 5 three times:
    a doom loop that is not above the HMG. *)
Definition below_hmg_looper (who : string) : option StudentMetrics :=
  compute_student_metrics
    {| Email := who; Level := "MS"; HMG := Some 6%Q; AgeGrade := None;
       GrowthFW := None; FallRIT := None |}
    [] [fail_at 5; fail_at 5; fail_at 5] None 86 2150.

(* ================================================================= *)
(** ** Order of the student list (generate_crm.py, main) *)

(** The sort key of [all_students.sort]: the growth, 999 when absent. *)
Definition growth_key (s : StudentMetrics) : Q :=
  match growth s with
  | Some g => g
  | None => 999
  end.

(** [list.sort] is stable: among equal keys the earlier element stays
    first. *)
Fixpoint insert_by_growth (x : StudentMetrics) (l : list StudentMetrics)
  : list StudentMetrics :=
  match l with
  | [] => [x]
  | y :: ys =>
      if Qle_bool (growth_key x) (growth_key y) then x :: l
      else y :: insert_by_growth x ys
  end.

Definition sort_by_growth (l : list StudentMetrics) : list StudentMetrics :=
  fold_right insert_by_growth [] l.

(* ================================================================= *)
(** ** Name matching (analyze_low_growth.py) *)

(** [d.get(k)] on an association list with distinct keys. *)
Fixpoint dict_get {V : Type} (k : string) (d : list (string * V)) : option V :=
  match d with
  | [] => None
  | (k', v) :: r => if String.eqb k k' then Some v else dict_get k r
  end.

Definition NAME_MAP : list (string * list string) :=
  [("Bobbi Brown", ["Bobbi Brown"; "Bobbi Sue Brown"]);
   ("Nathan Scharf", ["Nathan Scharf"; "Nathaniel Scharf"]);
   ("Rhys Björendahl", ["Rhys Björendahl"; "Rhys Bjorendahl"])]%string.

Section NameMatching.
(** The rows of a table and the value of their name column; [split] is
    [str.split()] and [contains s pat] is pandas' [str.contains(pat)] on
    the value [s]. *)
Context {A : Type}.
Variables (name_of : A -> option string)
          (split : string -> list string)
          (contains : string -> string -> bool).

(** [df[name_col] == n], false on a missing name. *)
Definition name_is (n : string) (r : A) : bool :=
  match name_of r with
  | Some x => String.eqb x n
  | None => false
  end.

(** The loop over the alternative spellings: the first one with rows
    wins. *)
Fixpoint first_alias_match (alts : list string) (df : list A) : list A :=
  match alts with
  | [] => []
  | alt :: rest =>
      let matches := filter (name_is alt) df in
      if (0 <? List.length matches)%nat then matches
      else first_alias_match rest df
  end.

(** [contains(first, na=False) & contains(last, na=False)]. *)
Definition partial_match (first last : string) (r : A) : bool :=
  match name_of r with
  | Some x => contains x first && contains x last
  | None => false
  end.

Definition find_student_in_df (student_name : string) (df : list A) : list A :=
  let matches := filter (name_is student_name) df in
  if (0 <? List.length matches)%nat then matches
  else
    let by_alias :=
      match dict_get student_name NAME_MAP with
      | Some alts => first_alias_match alts df
      | None => []
      end in
    if (0 <? List.length by_alias)%nat then by_alias
    else
      let parts := split student_name in
      if (2 <=? List.length parts)%nat then
        let matches :=
          filter (partial_match (hd ""%string parts) (last parts ""%string)) df in
        if (0 <? List.length matches)%nat then matches else []
      else [].
End NameMatching.

(* ================================================================= *)
(** ** XP flags and clusters (analyze_low_growth.py) *)

Inductive xp_flag : Type :=
  | Flag_OVER_TESTING
  | Flag_EARLY_LIT_APPS
  | Flag_NO_INSTRUCTION
  | Flag_ZERO_XP.

(** One entry of [xp_results], with the flags added after the loop. *)
Record xp_result : Type := {
  r_instruction_xp : Q;
  r_total_xp : Q;
  r_pct_instruction : Q;
  r_pct_testing : Q;
  r_pct_early_lit : Q;
  r_flags : list xp_flag
}.

Definition xp_flag_if (c : bool) (f : xp_flag) : list xp_flag :=
  if c then [f] else [].

Definition xp_result_of (b : LowGrowth.xp_buckets) : option xp_result :=
  let total := LowGrowth.total_xp b in
  pi <- (if Qltb 0 total then percent (LowGrowth.instruction_xp b) total
         else Some 0%Q) ;;
  pt <- (if Qltb 0 total then percent (LowGrowth.testing_xp b) total
         else Some 0%Q) ;;
  pe <- (if Qltb 0 total then percent (LowGrowth.early_lit_xp b) total
         else Some 0%Q) ;;
  Some {| r_instruction_xp := LowGrowth.instruction_xp b;
          r_total_xp := total;
          r_pct_instruction := pi;
          r_pct_testing := pt;
          r_pct_early_lit := pe;
          r_flags :=
            xp_flag_if (Qgtb pt 50) Flag_OVER_TESTING
            ++ xp_flag_if (Qgtb pe 10) Flag_EARLY_LIT_APPS
            ++ xp_flag_if (Qltb pi 20 && Qltb 0 total) Flag_NO_INSTRUCTION
            ++ xp_flag_if (Qeq_bool total 0) Flag_ZERO_XP |}.

Inductive cluster : Type :=
  | Low_Effort
  | Over_Testing
  | Wrong_Apps_Early_Lit
  | No_Instruction
  | Test_Doom_Loop
  | Adequate_Effort_Bad_Test
  | Quality_Issue
  | Mixed_Unclear.

(** [str.lower()] on the letters A to Z; no other character lower-cases
    to a letter of [yes] or [true]. *)
Definition lower_ascii (c : ascii) : ascii :=
  let n := nat_of_ascii c in
  if ((65 <=? n) && (n <=? 90))%nat then ascii_of_nat (n + 32) else c.

Fixpoint lower (s : string) : string :=
  match s with
  | EmptyString => EmptyString
  | String c r => String (lower_ascii c) (lower r)
  end.

Definition cluster_if (c : bool) (k : cluster) : list cluster :=
  if c then [k] else [].

(** The cluster list of one student in analysis 7: [pct_expected] is the
    student's ['% Expected'], [xp_r] and [test_r] the entries found for
    the student (the doom-loop grades of the latter), [rushed] the
    ['Rushed MAP test?'] cell of the student's row as [str] gives it. *)
Definition student_clusters (pct_expected_ : Q) (xp_r : option xp_result)
    (test_r : option (list Z)) (rushed : option string) : list cluster :=
  let found :=
    cluster_if (Qltb pct_expected_ 50) Low_Effort
    ++ cluster_if (match xp_r with
                   | Some r => Qgtb (r_pct_testing r) 50
                   | None => false
                   end) Over_Testing
    ++ cluster_if (match xp_r with
                   | Some r => Qgtb (r_pct_early_lit r) 10
                   | None => false
                   end) Wrong_Apps_Early_Lit
    ++ cluster_if (match xp_r with
                   | Some r =>
                       Qeq_bool (r_instruction_xp r) 0 && Qltb 0 (r_total_xp r)
                   | None => false
                   end) No_Instruction
    ++ cluster_if (match test_r with
                   | Some doom => (0 <? List.length doom)%nat
                   | None => false
                   end) Test_Doom_Loop
    ++ cluster_if (match rushed with
                   | Some v =>
                       Qgeb pct_expected_ 75
                       && (String.eqb (lower v) "yes"
                           || String.eqb (lower v) "true")
                   | None => false
                   end) Adequate_Effort_Bad_Test in
  let found :=
    match found with
    | [] => cluster_if (Qgeb pct_expected_ 75) Quality_Issue
    | _ => found
    end in
  match found with
  | [] => [Mixed_Unclear]
  | _ => found
  end.

(* ================================================================= *)
(** ** Student pages (generate_student_pages.py, anonymize_and_regenerate.py) *)

Inductive recommendation : Type :=
  | Rec_no_instruction_app
  | Rec_should_have_mobymax
  | Rec_over_testing
  | Rec_doom_loop
  | Rec_low_minutes
  | Rec_at_grade
  | Rec_large_gap
  | Rec_low_effective_tests
  | Rec_default.

Definition rec_if (c : bool) (r : recommendation) : list recommendation :=
  if c then [r] else [].

(** A value read from the JSON data file, as [json.load] gives it: a
    number is a Python [int], a finite [float], or one of [NaN],
    [Infinity] and [-Infinity]. *)
#[warnings="-register-all"]
Inductive json : Type :=
  | JNull
  | JBool (b : bool)
  | JInt (z : Z)
  | JFloat (q : Q)
  | JNonFinite
  | JStr (s : string)
  | JList (l : list json)
  | JDict (d : list (string * json)).

(** [d.get(k, default)]. *)
Definition py_get (k : string) (d : list (string * json)) (default : json)
  : json :=
  match dict_get k d with
  | Some v => v
  | None => default
  end.

(** [needle in hay] on two strings. *)
Fixpoint is_substring (needle hay : string) : bool :=
  String.prefix needle hay
  || match hay with
     | EmptyString => false
     | String _ rest => is_substring needle rest
     end.

(** [x == e] for a string [x] and a JSON value [e]. *)
Definition json_is_str (x : string) (e : json) : bool :=
  match e with
  | JStr s => String.eqb x s
  | _ => false
  end.

(** [x in c] for a string [x]: membership in a list, substring of a
    string, key of a dict; any other value raises [TypeError]. *)
Definition json_contains (c : json) : option (string -> bool) :=
  match c with
  | JList l => Some (fun x => existsb (json_is_str x) l)
  | JStr s => Some (fun x => is_substring x s)
  | JDict d => Some (fun x => str_in x (map fst d))
  | _ => None
  end.

(** A guard: [None] when a Python operation raises. *)
Definition check (ok : bool) : option unit :=
  if ok then Some tt else None.

(** [f"{v:.0f}"] works on a float, on a [bool] and on an [int] that a
    float can hold (one that rounds to less than 2^1024); on anything
    else the format raises. *)
Definition formats_as_float (v : json) : bool :=
  match v with
  | JBool _ | JFloat _ | JNonFinite => true
  | JInt z => Z.abs z <? 2 ^ 1024 - 2 ^ 970
  | _ => false
  end.

(** [for g in v] works on a list, a string and a dict. *)
Definition iterable (v : json) : bool :=
  match v with
  | JList _ | JStr _ | JDict _ => true
  | _ => false
  end.

(** [bool(v)]. *)
Definition truthy (v : json) : bool :=
  match v with
  | JNull => false
  | JBool b => b
  | JInt z => negb (z =? 0)
  | JFloat q => negb (Qeq_bool q 0)
  | JNonFinite => true
  | JStr s => negb (String.eqb s "")
  | JList l => negb (Nat.eqb (List.length l) 0)
  | JDict d => negb (Nat.eqb (List.length d) 0)
  end.

Section Recommendation.
(** [split] is [str.split()]; [int_literal s] tells whether [int(s)]
    accepts the string [s]. *)
Variables (split : string -> list string) (int_literal : string -> bool).

(** [int(v)] works on a [bool], an [int], a finite float and a string
    that spells a whole number. *)
Definition int_works (v : json) : bool :=
  match v with
  | JBool _ | JInt _ | JFloat _ => true
  | JStr s => int_literal s
  | _ => false
  end.

(** [get_recommendation]: which texts are given, in order, for a student
    record of the data file.  The wording of the texts is left out; what
    is kept of each is whether building it raises.  [student["name"]]
    and [student['reading_mins']] raise [KeyError] on a record without
    that key, the first word of the name opens every text, and the
    figures are formatted with [:.0f]. *)
Definition get_recommendation (student : list (string * json))
  : option (list recommendation) :=
  let issues := py_get "issues" student (JList []) in
  name <- dict_get "name" student ;;
  parts <- (match name with
            | JStr s => Some (split s)
            | _ => None
            end) ;;
  name_first <- hd_error parts ;;
  has <- json_contains issues ;;
  let r1 := rec_if (has "NO_INSTRUCTION_APP"%string) Rec_no_instruction_app in
  let r2 := rec_if (has "SHOULD_HAVE_MOBYMAX"%string) Rec_should_have_mobymax in
  r3 <- (if has "OVER_TESTING"%string then
           _ <- check (formats_as_float (py_get "pct_testing" student (JInt 0))) ;;
           Some [Rec_over_testing]
         else Some []) ;;
  r4 <- (if has "DOOM_LOOP"%string then
           _ <- check (iterable (py_get "doom_grades" student (JList []))) ;;
           Some [Rec_doom_loop]
         else Some []) ;;
  r5 <- (if has "LOW_MINUTES"%string then
           _ <- check (formats_as_float (py_get "pct_expected" student (JInt 0))) ;;
           _ <- dict_get "reading_mins" student ;;
           Some [Rec_low_minutes]
         else Some []) ;;
  let r6 := rec_if (has "AT_GRADE_NO_MOTIVATION"%string
                    && negb (has "NO_INSTRUCTION_APP"%string)) Rec_at_grade in
  r7 <- (if has "LARGE_GAP_OVERWHELMED"%string then
           let gap := py_get "gap" student (JInt 0) in
           _ <- check (negb (truthy gap) || int_works gap) ;;
           Some [Rec_large_gap]
         else Some []) ;;
  r8 <- (if has "LOW_EFFECTIVE_TESTS"%string
            && negb (has "OVER_TESTING"%string)
            && negb (has "DOOM_LOOP"%string) then
           _ <- check (formats_as_float (py_get "eff_rate" student (JInt 0))) ;;
           Some [Rec_low_effective_tests]
         else Some []) ;;
  let recs := r1 ++ r2 ++ r3 ++ r4 ++ r5 ++ r6 ++ r7 ++ r8 in
  match recs with
  | [] => Some [Rec_default]
  | _ => Some recs
  end.
End Recommendation.

(** The texts chosen for a student whose issue keys answer [has], when
    none of them raises. *)
Definition chosen (has : string -> bool) : list recommendation :=
  let recs :=
    rec_if (has "NO_INSTRUCTION_APP"%string) Rec_no_instruction_app
    ++ rec_if (has "SHOULD_HAVE_MOBYMAX"%string) Rec_should_have_mobymax
    ++ rec_if (has "OVER_TESTING"%string) Rec_over_testing
    ++ rec_if (has "DOOM_LOOP"%string) Rec_doom_loop
    ++ rec_if (has "LOW_MINUTES"%string) Rec_low_minutes
    ++ rec_if (has "AT_GRADE_NO_MOTIVATION"%string
               && negb (has "NO_INSTRUCTION_APP"%string)) Rec_at_grade
    ++ rec_if (has "LARGE_GAP_OVERWHELMED"%string) Rec_large_gap
    ++ rec_if (has "LOW_EFFECTIVE_TESTS"%string
               && negb (has "OVER_TESTING"%string)
               && negb (has "DOOM_LOOP"%string)) Rec_low_effective_tests in
  match recs with
  | [] => [Rec_default]
  | _ => recs
  end.

(** What the texts chosen for a student read from the record: every
    figure a chosen text formats is a number, the doom-loop grades can be
    listed, the record of a student with low minutes has the
    [reading_mins] key, and the gap is empty or a whole number can be
    made of it. *)
Definition texts_build (int_literal : string -> bool) (has : string -> bool)
    (student : list (string * json)) : Prop :=
  (has "OVER_TESTING"%string = true ->
   formats_as_float (py_get "pct_testing" student (JInt 0)) = true)
  /\ (has "DOOM_LOOP"%string = true ->
      iterable (py_get "doom_grades" student (JList [])) = true)
  /\ (has "LOW_MINUTES"%string = true ->
      formats_as_float (py_get "pct_expected" student (JInt 0)) = true
      /\ dict_get "reading_mins" student <> None)
  /\ (has "LARGE_GAP_OVERWHELMED"%string = true ->
      truthy (py_get "gap" student (JInt 0)) = false
      \/ int_works int_literal (py_get "gap" student (JInt 0)) = true)
  /\ (has "LOW_EFFECTIVE_TESTS"%string = true ->
      has "OVER_TESTING"%string = false ->
      has "DOOM_LOOP"%string = false ->
      formats_as_float (py_get "eff_rate" student (JInt 0)) = true).

(** A record of the data file: over-testing and a low effective test
    rate. *)
Definition over_tester : list (string * json) :=
  [("name", JStr "Love L.");
   ("issues", JList [JStr "OVER_TESTING"; JStr "LOW_EFFECTIVE_TESTS"]);
   ("pct_testing", JFloat (625 # 10));
   ("pct_expected", JFloat 80);
   ("reading_mins", JInt 1720);
   ("eff_rate", JFloat 25)]%string.

(** A record flagged for low minutes that lacks the [reading_mins] key. *)
Definition no_reading_mins : list (string * json) :=
  [("name", JStr "Love L.");
   ("issues", JList [JStr "LOW_MINUTES"]);
   ("pct_expected", JFloat 30)]%string.

(** Splitting at blanks, for names written with single blanks. *)
Fixpoint words_from (cur : string) (s : string) : list string :=
  match s with
  | EmptyString => if String.eqb cur "" then [] else [cur]
  | String c rest =>
      if Ascii.eqb c " "%char
      then (if String.eqb cur "" then [] else [cur]) ++ words_from "" rest
      else words_from (cur ++ String c EmptyString) rest
  end.

Definition words (s : string) : list string := words_from "" s.

Section Navigation.
(** [slugify] of the page generator. *)
Variable slugify : string -> string.

(** The index the loop of [build_nav] stops at. *)
Fixpoint index_of_slug (current_slug : string) (names : list string)
  : option nat :=
  match names with
  | [] => None
  | n :: rest =>
      if String.eqb (slugify n) current_slug then Some O
      else option_map S (index_of_slug current_slug rest)
  end.

(** [build_nav]: the names the previous and the next link point to; an
    empty link is [None]. *)
Definition build_nav (names : list string) (current_slug : string)
  : option string * option string :=
  match index_of_slug current_slug names with
  | None => (None, None)
  | Some idx =>
      ((if (0 <? idx)%nat then nth_error names (idx - 1) else None),
       (if (idx <? List.length names - 1)%nat then nth_error names (idx + 1)
        else None))
  end.
End Navigation.

Inductive page_category : Type :=
  | Page_Instruction
  | Page_Testing
  | Page_Early_Lit
  | Page_Other.

(** The category the student page shows beside an app. *)
Definition page_category_of (app_name : string) : page_category :=
  if str_in app_name ["Alpha Read"; "MobyMax"]%string then Page_Instruction
  else if str_in app_name ["Mastery Track"; "100 for 100"; "Alpha Tests"]%string
  then Page_Testing
  else if str_in app_name
            ["Anton"; "ClearFluency"; "Amplify"; "Mentava"; "Literably";
             "Lalilo"; "Lexia Core5"; "FastPhonics"; "TeachTales"]%string
  then Page_Early_Lit
  else Page_Other.

(* ================================================================= *)
(** * Properties *)

(** ** App categorizer *)

Lemma categorize_app_never_unknown (app_name : string) :
  categorize_app app_name <> Unknown.
Proof.
  unfold categorize_app.
  repeat match goal with
         | |- context [if ?b then _ else _] => destruct b
         end; discriminate.
Qed.

Lemma categorize_app_unlisted (app_name : string) :
  unlisted app_name -> categorize_app app_name = AdminOther.
Proof.
  intros (Hi & Hp & Ht & He & Ha).
  unfold categorize_app.
  now rewrite Hi, Hp, Ht, He, Ha.
Qed.

Lemma low_growth_categorize_unlisted (app_name : string) :
  unlisted_low_growth app_name -> LowGrowth.categorize_app app_name = Unknown.
Proof.
  intros (Hi & Ht & He & Ha).
  unfold LowGrowth.categorize_app.
  now rewrite Hi, Ht, He, Ha.
Qed.

(** ** Sums and group keys *)

Lemma split_total_add_group (acc : xp_split) (ag : string * Q) :
  (split_total (add_group acc ag) == split_total acc + snd ag)%Q.
Proof.
  unfold add_group, split_total.
  destruct (categorize_app (fst ag)); simpl; ring.
Qed.

Lemma split_total_fold (groups : list (string * Q)) :
  forall acc,
    (split_total (fold_left add_group groups acc)
     == split_total acc + Qsum (map snd groups))%Q.
Proof.
  induction groups as [| ag groups IH]; intros acc; simpl.
  - ring.
  - rewrite IH, split_total_add_group. ring.
Qed.

Lemma str_ltb_lt (a b : string) :
  String.ltb a b = true <-> String_as_OT.lt a b.
Proof.
  unfold String.ltb. rewrite <- String_as_OT.cmp_lt. unfold String_as_OT.cmp.
  destruct (String.compare a b); split; congruence.
Qed.

Lemma str_ltb_false (a b : string) :
  String.ltb a b = false -> String.eqb a b = false -> String_as_OT.lt b a.
Proof.
  intros Hlt Heq.
  apply String_as_OT.cmp_lt. unfold String_as_OT.cmp.
  rewrite String.compare_antisym.
  unfold String.ltb in Hlt.
  destruct (String.compare a b) eqn:E; simpl; try reflexivity; try discriminate.
  apply String.compare_eq_iff in E. subst.
  now rewrite String.eqb_refl in Heq.
Qed.

Lemma insert_uniq_str_In (s x : string) (l : list string) :
  In x (insert_uniq_str s l) <-> x = s \/ In x l.
Proof.
  induction l as [| y ys IH]; simpl.
  - intuition.
  - destruct (String.ltb s y); [simpl; intuition |].
    destruct (String.eqb_spec s y) as [-> | Hne]; simpl.
    + intuition.
    + rewrite IH. intuition.
Qed.

Lemma sorted_unique_str_In (x : string) (l : list string) :
  In x (sorted_unique_str l) <-> In x l.
Proof.
  induction l as [| a l IH]; simpl; [tauto |].
  rewrite insert_uniq_str_In, IH. intuition.
Qed.

Lemma insert_uniq_str_sorted (s : string) (l : list string) :
  StronglySorted String_as_OT.lt l ->
  StronglySorted String_as_OT.lt (insert_uniq_str s l).
Proof.
  induction 1 as [| y ys Hs IH Hall]; simpl.
  - repeat constructor.
  - destruct (String.ltb s y) eqn:Hlt.
    + apply str_ltb_lt in Hlt.
      constructor; [now constructor |].
      constructor; [assumption |].
      eapply Forall_impl; [| exact Hall].
      intros z Hz. eapply String_as_OT.lt_trans; eassumption.
    + destruct (String.eqb s y) eqn:Heq; [now constructor |].
      constructor; [assumption |].
      apply Forall_forall. intros z Hz.
      apply insert_uniq_str_In in Hz. destruct Hz as [-> | Hz].
      * now apply str_ltb_false.
      * rewrite Forall_forall in Hall. now apply Hall.
Qed.

Lemma sorted_unique_str_sorted (l : list string) :
  StronglySorted String_as_OT.lt (sorted_unique_str l).
Proof.
  induction l; simpl; [constructor | now apply insert_uniq_str_sorted].
Qed.

Lemma sorted_str_NoDup (l : list string) :
  StronglySorted String_as_OT.lt l -> NoDup l.
Proof.
  induction 1 as [| y ys Hs IH Hall]; constructor; [| assumption].
  intros Hin. rewrite Forall_forall in Hall.
  apply (String_as_OT.lt_not_eq y y); [now apply Hall | reflexivity].
Qed.

(** Sums that stay in the [int64] range are exact. *)
Lemma wrap64_small (z : Z) : - 2 ^ 63 <= z < 2 ^ 63 -> wrap64 z = z.
Proof.
  intros H. unfold wrap64. rewrite Z.mod_small; lia.
Qed.

Lemma Qsum_ints (l : list num) :
  forallb is_int l = true ->
  (Qsum (map value l) == inject_Z (fold_right Z.add 0%Z (map int_of l)))%Q.
Proof.
  induction l as [| n l IH]; simpl; intros H.
  - reflexivity.
  - apply andb_true_iff in H. destruct H as (Hn & Hl).
    destruct n as [z | q]; [| discriminate]. simpl.
    rewrite (IH Hl), inject_Z_plus. reflexivity.
Qed.

Lemma Qsum_abs (l : list Q) : (Qabs (Qsum l) <= Qsum (map Qabs l))%Q.
Proof.
  induction l as [| a l IH]; simpl.
  - discriminate.
  - eapply Qle_trans; [apply Qabs_triangle |].
    apply Qplus_le_r. exact IH.
Qed.

Lemma col_sum_exact (l : list num) :
  in_int64_range l -> (col_sum l == Qsum (map value l))%Q.
Proof.
  unfold in_int64_range, col_sum. intros H.
  destruct (forallb is_int l) eqn:E; [| reflexivity].
  pose proof (Qsum_ints l E) as Hz.
  pose proof (Qsum_abs (map value l)) as Ha. rewrite map_map in Ha.
  rewrite Hz in Ha.
  assert (Hlt : (inject_Z (Z.abs (fold_right Z.add 0%Z (map int_of l)))
                 < inject_Z (2 ^ 63))%Q)
    by (eapply Qle_lt_trans; [exact Ha | exact H]).
  rewrite <- Zlt_Qlt in Hlt.
  rewrite wrap64_small by lia. symmetry. exact Hz.
Qed.

Lemma Qsum_abs_filter {A : Type} (f : A -> num) (p : A -> bool) (l : list A) :
  (Qsum (map (fun n => Qabs (value n)) (map f (filter p l)))
   <= Qsum (map (fun n => Qabs (value n)) (map f l)))%Q.
Proof.
  induction l as [| a l IH]; simpl; [apply Qle_refl |].
  pose proof (Qabs_nonneg (value (f a))) as Ha.
  destruct (p a); simpl; lra.
Qed.

Lemma in_int64_range_filter {A : Type} (f : A -> num) (p : A -> bool) (l : list A) :
  in_int64_range (map f l) -> in_int64_range (map f (filter p l)).
Proof.
  unfold in_int64_range. intros H.
  eapply Qle_lt_trans; [apply Qsum_abs_filter | exact H].
Qed.

Lemma Qsum_map_ext {A : Type} (f g : A -> Q) (l : list A) :
  (forall a, In a l -> (f a == g a)%Q) -> (Qsum (map f l) == Qsum (map g l))%Q.
Proof.
  induction l as [| a l IH]; intros H; simpl; [reflexivity |].
  rewrite (H a (or_introl eq_refl)), IH; [reflexivity |].
  intros b Hb. apply H. now right.
Qed.

(** Grouping by a key and summing each group loses nothing. *)
Lemma Qsum_filter_split {A : Type} (f : A -> Q) (p q : A -> bool) (l : list A) :
  (forall a, In a l -> p a = true -> q a = false) ->
  (Qsum (map f (filter (fun a => p a || q a) l))
   == Qsum (map f (filter p l)) + Qsum (map f (filter q l)))%Q.
Proof.
  induction l as [| a l IH]; intros Hdisj; simpl.
  - ring.
  - assert (IH' := IH (fun b Hb => Hdisj b (or_intror Hb))).
    destruct (p a) eqn:Hp; simpl.
    + rewrite (Hdisj a (or_introl eq_refl) Hp). simpl. rewrite IH'. ring.
    + destruct (q a); simpl; rewrite IH'; ring.
Qed.

Lemma Qsum_groups (rows : list ActivityRecord) (keys : list string) :
  NoDup keys ->
  (Qsum (map (fun k => Qsum (map xp_of (filter (app_is k) rows))) keys)
   == Qsum (map xp_of (filter (fun r => existsb (fun k => app_is k r) keys) rows)))%Q.
Proof.
  induction 1 as [| k keys Hk Hnd IH]; simpl.
  - induction rows; simpl; [ring | assumption].
  - rewrite IH.
    rewrite <- (Qsum_filter_split xp_of (app_is k)
                  (fun r => existsb (fun k' => app_is k' r) keys)).
    + reflexivity.
    + intros r _ Hr. unfold app_is in Hr.
      destruct (app r) as [a |] eqn:Ea; [| discriminate].
      apply String.eqb_eq in Hr. subst a.
      apply not_true_is_false. intros Hex.
      apply existsb_exists in Hex. destruct Hex as (x & Hx & Hxe).
      unfold app_is in Hxe. rewrite Ea in Hxe.
      apply String.eqb_eq in Hxe. congruence.
Qed.

Lemma filter_ext_in {A : Type} (p q : A -> bool) (l : list A) :
  (forall a, In a l -> p a = q a) -> filter p l = filter q l.
Proof.
  induction l as [| a l IH]; intros H; simpl; [reflexivity |].
  rewrite (H a (or_introl eq_refl)), IH; [reflexivity |].
  intros b Hb. apply H. now right.
Qed.

Lemma filter_all {A : Type} (p : A -> bool) (l : list A) :
  (forall a, In a l -> p a = true) -> filter p l = l.
Proof.
  induction l as [| a l IH]; intros H; simpl; [reflexivity |].
  rewrite (H a (or_introl eq_refl)). f_equal. apply IH. intros; apply H; now right.
Qed.

Lemma dropna_In {A : Type} (a : A) (l : list (option A)) :
  In a (dropna l) <-> In (Some a) l.
Proof.
  induction l as [| [b |] l IH]; simpl.
  - tauto.
  - rewrite IH. split; intros [H | H]; auto; left; congruence.
  - rewrite IH. split; [auto | intros [H | H]; [discriminate | assumption]].
Qed.

(** The rows of some group are the rows that name an app. *)
Lemma grouped_rows (daily_data : list ActivityRecord) :
  filter (fun r => existsb (fun k => app_is k r)
                     (sorted_unique_str (dropna (map app daily_data))))
         daily_data
  = filter named daily_data.
Proof.
  apply filter_ext_in. intros r Hr. unfold named, notna, app_is.
  destruct (app r) as [a |] eqn:Ea.
  - apply existsb_exists. exists a. split; [| apply String.eqb_refl].
    apply sorted_unique_str_In, dropna_In. rewrite <- Ea. now apply in_map.
  - apply not_true_is_false. intros H. apply existsb_exists in H.
    destruct H as (k & _ & H). discriminate.
Qed.

(** The group totals, when the XP column stays in the [int64] range. *)
Lemma app_groups_exact (daily_data : list ActivityRecord) (ag : string * Q) :
  in_int64_range (map xp_earned daily_data) ->
  In ag (app_groups daily_data) ->
  (snd ag == Qsum (map xp_of (filter (app_is (fst ag)) daily_data)))%Q.
Proof.
  intros Hr Hin. unfold app_groups in Hin. apply in_map_iff in Hin.
  destruct Hin as (k & <- & _). simpl.
  rewrite col_sum_exact by now apply in_int64_range_filter.
  rewrite map_map. reflexivity.
Qed.

Lemma app_groups_sum (daily_data : list ActivityRecord) :
  in_int64_range (map xp_earned daily_data) ->
  (Qsum (map snd (app_groups daily_data))
   == Qsum (map xp_of (filter named daily_data)))%Q.
Proof.
  intros Hr. unfold app_groups. rewrite map_map. simpl.
  rewrite (Qsum_map_ext _
             (fun k => Qsum (map xp_of (filter (app_is k) daily_data)))).
  - rewrite Qsum_groups by apply sorted_str_NoDup, sorted_unique_str_sorted.
    now rewrite grouped_rows.
  - intros k _. rewrite col_sum_exact by now apply in_int64_range_filter.
    rewrite map_map. reflexivity.
Qed.

(** The five category totals account for every XP point of the rows that
    name an app. *)
Lemma category_xp_total (daily_data : list ActivityRecord) :
  in_int64_range (map xp_earned daily_data) ->
  (split_total (category_xp daily_data)
   == Qsum (map xp_of (filter named daily_data)))%Q.
Proof.
  intros Hr. unfold category_xp. rewrite split_total_fold, app_groups_sum by exact Hr.
  unfold split_total, xp_zero; simpl. ring.
Qed.

(** The total of the XP column in that case. *)
Lemma total_xp_exact (daily_data : list ActivityRecord) :
  in_int64_range (map xp_earned daily_data) ->
  (col_sum (map xp_earned daily_data) == Qsum (map xp_of daily_data))%Q.
Proof.
  intros Hr. rewrite col_sum_exact by exact Hr. now rewrite map_map.
Qed.

(** ** Rounding *)

Lemma round_half_even_cases (x : Q) :
  let f := Qfloor x in
  ((x - inject_Z f < 1 # 2)%Q /\ round_half_even x = f)
  \/ ((1 # 2 < x - inject_Z f)%Q /\ round_half_even x = f + 1)
  \/ ((x - inject_Z f == 1 # 2)%Q
      /\ (round_half_even x = f \/ round_half_even x = f + 1)).
Proof.
  intros f. unfold round_half_even. fold f.
  destruct (Qcompare (x - inject_Z f) (1 # 2)) eqn:E.
  - right. right. split; [now apply Qeq_alt |].
    destruct (Z.even f); auto.
  - left. split; [now apply Qlt_alt | reflexivity].
  - right. left. split; [now apply Qgt_alt | reflexivity].
Qed.


Lemma round_half_even_mono (x y : Q) :
  (x <= y)%Q -> round_half_even x <= round_half_even y.
Proof.
  intros Hxy.
  pose proof (Qfloor_resp_le x y Hxy) as Hf.
  pose proof (Qfloor_le y) as Hylo.
  pose proof (Qlt_floor x) as Hxhi.
  destruct (Z.eq_dec (Qfloor x) (Qfloor y)) as [Heq | Hne].
  - destruct (round_half_even_cases x) as [[Hx Ex] | [[Hx Ex] | [Hx Ex]]];
    destruct (round_half_even_cases y) as [[Hy Ey] | [[Hy Ey] | [Hy Ey]]];
      simpl in *; rewrite Heq in *;
      try (exfalso; lra);
      try lia.
    unfold round_half_even. rewrite Heq.
    assert (Hc : Qcompare (x - inject_Z (Qfloor y)) (1 # 2) = Eq)
      by now apply Qeq_alt.
    assert (Hc' : Qcompare (y - inject_Z (Qfloor y)) (1 # 2) = Eq)
      by now apply Qeq_alt.
    rewrite Hc, Hc'. lia.
  - assert (round_half_even x <= Qfloor x + 1)
      by (destruct (round_half_even_cases x) as [[_ E] | [[_ E] | [_ [E | E]]]];
          simpl in E; lia).
    assert (Qfloor y <= round_half_even y)
      by (destruct (round_half_even_cases y) as [[_ E] | [[_ E] | [_ [E | E]]]];
          simpl in E; lia).
    lia.
Qed.


Lemma round1_mono (x y : Q) : (x <= y)%Q -> (round1 x <= round1 y)%Q.
Proof.
  intros Hxy. unfold round1.
  assert (Hm : round_half_even (x * 10) <= round_half_even (y * 10))
    by (apply round_half_even_mono; lra).
  rewrite Zle_Qle in Hm.
  unfold Qdiv. apply Qmult_le_compat_r; [assumption | discriminate].
Qed.

(** ** The metrics record, field by field *)

Lemma Qeq_bool_pos_Z (z : Z) : (0 <? z) = true -> Qeq_bool (inject_Z z) 0 = false.
Proof.
  intros H. apply Z.ltb_lt in H.
  apply not_true_is_false. intros E. apply Qeq_bool_iff in E.
  unfold Qeq, inject_Z in E; simpl in E. lia.
Qed.

Lemma Qeq_bool_pos_nat (n : nat) :
  (0 <? n)%nat = true -> Qeq_bool (nat_Q n) 0 = false.
Proof.
  intros H. apply Nat.ltb_lt in H. apply Qeq_bool_pos_Z, Z.ltb_lt. lia.
Qed.

Lemma Qeq_bool_pos_Q (q : Q) : Qltb 0 q = true -> Qeq_bool q 0 = false.
Proof.
  unfold Qltb. intros H. apply negb_true_iff in H.
  apply not_true_is_false. intros E. apply Qeq_bool_iff in E.
  assert (Hle : Qle_bool q 0 = true) by (apply Qle_bool_iff; rewrite E; apply Qle_refl).
  congruence.
Qed.

(** A guarded percentage always yields a number. *)
Lemma guarded_percent (c : bool) (a b : Q) :
  (c = true -> Qeq_bool b 0 = false) ->
  exists r, (if c then percent a b else Some 0%Q) = Some r
            /\ (c = false -> r = 0%Q)
            /\ (c = true -> r = round1 (a / b * 100)).
Proof.
  intros H. destruct c.
  - unfold percent, fdiv. rewrite (H eq_refl). cbn [bind].
    exists (round1 (a / b * 100)). repeat split; congruence.
  - exists 0%Q. repeat split; congruence.
Qed.

Lemma guarded_average (c : bool) (a b : Q) :
  (c = true -> Qeq_bool b 0 = false) ->
  exists r, (if c then x <- fdiv a b ;; Some (round1 x) else Some 0%Q) = Some r
            /\ (c = false -> r = 0%Q)
            /\ (c = true -> r = round1 (a / b)).
Proof.
  intros H. destruct c.
  - unfold fdiv. rewrite (H eq_refl). cbn [bind].
    exists (round1 (a / b)). repeat split; congruence.
  - exists 0%Q. repeat split; congruence.
Qed.

Lemma if_nonempty {A B : Type} (l : list A) (f : list A -> B) (b : B) :
  f [] = b -> (if (0 <? List.length l)%nat then f l else b) = f l.
Proof. destruct l; simpl; congruence. Qed.

Lemma nat_ltb_0_false (n : nat) : (0 <? n)%nat = false <-> n = O.
Proof. rewrite Nat.ltb_ge. lia. Qed.

Lemma nat_ltb_0_true (n : nat) : (0 <? n)%nat = true <-> n <> O.
Proof. rewrite Nat.ltb_lt. lia. Qed.

(** [compute_student_metrics] never fails, and its fields are as read. *)
Lemma compute_student_metrics_fields
    (row : AssessmentRecord) (daily_data : list ActivityRecord)
    (test_data : list TestAttemptRecord) (spring_rit : option Q)
    (effective_days expected_minutes : Z) :
  exists m,
    compute_student_metrics row daily_data test_data spring_rit
                            effective_days expected_minutes = Some m
    /\ fields_of row daily_data test_data effective_days expected_minutes m.
Proof.
  unfold compute_student_metrics. cbv zeta.
  rewrite (if_nonempty daily_data (fun l => col_sum (map active_minutes l)) 0%Q eq_refl).
  rewrite (if_nonempty daily_data (fun l => col_sum (map xp_earned l)) 0%Q eq_refl).
  rewrite (if_nonempty daily_data app_groups [] eq_refl).
  rewrite (if_nonempty test_data (@List.length _) O eq_refl).
  rewrite (if_nonempty test_data (fun l => List.length (filter passed l)) O eq_refl).
  rewrite (if_nonempty test_data doom_grades_of [] eq_refl).
  set (hmg_ := resolve_hmg (HMG row) test_data).
  set (A := col_sum (map active_minutes daily_data)).
  set (T := col_sum (map xp_earned daily_data)).
  fold (category_xp daily_data).
  assert (Hat :
    match hmg_ with
    | Some h =>
        if (0 <? List.length test_data)%nat
        then filter (fun tr => match test_grade tr with
                               | Some g => g =? py_int h + 1
                               | None => false
                               end) test_data
        else []
    | None => []
    end = hmg_plus1_tests hmg_ test_data).
  { unfold hmg_plus1_tests. destruct hmg_; [| reflexivity].
    now rewrite (if_nonempty test_data
                   (filter (fun tr => match test_grade tr with
                                      | Some g => g =? py_int q + 1
                                      | None => false
                                      end)) [] eq_refl). }
  rewrite Hat. clear Hat.
  destruct (guarded_percent (0 <? expected_minutes) A (inject_Z expected_minutes)
              (Qeq_bool_pos_Z _)) as (pe & -> & Hpe0 & Hpe).
  destruct (guarded_average (0 <? effective_days) A (inject_Z effective_days)
              (Qeq_bool_pos_Z _)) as (da & -> & Hda0 & Hda).
  destruct (guarded_percent (Qltb 0 T) (instr_of (category_xp daily_data)) T
              (Qeq_bool_pos_Q _)) as (pi & -> & Hpi0 & Hpi).
  destruct (guarded_percent (Qltb 0 T) (practice_of (category_xp daily_data)) T
              (Qeq_bool_pos_Q _)) as (pp & -> & Hpp0 & Hpp).
  destruct (guarded_percent (Qltb 0 T) (testing_of (category_xp daily_data)) T
              (Qeq_bool_pos_Q _)) as (pt & -> & Hpt0 & Hpt).
  destruct (guarded_percent (0 <? List.length test_data)%nat
              (nat_Q (List.length (filter passed test_data)))
              (nat_Q (List.length test_data))
              (Qeq_bool_pos_nat _)) as (er & -> & Her0 & Her).
  destruct (guarded_percent
              (0 <? List.length (hmg_plus1_tests hmg_ test_data))%nat
              (nat_Q (List.length (filter passed (hmg_plus1_tests hmg_ test_data))))
              (nat_Q (List.length (hmg_plus1_tests hmg_ test_data)))
              (Qeq_bool_pos_nat _)) as (pr & -> & Hpr0 & Hpr).
  cbn [bind].
  eexists. split; [reflexivity |].
  constructor; cbn [hmg doom_grades total_tests eff_tests hmg_plus1_total
                    hmg_plus1_passed pct_expected daily_avg pct_instr
                    pct_practice pct_testing eff_rate hmg_plus1_eff_rate];
    try reflexivity; try assumption.
  - intros H. auto.
  - intros H. auto.
  - intros H. apply Her0. now apply nat_ltb_0_false.
  - intros H. apply Her. now apply nat_ltb_0_true.
  - intros H. apply Hpr0. now apply nat_ltb_0_false.
  - intros H. apply Hpr. now apply nat_ltb_0_true.
Qed.

Lemma metrics_fields
    (row : AssessmentRecord) (daily_data : list ActivityRecord)
    (test_data : list TestAttemptRecord) (spring_rit : option Q)
    (effective_days expected_minutes : Z) (m : StudentMetrics) :
  compute_student_metrics row daily_data test_data spring_rit
                          effective_days expected_minutes = Some m ->
  fields_of row daily_data test_data effective_days expected_minutes m.
Proof.
  intros Hm.
  destruct (compute_student_metrics_fields row daily_data test_data spring_rit
              effective_days expected_minutes) as (m' & Hm' & F).
  congruence.
Qed.

Lemma Qltb_0_false (q : Q) : Qltb 0 q = false <-> (q <= 0)%Q.
Proof.
  unfold Qltb. rewrite negb_false_iff. apply Qle_bool_iff.
Qed.

Lemma Qltb_0_true (q : Q) : Qltb 0 q = true <-> (0 < q)%Q.
Proof.
  unfold Qltb. rewrite negb_true_iff. split; intros H.
  - apply Qnot_le_lt. intros Hle. apply Qle_bool_iff in Hle. congruence.
  - apply not_true_is_false. intros Hle. apply Qle_bool_iff in Hle.
    apply (Qlt_not_le _ _ H Hle).
Qed.

(** ** Guarded divisions *)

(** C8.  [compute_student_metrics] yields a record for every input: none
    of its divisions ever meets a zero divisor.  Percent-of-expected is 0
    when expected minutes is 0, the daily average is 0 when effective
    days is 0, the XP percentages are 0 when total XP is 0, and the
    effective-test rates (overall and at HMG+1) are 0 when the
    corresponding attempt count is 0. *)
Theorem C8_no_division_by_zero
    (row : AssessmentRecord) (daily_data : list ActivityRecord)
    (test_data : list TestAttemptRecord) (spring_rit : option Q)
    (effective_days expected_minutes : Z) :
  exists m,
    compute_student_metrics row daily_data test_data spring_rit
                            effective_days expected_minutes = Some m
    /\ (expected_minutes = 0 -> pct_expected m = 0%Q)
    /\ (effective_days = 0 -> daily_avg m = 0%Q)
    /\ ((col_sum (map xp_earned daily_data) == 0)%Q ->
        pct_instr m = 0%Q /\ pct_practice m = 0%Q /\ pct_testing m = 0%Q)
    /\ (total_tests m = O -> eff_rate m = 0%Q)
    /\ (hmg_plus1_total m = O -> hmg_plus1_eff_rate m = 0%Q).
Proof.
  destruct (compute_student_metrics_fields row daily_data test_data spring_rit
              effective_days expected_minutes) as (m & Hm & F).
  exists m. split; [exact Hm |].
  split; [| split; [| split; [| split]]].
  - intros ->. now apply (f_pct_expected_0 _ _ _ _ _ _ F).
  - intros ->. now apply (f_daily_avg_0 _ _ _ _ _ _ F).
  - intros H. apply (f_pct_xp_0 _ _ _ _ _ _ F), Qltb_0_false. rewrite H. apply Qle_refl.
  - apply (f_eff_rate_0 _ _ _ _ _ _ F).
  - apply (f_plus1_rate_0 _ _ _ _ _ _ F).
Qed.

(** ** XP category percentages *)


Lemma C8_no_division_by_zero_witness :
  exists m,
    compute_student_metrics (sample_row None None) [] [] None 0 0 = Some m
    /\ pct_expected m = 0%Q /\ daily_avg m = 0%Q
    /\ pct_instr m = 0%Q /\ eff_rate m = 0%Q /\ hmg_plus1_eff_rate m = 0%Q.
Proof.
  destruct (C8_no_division_by_zero (sample_row None None) [] [] None 0 0)
    as (m & Hm & He & Hd & Hx & Ht & Hp).
  exists m. split; [exact Hm |].
  pose proof (metrics_fields _ _ _ _ _ _ _ Hm) as F.
  pose proof (f_total_tests _ _ _ _ _ _ F) as Et.
  pose proof (f_plus1_total _ _ _ _ _ _ F) as Ep.
  rewrite (f_hmg _ _ _ _ _ _ F) in Ep.
  split; [apply He; reflexivity |].
  split; [apply Hd; reflexivity |].
  split; [apply Hx; reflexivity |].
  split; [apply Ht; exact Et |].
  apply Hp; exact Ep.
Defined.



(** ** Columns, keys and maxima *)

Lemma z_in_spec (z : Z) (l : list Z) : z_in z l = true <-> In z l.
Proof.
  unfold z_in. rewrite existsb_exists. split.
  - intros (x & Hx & E). apply Z.eqb_eq in E. now subst.
  - intros H. exists z. split; [assumption | apply Z.eqb_refl].
Qed.

Lemma insert_uniq_In (z x : Z) (l : list Z) :
  In x (insert_uniq z l) <-> x = z \/ In x l.
Proof.
  induction l as [| y ys IH]; simpl.
  - intuition.
  - destruct (z <? y); [simpl; intuition |].
    destruct (Z.eqb_spec z y) as [-> | Hne]; simpl.
    + intuition.
    + rewrite IH. intuition.
Qed.

Lemma sorted_unique_In (x : Z) (l : list Z) :
  In x (sorted_unique l) <-> In x l.
Proof.
  induction l as [| a l IH]; simpl; [tauto |].
  rewrite insert_uniq_In, IH. intuition.
Qed.

Lemma fold_left_max_spec (zs : list Z) :
  forall z,
    let r := fold_left Z.max zs z in
    (r = z \/ In r zs) /\ z <= r /\ (forall y, In y zs -> y <= r).
Proof.
  induction zs as [| a zs IH]; intros z; simpl.
  - split; [now left |]. split; [lia |]. intros y [].
  - destruct (IH (Z.max z a)) as (Hin & Hle & Hall).
    split; [| split].
    + destruct Hin as [E | Hin]; [| now right; right].
      destruct (Z.max_spec z a) as [[_ E'] | [_ E']]; rewrite E' in E.
      * right. left. congruence.
      * left. congruence.
    + lia.
    + intros y [-> | Hy]; [lia | now apply Hall].
Qed.

Lemma col_max_spec (l : list (option Z)) (m : Z) :
  col_max l = Some m ->
  In (Some m) l /\ forall z, In (Some z) l -> z <= m.
Proof.
  unfold col_max. destruct (dropna l) as [| z zs] eqn:E; [discriminate |].
  intros [= <-].
  destruct (fold_left_max_spec zs z) as (Hin & Hle & Hall).
  split.
  - apply dropna_In. rewrite E. destruct Hin as [-> | Hin]; [now left | now right].
  - intros y Hy. apply dropna_In in Hy. rewrite E in Hy.
    destruct Hy as [<- | Hy]; [exact Hle | now apply Hall].
Qed.

Lemma col_max_none (l : list (option Z)) :
  col_max l = None <-> forall z, ~ In (Some z) l.
Proof.
  unfold col_max. split.
  - destruct (dropna l) as [| z zs] eqn:E; [| discriminate].
    intros _ z Hz. apply dropna_In in Hz. rewrite E in Hz. contradiction.
  - intros H. destruct (dropna l) as [| z zs] eqn:E; [reflexivity |].
    exfalso. apply (H z). apply dropna_In. rewrite E. now left.
Qed.

(** ** Doom-loop grades *)

Lemma grade_fails_count (test_data : list TestAttemptRecord) (g : Z) :
  grade_fails test_data g = failing_attempts g test_data.
Proof.
  unfold grade_fails, failing_attempts, grade_is.
  induction test_data as [| tr l IH]; simpl; [reflexivity |].
  destruct (failed tr); simpl; [| exact IH].
  destruct (test_grade tr) as [g' |]; simpl; [| exact IH].
  destruct (Z.eq_dec g' g) as [-> | Hne].
  - rewrite Z.eqb_refl. simpl. now rewrite IH.
  - apply Z.eqb_neq in Hne. rewrite Hne. exact IH.
Qed.

Lemma grades_passed_In (test_data : list TestAttemptRecord) (g : Z) :
  In g (grades_passed test_data) <-> passing_attempts g test_data <> O.
Proof.
  unfold grades_passed, passing_attempts, grade_is.
  induction test_data as [| tr l IH]; simpl; [tauto |].
  destruct (passed tr); simpl; [| exact IH].
  destruct (test_grade tr) as [g' |]; simpl; [| exact IH].
  destruct (Z.eqb_spec g' g) as [-> | Hne]; simpl.
  - split; [discriminate | now left].
  - rewrite <- IH. split; [intros [H | H]; [contradiction | assumption] | now right].
Qed.

Lemma doom_grades_of_In (test_data : list TestAttemptRecord) (g : Z) :
  In g (doom_grades_of test_data)
  <-> (3 <= failing_attempts g test_data)%nat /\ passing_attempts g test_data = O.
Proof.
  unfold doom_grades_of.
  rewrite !filter_In, sorted_unique_In, negb_true_iff, Nat.leb_le.
  rewrite grade_fails_count.
  assert (Hp : z_in g (grades_passed test_data) = false
               <-> passing_attempts g test_data = O).
  { rewrite <- not_true_iff_false, z_in_spec, grades_passed_In. lia. }
  rewrite Hp.
  split; [tauto |].
  intros (H3 & H0). repeat split; try assumption.
  rewrite <- grade_fails_count in H3. unfold grade_fails in H3.
  apply (count_occ_In Z.eq_dec). lia.
Qed.

Lemma low_growth_doom_loop_In (rows : list LowGrowth.TestRow) (g : Z) :
  In g (LowGrowth.doom_loop_grades rows)
  <-> exists r a, In r rows /\ LowGrowth.test_grade r = Some g
                  /\ LowGrowth.attempt_no r = Some a /\ 3 <= a.
Proof.
  unfold LowGrowth.doom_loop_grades, LowGrowth.attempts_by_grade.
  rewrite filter_In, sorted_unique_In, dropna_In, in_map_iff.
  set (grp := filter _ rows).
  assert (Hgrp : forall r, In r grp <-> In r rows /\ LowGrowth.test_grade r = Some g).
  { intros r. unfold grp. rewrite filter_In.
    destruct (LowGrowth.test_grade r) as [g' |].
    - rewrite Z.eqb_eq. split; intros [H1 H2]; split; congruence.
    - split; intros [H1 H2]; discriminate. }
  split.
  - intros (_ & Hmax).
    destruct (col_max (map LowGrowth.attempt_no grp)) as [m |] eqn:E;
      [| discriminate].
    apply Z.leb_le in Hmax.
    apply col_max_spec in E. destruct E as (Hin & _).
    apply in_map_iff in Hin. destruct Hin as (r & Hr & Hrin).
    apply Hgrp in Hrin. destruct Hrin as (Hrows & Hg).
    exists r, m. auto.
  - intros (r & a & Hin & Hg & Ha & H3).
    split; [exists r; auto |].
    destruct (col_max (map LowGrowth.attempt_no grp)) as [m |] eqn:E.
    + apply col_max_spec in E. destruct E as (_ & Hall).
      apply Z.leb_le. specialize (Hall a).
      assert (a <= m); [| lia].
      apply Hall. rewrite <- Ha. apply in_map. apply Hgrp. auto.
    + exfalso. rewrite col_max_none in E. apply (E a).
      rewrite <- Ha. apply in_map. apply Hgrp. auto.
Qed.

Example doom_fail_fail_fail_pass :
  doom_grades_of [fail_at 5; fail_at 5; fail_at 5; pass_at 5] = [].
Proof. reflexivity. Qed.

Example doom_fail_fail_fail :
  doom_grades_of [fail_at 5; fail_at 5; fail_at 5] = [5].
Proof. reflexivity. Qed.

(** C1, as the code has it.  In the reporting pipeline a grade with
    three or more failing attempts is a doom-loop grade of the student
    if and only if the student has no passing attempt at that grade.
    The stand-alone low-growth script has a different rule: a grade is a
    doom-loop grade if and only if some attempt at it carries an attempt
    number of 3 or more, whether or not the grade was passed. *)
Theorem C1_doom_loop_grades
    (row : AssessmentRecord) (daily_data : list ActivityRecord)
    (test_data : list TestAttemptRecord) (spring_rit : option Q)
    (effective_days expected_minutes : Z) (m : StudentMetrics)
    (g : Z) (history : list LowGrowth.TestRow) :
  compute_student_metrics row daily_data test_data spring_rit
                          effective_days expected_minutes = Some m ->
  ((3 <= failing_attempts g test_data)%nat ->
   (In g (doom_grades m) <-> passing_attempts g test_data = O))
  /\ (In g (LowGrowth.doom_loop_grades history)
      <-> exists r a, In r history /\ LowGrowth.test_grade r = Some g
                      /\ LowGrowth.attempt_no r = Some a /\ 3 <= a).
Proof.
  intros Hm. pose proof (metrics_fields _ _ _ _ _ _ _ Hm) as F.
  split.
  - intros H3. rewrite (f_doom _ _ _ _ _ _ F), doom_grades_of_In. tauto.
  - apply low_growth_doom_loop_In.
Qed.

Lemma C1_doom_loop_grades_witness :
  (exists m,
      compute_student_metrics (sample_row None None) []
        [fail_at 5; fail_at 5; fail_at 5; pass_at 5] None 86 2150 = Some m
      /\ ~ In 5 (doom_grades m))
  /\ (exists m,
         compute_student_metrics (sample_row None None) []
           [fail_at 5; fail_at 5; fail_at 5] None 86 2150 = Some m
         /\ In 5 (doom_grades m)).
Proof.
  split; eexists; (split; [vm_compute; reflexivity |]).
  - match goal with
    | |- ~ In 5 (doom_grades ?m) =>
        destruct (C1_doom_loop_grades (sample_row None None) []
                    [fail_at 5; fail_at 5; fail_at 5; pass_at 5] None 86 2150
                    m 5 [] ltac:(vm_compute; reflexivity)) as (H & _)
    end.
    intros Hin. apply H in Hin; [discriminate Hin | vm_compute; lia].
  - match goal with
    | |- In 5 (doom_grades ?m) =>
        destruct (C1_doom_loop_grades (sample_row None None) []
                    [fail_at 5; fail_at 5; fail_at 5] None 86 2150
                    m 5 [] ltac:(vm_compute; reflexivity)) as (H & _)
    end.
    apply H; [vm_compute; lia | reflexivity].
Defined.

(** C1 fails as stated on the low-growth script: three failed attempts
    at grade 5 followed by a pass still make grade 5 a doom-loop grade. *)
Lemma C1_counterexample :
  map LowGrowth.effective_test passed_on_fourth
  = [Some 0%Q; Some 0%Q; Some 0%Q; Some 1%Q]
  /\ map LowGrowth.test_grade passed_on_fourth = [Some 5; Some 5; Some 5; Some 5]
  /\ LowGrowth.doom_loop_grades passed_on_fourth = [5].
Proof. repeat split. Qed.

(** ** Resolved HMG *)

Lemma resolve_hmg_cases (h0 : option Q) (test_data : list TestAttemptRecord) :
  resolve_hmg h0 test_data = h0
  \/ ((h0 = None \/ exists h, h0 = Some h /\ (h <= 1)%Q)
      /\ exists g,
           col_max (map test_grade (filter passed test_data)) = Some g
           /\ resolve_hmg h0 test_data = Some (inject_Z g)
           /\ forall h, h0 = Some h -> (h < inject_Z g)%Q).
Proof.
  unfold resolve_hmg.
  destruct ((isna h0 || opt_test (fun h => Qle_bool h 1) h0)
            && negb (List.length test_data =? 0)%nat) eqn:C;
    [| now left].
  destruct (0 <? List.length (filter passed test_data))%nat; [| now left].
  apply andb_true_iff in C. destruct C as (C & _).
  destruct (col_max (map test_grade (filter passed test_data))) as [g |] eqn:M;
    simpl.
  - destruct h0 as [h |]; simpl in *.
    + destruct (Qgtb (inject_Z g) h) eqn:G; [| now left].
      right. split.
      * right. exists h. split; [reflexivity | now apply Qle_bool_iff].
      * exists g. repeat split. intros h' [= <-].
        unfold Qgtb in G. apply negb_true_iff in G.
        apply Qnot_le_lt. intros Hle. apply Qle_bool_iff in Hle. congruence.
    + right. split; [now left |]. exists g. repeat split. discriminate.
  - destruct h0; simpl; now left.
Qed.

(** C2.  The resolved HMG is the spreadsheet HMG whenever that value is
    present and above 1.  It differs from the spreadsheet value only if
    that value is missing or at most 1 and the student has passing
    attempts, and then it is the highest grade among the passing
    attempts.  A present spreadsheet value is never lowered. *)
Theorem C2_resolved_hmg
    (row : AssessmentRecord) (daily_data : list ActivityRecord)
    (test_data : list TestAttemptRecord) (spring_rit : option Q)
    (effective_days expected_minutes : Z) (m : StudentMetrics) :
  compute_student_metrics row daily_data test_data spring_rit
                          effective_days expected_minutes = Some m ->
  (forall h, HMG row = Some h -> (1 < h)%Q -> hmg m = Some h)
  /\ (hmg m <> HMG row ->
      (HMG row = None \/ exists h, HMG row = Some h /\ (h <= 1)%Q)
      /\ exists g,
           hmg m = Some (inject_Z g)
           /\ passing_attempts g test_data <> O
           /\ forall g', passing_attempts g' test_data <> O -> g' <= g)
  /\ (forall h, HMG row = Some h ->
      exists h', hmg m = Some h' /\ (h <= h')%Q).
Proof.
  intros Hm. pose proof (metrics_fields _ _ _ _ _ _ _ Hm) as F.
  rewrite (f_hmg _ _ _ _ _ _ F).
  destruct (resolve_hmg_cases (HMG row) test_data)
    as [E | (Hlow & g & Hmax & E & Hgt)]; rewrite E.
  - split; [auto |]. split; [congruence |].
    intros h Hh. exists h. split; [assumption | apply Qle_refl].
  - split; [| split].
    + intros h Hh H1. exfalso.
      destruct Hlow as [Hn | (h' & Hh' & Hle)]; [congruence |].
      assert (h' = h) by congruence. subst h'.
      apply (Qlt_not_le _ _ H1 Hle).
    + intros _. split; [exact Hlow |].
      exists g. split; [reflexivity |].
      apply col_max_spec in Hmax. destruct Hmax as (Hin & Hall).
      split.
      * apply grades_passed_In. unfold grades_passed. now apply dropna_In.
      * intros g' Hg'. apply Hall.
        apply grades_passed_In in Hg'. unfold grades_passed in Hg'.
        now apply dropna_In.
    + intros h Hh. exists (inject_Z g). split; [reflexivity |].
      apply Qlt_le_weak. now apply Hgt.
Qed.

Example hmg_6_passes_at_4_and_5 :
  resolve_hmg (Some 6%Q) [pass_at 4; pass_at 5] = Some 6%Q.
Proof. reflexivity. Qed.

Example hmg_1_pass_at_7 :
  resolve_hmg (Some 1%Q) [pass_at 7] = Some 7%Q.
Proof. reflexivity. Qed.

Lemma C2_resolved_hmg_witness :
  (exists m,
      compute_student_metrics (sample_row (Some 6%Q) None) []
        [pass_at 4; pass_at 5] None 86 2150 = Some m
      /\ hmg m = Some 6%Q)
  /\ (exists m,
         compute_student_metrics (sample_row (Some 1%Q) None) []
           [pass_at 7] None 86 2150 = Some m
         /\ hmg m = Some 7%Q
         /\ exists h', hmg m = Some h' /\ (1 <= h')%Q).
Proof.
  split; eexists; (split; [vm_compute; reflexivity |]).
  - match goal with
    | |- hmg ?m = _ =>
        destruct (C2_resolved_hmg (sample_row (Some 6%Q) None) []
                    [pass_at 4; pass_at 5] None 86 2150 m
                    ltac:(vm_compute; reflexivity)) as (H & _)
    end.
    apply H; reflexivity.
  - split; [reflexivity |].
    match goal with
    | |- exists h', hmg ?m = _ /\ _ =>
        destruct (C2_resolved_hmg (sample_row (Some 1%Q) None) []
                    [pass_at 7] None 86 2150 m
                    ltac:(vm_compute; reflexivity)) as (_ & _ & H)
    end.
    apply H; reflexivity.
Defined.

(** ** Attempts without a score *)




Lemma nat_Q_nonneg (n : nat) : (0 <= nat_Q n)%Q.
Proof.
  unfold nat_Q. change 0%Q with (inject_Z 0). rewrite <- Zle_Qle. lia.
Qed.

Lemma nat_Q_pos (n : nat) : (0 < n)%nat -> (0 < nat_Q n)%Q.
Proof.
  intros H. unfold nat_Q. change 0%Q with (inject_Z 0). rewrite <- Zlt_Qlt. lia.
Qed.





(** ** Unlisted app names *)

Lemma low_growth_total_add_row (acc : LowGrowth.xp_buckets)
    (xp_row : option string * Q) :
  (LowGrowth.total_xp (LowGrowth.add_row acc xp_row)
   == LowGrowth.total_xp acc + snd xp_row)%Q.
Proof.
  unfold LowGrowth.add_row, LowGrowth.total_xp.
  destruct (LowGrowth.categorize_cell (fst xp_row)); simpl; ring.
Qed.

Lemma low_growth_total_fold (student_xp : list (option string * Q)) :
  forall acc,
    (LowGrowth.total_xp (fold_left LowGrowth.add_row student_xp acc)
     == LowGrowth.total_xp acc + Qsum (map snd student_xp))%Q.
Proof.
  induction student_xp as [| r l IH]; intros acc; simpl.
  - ring.
  - rewrite IH, low_growth_total_add_row. ring.
Qed.

(** C4, as the code has it.  The pipeline's categorizer puts every name
    outside its tables in Admin/Other and never answers Unknown; when
    the XP column stays in the int64 range its five category totals add
    up to the XP of the rows that name an app, whatever the names.  The
    low-growth script's categorizer answers Unknown for a name outside
    its four tables; such XP goes to a bucket of its own, which is part
    of total XP. *)
Theorem C4_unlisted_apps
    (app_name : string) (daily_data : list ActivityRecord)
    (student_xp : list (option string * Q)) :
  (unlisted app_name -> categorize_app app_name = AdminOther)
  /\ categorize_app app_name <> Unknown
  /\ (in_int64_range (map xp_earned daily_data) ->
      (split_total (category_xp daily_data)
       == Qsum (map xp_of (filter named daily_data)))%Q)
  /\ (unlisted_low_growth app_name ->
      LowGrowth.categorize_app app_name = Unknown)
  /\ (LowGrowth.total_xp (LowGrowth.xp_breakdown student_xp)
      == Qsum (map snd student_xp))%Q.
Proof.
  split; [apply categorize_app_unlisted |].
  split; [apply categorize_app_never_unknown |].
  split; [apply category_xp_total |].
  split; [apply low_growth_categorize_unlisted |].
  unfold LowGrowth.xp_breakdown. rewrite low_growth_total_fold.
  unfold LowGrowth.total_xp; simpl. ring.
Qed.

Lemma C4_unlisted_apps_witness :
  categorize_app "Khan Academy" = AdminOther
  /\ LowGrowth.categorize_app "Khan Academy" = Unknown
  /\ (split_total (category_xp [activity "Khan Academy" 100%Q 10%Q]) == 100)%Q.
Proof.
  destruct (C4_unlisted_apps "Khan Academy" [activity "Khan Academy" 100%Q 10%Q] [])
    as (H & _ & Hs & H' & _).
  split; [apply H; repeat split |].
  split; [apply H'; repeat split |].
  rewrite Hs by (vm_compute; reflexivity). reflexivity.
Defined.

(** C4 fails as stated on the low-growth script: an unlisted name is
    categorized Unknown, and its XP is in none of the category totals
    the script reports.  In the pipeline, XP of a row that names no app
    is in total XP and in none of the five category totals. *)
Lemma C4_counterexample :
  unlisted_low_growth "Khan Academy"
  /\ LowGrowth.categorize_app "Khan Academy" = Unknown
  /\ LowGrowth.categorize_app "Khan Academy" <> AdminOther
  /\ (LowGrowth.reported_xp
        (LowGrowth.xp_breakdown [(Some "Khan Academy"%string, 100%Q)]) == 0)%Q
  /\ (col_sum (map xp_earned unnamed_and_instruction) == 200)%Q
  /\ (split_total (category_xp unnamed_and_instruction) == 100)%Q.
Proof.
  split; [repeat split |].
  split; [reflexivity |].
  split; [discriminate |].
  split; [reflexivity |]. split; reflexivity.
Qed.

(** ** Inverted term window *)

Example start_date_is_thursday : weekday START_DATE = 3.
Proof. reflexivity. Qed.

Example term_effective_days :
  fst (fst (compute_school_days START_DATE END_DATE)) = 86
  /\ snd (fst (compute_school_days START_DATE END_DATE)) = 2150.
Proof. split; reflexivity. Qed.

Lemma days_between_inverted (start_date end_date : Z) :
  end_date < start_date -> days_between start_date end_date = [].
Proof.
  intros H. unfold days_between.
  replace (Z.to_nat (end_date - start_date + 1)) with O by lia.
  reflexivity.
Qed.

Lemma school_days_inverted (start_date end_date : Z) :
  end_date < start_date -> school_days start_date end_date = [].
Proof.
  intros H. unfold school_days, all_days.
  now rewrite days_between_inverted.
Qed.

(** C5, as the code has it.  For a term whose start date is after its
    end date the calculator finds no school day and returns a value,
    but the day taken off for the two half-days is taken off all the
    same: effective days are -1 and expected minutes -25.  The
    aggregator treats such a target as no target: percent-of-expected
    and daily average are 0. *)
Theorem C5_inverted_term
    (start_date end_date : Z) (row : AssessmentRecord)
    (daily_data : list ActivityRecord) (test_data : list TestAttemptRecord)
    (spring_rit : option Q) :
  end_date < start_date ->
  compute_school_days start_date end_date = (-1, -25, [])
  /\ LowGrowth.effective_school_days start_date end_date = -1
  /\ LowGrowth.EXPECTED_MINUTES start_date end_date = -25
  /\ exists m,
       compute_student_metrics row daily_data test_data spring_rit (-1) (-25)
       = Some m
       /\ pct_expected m = 0%Q /\ daily_avg m = 0%Q.
Proof.
  intros H.
  unfold compute_school_days, LowGrowth.EXPECTED_MINUTES,
    LowGrowth.effective_school_days.
  rewrite (school_days_inverted _ _ H). simpl.
  repeat split.
  destruct (compute_student_metrics_fields row daily_data test_data spring_rit
              (-1) (-25)) as (m & Hm & F).
  exists m. split; [exact Hm |]. split.
  - now apply (f_pct_expected_0 _ _ _ _ _ _ F).
  - now apply (f_daily_avg_0 _ _ _ _ _ _ F).
Qed.

Lemma C5_inverted_term_witness :
  compute_school_days END_DATE START_DATE = (-1, -25, []).
Proof.
  apply (C5_inverted_term END_DATE START_DATE (sample_row None None) [] [] None).
  vm_compute. reflexivity.
Defined.

(** C5 fails as stated: with the term window inverted the effective
    days are -1 and the expected minutes -25, not 0. *)
Lemma C5_counterexample :
  START_DATE < END_DATE
  /\ fst (fst (compute_school_days END_DATE START_DATE)) <> 0
  /\ snd (fst (compute_school_days END_DATE START_DATE)) <> 0.
Proof.
  split; [reflexivity |]. split; vm_compute; discriminate.
Qed.

(** ** Which test attempts are used *)

Lemma ts_geb_day_spec (o : option timestamp) (day : Z) :
  ts_geb_day o day = true <-> exists ts, o = Some ts /\ day <= ts_day ts.
Proof.
  unfold ts_geb_day. destruct o as [ts |].
  - rewrite orb_true_iff, andb_true_iff, Z.ltb_lt, Z.eqb_eq, N.leb_le.
    split.
    + intros H. exists ts. split; [reflexivity | lia].
    + intros (ts' & [= <-] & H).
      destruct (Z.eq_dec (ts_day ts) day); [right | left]; lia.
  - split; [discriminate | intros (ts & H & _); discriminate].
Qed.

(** C7, as the code has it.  The attempts used for a student are those
    of the loaded table whose subject is Reading and whose submission
    date is present and on or after the term start; an attempt before
    the term start or without a date is dropped.  The term end plays no
    part: an attempt submitted after it is kept. *)
Theorem C7_attempts_used
    (df : list TestAttemptRecord) (who : string) (r : TestAttemptRecord) :
  In r (tests_of who (load_reading_results df))
  <-> In r df
      /\ student_email r = who
      /\ subject r = "Reading"%string
      /\ exists ts, score_date_utc r = Some ts /\ START_DATE <= ts_day ts.
Proof.
  unfold tests_of, load_reading_results.
  rewrite !filter_In, !String.eqb_eq, ts_geb_day_spec.
  change (date 2025 8 14) with START_DATE.
  tauto.
Qed.

Lemma C7_attempts_used_witness :
  In late_attempt
     (tests_of "student@example.org"
        (load_reading_results [early_attempt; late_attempt]))
  /\ ~ In early_attempt
       (tests_of "student@example.org"
          (load_reading_results [early_attempt; late_attempt])).
Proof.
  split.
  - apply (C7_attempts_used [early_attempt; late_attempt]).
    split; [right; left; reflexivity |].
    split; [reflexivity |]. split; [reflexivity |].
    eexists. split; [reflexivity |]. vm_compute. discriminate.
  - intros H.
    apply (C7_attempts_used [early_attempt; late_attempt]) in H.
    destruct H as (_ & _ & _ & ts & [= <-] & Hle).
    vm_compute in Hle. apply Hle. reflexivity.
Defined.

(** C7 fails as stated: an attempt submitted after the term end is not
    dropped. *)
Lemma C7_counterexample :
  (exists ts, score_date_utc late_attempt = Some ts /\ END_DATE < ts_day ts)
  /\ load_reading_results [late_attempt] = [late_attempt].
Proof.
  split; [| reflexivity].
  eexists. split; [reflexivity | reflexivity].
Qed.

(** ** Dictionaries keyed by email *)

Lemma dict_set_keys_In {V : Type} (k k' : string) (v : V) (d : list (string * V)) :
  In k' (map fst (dict_set k v d)) <-> k' = k \/ In k' (map fst d).
Proof.
  induction d as [| [k0 v0] d IH]; simpl.
  - intuition.
  - destruct (String.eqb_spec k k0) as [-> | Hne]; simpl.
    + intuition.
    + rewrite IH. intuition.
Qed.

Lemma dict_set_keys_NoDup {V : Type} (k : string) (v : V) (d : list (string * V)) :
  NoDup (map fst d) -> NoDup (map fst (dict_set k v d)).
Proof.
  induction d as [| [k0 v0] d IH]; simpl; intros Hnd.
  - repeat constructor. intros [].
  - inversion Hnd as [| ? ? Hnotin Hnd']; subst.
    destruct (String.eqb_spec k k0) as [-> | Hne]; simpl.
    + now constructor.
    + constructor; [| now apply IH].
      rewrite dict_set_keys_In. intros [E | Hin]; [congruence | contradiction].
Qed.

Lemma dict_set_entries {V : Type} (k : string) (v : V) (d : list (string * V))
    (e : string * V) :
  In e (dict_set k v d) -> e = (k, v) \/ In e d.
Proof.
  induction d as [| [k0 v0] d IH]; simpl.
  - intuition.
  - destruct (String.eqb k k0); simpl; intuition.
Qed.

Lemma fold_email_keys_In (l : list StudentMetrics) :
  forall d k,
    In k (map fst (fold_left set_by_email l d))
    <-> In k (map fst d) \/ In k (map email l).
Proof.
  induction l as [| s l IH]; intros d k; simpl.
  - tauto.
  - rewrite IH. unfold set_by_email. rewrite dict_set_keys_In.
    intuition.
Qed.

Lemma fold_email_keys_NoDup (l : list StudentMetrics) :
  forall d, NoDup (map fst d) -> NoDup (map fst (fold_left set_by_email l d)).
Proof.
  induction l as [| s l IH]; intros d Hnd; simpl; [assumption |].
  apply IH. now apply dict_set_keys_NoDup.
Qed.

Lemma fold_email_entries (l : list StudentMetrics) :
  forall d e,
    In e (fold_left set_by_email l d) ->
    In e d \/ (In (snd e) l /\ fst e = email (snd e)).
Proof.
  induction l as [| s l IH]; intros d e; simpl; [auto |].
  intros H. apply IH in H. destruct H as [H | [H E]]; [| auto].
  apply dict_set_entries in H. destruct H as [-> | H]; auto.
Qed.

Lemma by_email_keys_In (l : list StudentMetrics) (k : string) :
  In k (map fst (by_email l)) <-> In k (map email l).
Proof.
  unfold by_email. rewrite fold_email_keys_In. simpl. tauto.
Qed.

Lemma by_email_keys_NoDup (l : list StudentMetrics) :
  NoDup (map fst (by_email l)).
Proof.
  unfold by_email. apply fold_email_keys_NoDup. constructor.
Qed.

Lemma by_email_entries (l : list StudentMetrics) (e : string * StudentMetrics) :
  In e (by_email l) -> In (snd e) l /\ fst e = email (snd e).
Proof.
  unfold by_email. intros H. apply fold_email_entries in H.
  destruct H as [[] | H]. exact H.
Qed.

(** The values of the dictionary carry the keys as their emails. *)
Lemma by_email_values_emails (l : list StudentMetrics) :
  map email (map snd (by_email l)) = map fst (by_email l).
Proof.
  rewrite map_map. apply map_ext_in.
  intros e He. apply by_email_entries in He. symmetry. apply He.
Qed.

(** ** Systemic issues *)

Lemma issue_eqb_eq (a b : issue) : issue_eqb a b = true <-> a = b.
Proof.
  destruct a, b; simpl; split; intros H; try reflexivity; discriminate.
Qed.

Lemma issue_counts_In (i : issue) (studs : list StudentMetrics)
    (s : StudentMetrics) :
  In s (issue_counts i studs) <-> In s studs /\ In i (issues s).
Proof.
  unfold issue_counts. rewrite in_flat_map. split.
  - intros (x & Hx & Hs). apply in_map_iff in Hs.
    destruct Hs as (j & <- & Hj). apply filter_In in Hj.
    destruct Hj as (Hj & E). apply issue_eqb_eq in E. subst j. auto.
  - intros (Hs & Hi). exists s. split; [assumption |].
    apply in_map_iff. exists i. split; [reflexivity |].
    apply filter_In. split; [assumption | now apply issue_eqb_eq].
Qed.

Lemma insert_ranked_In (x y : SystemicIssue) (l : list SystemicIssue) :
  In y (insert_ranked x l) <-> y = x \/ In y l.
Proof.
  induction l as [| z l IH]; simpl.
  - intuition.
  - destruct (count z <=? count x)%nat; simpl; [intuition |].
    rewrite IH. intuition.
Qed.

Lemma sort_ranked_In (y : SystemicIssue) (l : list SystemicIssue) :
  In y (sort_ranked l) <-> In y l.
Proof.
  induction l as [| x l IH]; simpl; [tauto |].
  rewrite insert_ranked_In, IH. intuition.
Qed.

Lemma insert_ranked_length (x : SystemicIssue) (l : list SystemicIssue) :
  List.length (insert_ranked x l) = S (List.length l).
Proof.
  induction l as [| z l IH]; simpl; [reflexivity |].
  destruct (count z <=? count x)%nat; simpl; [reflexivity | now rewrite IH].
Qed.

Lemma sort_ranked_length (l : list SystemicIssue) :
  List.length (sort_ranked l) = List.length l.
Proof.
  induction l as [| x l IH]; simpl; [reflexivity |].
  now rewrite insert_ranked_length, IH.
Qed.

Lemma summaries_at_most_one (studs : list StudentMetrics) :
  (List.length (testing_summary studs) <= 1)%nat
  /\ (List.length (instruction_summary studs) <= 1)%nat
  /\ (List.length (time_summary studs) <= 1)%nat.
Proof.
  unfold testing_summary, instruction_summary, time_summary.
  repeat split;
    match goal with
    | |- context [if ?b then _ else _] => destruct b; simpl; lia
    end.
Qed.

(** Nothing is cut off by [ranked[:3]]: the ranking holds the summaries
    that were built, reordered. *)
Lemma detect_systemic_issues_In (studs : list StudentMetrics)
    (e : SystemicIssue) :
  In e (detect_systemic_issues studs)
  <-> In e (testing_summary studs) \/ In e (instruction_summary studs)
      \/ In e (time_summary studs).
Proof.
  unfold detect_systemic_issues.
  destruct (summaries_at_most_one studs) as (H1 & H2 & H3).
  rewrite firstn_all2.
  - rewrite sort_ranked_In, !in_app_iff. tauto.
  - rewrite sort_ranked_length, !length_app. lia.
Qed.

(** Every ranked summary is one of the three that the function builds. *)
Lemma detect_systemic_issues_keys (studs : list StudentMetrics)
    (e : SystemicIssue) :
  In e (detect_systemic_issues studs) ->
  key e = "OVER_TESTING_DOOM"%string
  \/ key e = "MISSING_READING_INSTRUCTION"%string
  \/ key e = "TIME_NO_GROWTH"%string.
Proof.
  rewrite detect_systemic_issues_In.
  unfold testing_summary, instruction_summary, time_summary.
  intros [H | [H | H]];
    match type of H with
    | context [if ?b then _ else _] => destruct b
    end; simpl in H; try contradiction;
    destruct H as [<- | []]; simpl; auto.
Qed.

Lemma merged_once (l : list StudentMetrics) (s : StudentMetrics) :
  In s l ->
  (0 <? List.length (by_email l))%nat = true
  /\ count_occ string_dec (map email (map snd (by_email l))) (email s) = 1%nat
  /\ NoDup (map email (map snd (by_email l))).
Proof.
  intros Hs.
  assert (Hk : In (email s) (map fst (by_email l)))
    by (apply by_email_keys_In; now apply in_map).
  rewrite by_email_values_emails.
  pose proof (by_email_keys_NoDup l) as Hnd.
  split; [| split; [| exact Hnd]].
  - apply Nat.ltb_lt. destruct (by_email l); [destruct Hk | simpl; lia].
  - now apply NoDup_count_occ'.
Qed.

(** A student whose issue list holds no flag twice is appended once to
    the list of each flag they carry. *)
Lemma filter_issue_length (i : issue) (l : list issue) :
  NoDup l ->
  List.length (filter (issue_eqb i) l)
  = if existsb (issue_eqb i) l then 1%nat else 0%nat.
Proof.
  induction 1 as [| j l Hj Hnd IH]; simpl; [reflexivity |].
  destruct (issue_eqb i j) eqn:E; simpl.
  - apply issue_eqb_eq in E. subst j.
    destruct (existsb (issue_eqb i) l) eqn:Ex.
    + exfalso. apply existsb_exists in Ex. destruct Ex as (k & Hk & Ek).
      apply issue_eqb_eq in Ek. now subst k.
    + now rewrite IH.
  - exact IH.
Qed.

Lemma issue_counts_filter_length (i : issue) (p : StudentMetrics -> bool)
    (studs : list StudentMetrics) :
  (forall t, In t studs -> NoDup (issues t)) ->
  List.length (filter p (issue_counts i studs))
  = List.length (filter (fun t => flagged i t && p t) studs).
Proof.
  unfold issue_counts, flagged.
  induction studs as [| t studs IH]; intros Hnd; simpl; [reflexivity |].
  rewrite filter_app, length_app, IH by (intros; apply Hnd; now right).
  pose proof (filter_issue_length i (issues t) (Hnd t (or_introl eq_refl))) as Hl.
  destruct (existsb (issue_eqb i) (issues t)); simpl.
  - destruct (filter (issue_eqb i) (issues t)) as [| j [| k r]];
      try discriminate. simpl. destruct (p t); reflexivity.
  - destruct (filter (issue_eqb i) (issues t)); [reflexivity | discriminate].
Qed.

Lemma issue_counts_length (i : issue) (studs : list StudentMetrics) :
  (forall t, In t studs -> NoDup (issues t)) ->
  List.length (issue_counts i studs) = List.length (filter (flagged i) studs).
Proof.
  intros Hnd.
  rewrite <- (filter_all (fun _ => true) (issue_counts i studs)) at 1
    by reflexivity.
  rewrite (issue_counts_filter_length i (fun _ => true) studs Hnd).
  f_equal. apply filter_ext_in. intros t _. apply andb_true_r.
Qed.

(** C9, as the code has it.  A student flagged with over-testing or doom
    loop (so also one flagged with both) is counted once in the merged
    testing summary and appears once, by email, in its student list; the
    same holds for the merged missing-instruction summary and its two
    flags.  The counts reported beside the merged count are, for missing
    instruction, the number of records carrying each of the two flags;
    for testing, the number of records carrying the over-testing flag
    and the number of records carrying the doom-loop flag whose doom loop
    is above their HMG, which is not the number of records carrying the
    doom-loop flag. *)
Theorem C9_merged_counts_once
    (studs : list StudentMetrics) (s : StudentMetrics) :
  In s studs ->
  (In OVER_TESTING (issues s) \/ In DOOM_LOOP (issues s) ->
   exists e,
     In e (detect_systemic_issues studs)
     /\ key e = "OVER_TESTING_DOOM"%string
     /\ count e = List.length (students e)
     /\ NoDup (map email (students e))
     /\ count_occ string_dec (map email (students e)) (email s) = 1%nat
     /\ ((forall t, In t studs -> NoDup (issues t)) ->
         detail_counts e
         = TestingDetail
             (List.length (filter (flagged OVER_TESTING) studs))
             (List.length
                (filter (fun t => flagged DOOM_LOOP t && doom_loop_above_hmg t)
                        studs))))
  /\ (In NEEDS_HS_INSTRUCTION (issues s) \/ In NEEDS_MM_INSTRUCTION (issues s) ->
      exists e,
        In e (detect_systemic_issues studs)
        /\ key e = "MISSING_READING_INSTRUCTION"%string
        /\ count e = List.length (students e)
        /\ NoDup (map email (students e))
        /\ count_occ string_dec (map email (students e)) (email s) = 1%nat
        /\ ((forall t, In t studs -> NoDup (issues t)) ->
            detail_counts e
            = InstructionDetail
                (List.length (filter (flagged NEEDS_HS_INSTRUCTION) studs))
                (List.length (filter (flagged NEEDS_MM_INSTRUCTION) studs)))).
Proof.
  intros Hs. split; intros Hflag.
  - assert (Hin : In s (issue_counts OVER_TESTING studs
                        ++ issue_counts DOOM_LOOP studs)).
    { apply in_app_iff. rewrite !issue_counts_In. tauto. }
    destruct (merged_once _ _ Hin) as (Hlen & Hocc & Hnd).
    eexists. split.
    + apply detect_systemic_issues_In. left.
      unfold testing_summary. rewrite Hlen. left. reflexivity.
    + simpl. rewrite length_map.
      split; [reflexivity |]. split; [reflexivity |].
      split; [exact Hnd |]. split; [exact Hocc |].
      intros Hissues.
      now rewrite (issue_counts_length OVER_TESTING studs Hissues),
        (issue_counts_filter_length DOOM_LOOP doom_loop_above_hmg studs Hissues).
  - assert (Hin : In s (issue_counts NEEDS_HS_INSTRUCTION studs
                        ++ issue_counts NEEDS_MM_INSTRUCTION studs)).
    { apply in_app_iff. rewrite !issue_counts_In. tauto. }
    destruct (merged_once _ _ Hin) as (Hlen & Hocc & Hnd).
    eexists. split.
    + apply detect_systemic_issues_In. right. left.
      unfold instruction_summary. rewrite Hlen. left. reflexivity.
    + simpl. rewrite length_map.
      split; [reflexivity |]. split; [reflexivity |].
      split; [exact Hnd |]. split; [exact Hocc |].
      intros Hissues.
      now rewrite (issue_counts_length NEEDS_HS_INSTRUCTION studs Hissues),
        (issue_counts_length NEEDS_MM_INSTRUCTION studs Hissues).
Qed.

Lemma C9_merged_counts_once_witness :
  exists s e,
    test_bound_student "student@example.org" = Some s
    /\ In OVER_TESTING (issues s) /\ In DOOM_LOOP (issues s)
    /\ In e (detect_systemic_issues [s; s])
    /\ key e = "OVER_TESTING_DOOM"%string
    /\ count e = List.length (students e)
    /\ count_occ string_dec (map email (students e)) (email s) = 1%nat
    /\ detail_counts e = TestingDetail 2 2.
Proof.
  assert (Hs : exists s,
             test_bound_student "student@example.org" = Some s
             /\ issues s = [OVER_TESTING; DOOM_LOOP; LOW_EFFECTIVE_TESTS]
             /\ doom_loop_above_hmg s = true).
  { eexists. split; [vm_compute; reflexivity |]. split; reflexivity. }
  destruct Hs as (s & Es & Hi & Ha).
  assert (Hot : In OVER_TESTING (issues s)) by (rewrite Hi; simpl; auto).
  assert (Hdl : In DOOM_LOOP (issues s)) by (rewrite Hi; simpl; auto).
  destruct (C9_merged_counts_once [s; s] s (or_introl eq_refl)) as (H & _).
  destruct (H (or_introl Hot)) as (e & H1 & H2 & H3 & _ & H5 & H6).
  exists s, e. repeat split; try assumption.
  rewrite H6.
  - unfold flagged. simpl. rewrite Hi, Ha. reflexivity.
  - intros t [<- | [<- | []]]; rewrite Hi;
      repeat constructor; simpl; intuition discriminate.
Defined.

(** C9 fails as stated: a student with HMG 6 and three failed attempts
    at grade 5 carries the doom-loop flag and is counted in the merged
    testing summary, yet the doom-loop count reported beside it is 0. *)
Lemma C9_counterexample :
  exists s,
    below_hmg_looper "student@example.org" = Some s
    /\ In DOOM_LOOP (issues s)
    /\ List.length (filter (flagged DOOM_LOOP) [s]) = 1%nat
    /\ map key (detect_systemic_issues [s]) = ["OVER_TESTING_DOOM"%string]
    /\ map count (detect_systemic_issues [s]) = [1%nat]
    /\ map detail_counts (detect_systemic_issues [s]) = [TestingDetail 0 0].
Proof.
  eexists. split; [vm_compute; reflexivity |].
  split; [simpl; auto |]. repeat split.
Qed.

(** A student flagged with over-testing and doom loop is one entry of
    the merged list, whichever of the two appended lists is read. *)
Example merged_testing_counts_once :
  exists s,
    test_bound_student "student@example.org" = Some s
    /\ map count (detect_systemic_issues [s]) = [1%nat]
    /\ map detail_counts (detect_systemic_issues [s]) = [TestingDetail 1 1].
Proof.
  eexists. split; [vm_compute; reflexivity |]. split; reflexivity.
Qed.

(** The ranking is in descending order of count. *)
Lemma insert_ranked_sorted (x : SystemicIssue) (l : list SystemicIssue) :
  Sorted (fun a b => (count b <= count a)%nat) l ->
  Sorted (fun a b => (count b <= count a)%nat) (insert_ranked x l).
Proof.
  induction 1 as [| z l Hs IH Hhd]; simpl.
  - repeat constructor.
  - destruct (count z <=? count x)%nat eqn:E.
    + apply Nat.leb_le in E. repeat constructor; assumption.
    + apply Nat.leb_gt in E. constructor; [assumption |].
      destruct l as [| y l]; simpl in *.
      * constructor. lia.
      * destruct (count y <=? count x)%nat; constructor;
          [lia | now inversion Hhd].
Qed.

Lemma detect_systemic_issues_sorted (studs : list StudentMetrics) :
  Sorted (fun a b => (count b <= count a)%nat) (detect_systemic_issues studs).
Proof.
  unfold detect_systemic_issues.
  destruct (summaries_at_most_one studs) as (H1 & H2 & H3).
  rewrite firstn_all2 by (rewrite sort_ranked_length, !length_app; lia).
  induction (testing_summary studs ++ instruction_summary studs
             ++ time_summary studs) as [| x l IH]; simpl.
  - constructor.
  - now apply insert_ranked_sorted.
Qed.

(** C6 at a failing input: two students below half the expected time
    and one who met it without growing.  Low engagement affects two
    students and minutes-without-growth one, yet the ranking holds the
    minutes-without-growth summary alone. *)
Theorem C6_low_engagement_not_ranked :
  exists s1 s2 s3,
    idle_student "first@example.org" = Some s1
    /\ idle_student "second@example.org" = Some s2
    /\ diligent_student "third@example.org" = Some s3
    /\ issues s1 = [LOW_ENGAGEMENT]
    /\ issues s2 = [LOW_ENGAGEMENT]
    /\ issues s3 = [TIME_NO_GROWTH]
    /\ List.length (issue_counts LOW_ENGAGEMENT [s1; s2; s3]) = 2%nat
    /\ map key (detect_systemic_issues [s1; s2; s3]) = ["TIME_NO_GROWTH"%string]
    /\ map count (detect_systemic_issues [s1; s2; s3]) = [1%nat].
Proof.
  do 3 eexists.
  split; [vm_compute; reflexivity |].
  split; [vm_compute; reflexivity |].
  split; [vm_compute; reflexivity |].
  repeat split.
Qed.

(* ================================================================= *)
(** * Further properties of the code *)

(** ** The classification fields of the metrics record *)

Lemma metrics_derived
    (row : AssessmentRecord) (daily_data : list ActivityRecord)
    (test_data : list TestAttemptRecord) (spring_rit : option Q)
    (effective_days expected_minutes : Z) (m : StudentMetrics) :
  compute_student_metrics row daily_data test_data spring_rit
                          effective_days expected_minutes = Some m ->
  derived_of row daily_data test_data m.
Proof.
  unfold compute_student_metrics. cbv zeta.
  rewrite (if_nonempty daily_data (fun l => col_sum (map active_minutes l)) 0%Q eq_refl).
  rewrite (if_nonempty daily_data (fun l => col_sum (map xp_earned l)) 0%Q eq_refl).
  rewrite (if_nonempty daily_data app_groups [] eq_refl).
  rewrite (if_nonempty test_data (@List.length _) O eq_refl).
  rewrite (if_nonempty test_data (fun l => List.length (filter passed l)) O eq_refl).
  rewrite (if_nonempty test_data doom_grades_of [] eq_refl).
  set (hmg_ := resolve_hmg (HMG row) test_data).
  set (A := col_sum (map active_minutes daily_data)).
  set (T := col_sum (map xp_earned daily_data)).
  fold (category_xp daily_data).
  destruct (guarded_percent (0 <? expected_minutes) A (inject_Z expected_minutes)
              (Qeq_bool_pos_Z _)) as (pe & -> & _).
  destruct (guarded_average (0 <? effective_days) A (inject_Z effective_days)
              (Qeq_bool_pos_Z _)) as (da & -> & _).
  destruct (guarded_percent (Qltb 0 T) (instr_of (category_xp daily_data)) T
              (Qeq_bool_pos_Q _)) as (pi & -> & _).
  destruct (guarded_percent (Qltb 0 T) (practice_of (category_xp daily_data)) T
              (Qeq_bool_pos_Q _)) as (pp & -> & _).
  destruct (guarded_percent (Qltb 0 T) (testing_of (category_xp daily_data)) T
              (Qeq_bool_pos_Q _)) as (pt & -> & _).
  destruct (guarded_percent (0 <? List.length test_data)%nat
              (nat_Q (List.length (filter passed test_data)))
              (nat_Q (List.length test_data))
              (Qeq_bool_pos_nat _)) as (er & -> & _).
  cbn [bind].
  match goal with
  | |- context [if (0 <? List.length ?l)%nat then percent ?a ?b else Some 0%Q] =>
      destruct (guarded_percent (0 <? List.length l)%nat a b
                  (Qeq_bool_pos_nat _)) as (pr & -> & _)
  end.
  cbn [bind].
  intros [= <-].
  constructor; reflexivity.
Qed.

Lemma Qltb_true (a b : Q) : Qltb a b = true <-> (a < b)%Q.
Proof.
  unfold Qltb. rewrite negb_true_iff. split; intros H.
  - apply Qnot_le_lt. intros Hle. apply Qle_bool_iff in Hle. congruence.
  - apply not_true_is_false. intros Hle. apply Qle_bool_iff in Hle.
    apply (Qlt_not_le _ _ H Hle).
Qed.

Lemma Qgtb_true (a b : Q) : Qgtb a b = true <-> (b < a)%Q.
Proof. unfold Qgtb. apply (Qltb_true b a). Qed.

Lemma Qgeb_true (a b : Q) : Qgeb a b = true <-> (b <= a)%Q.
Proof. unfold Qgeb. apply Qle_bool_iff. Qed.

Lemma flag_In (c : bool) (i j : issue) : In i (flag c j) <-> c = true /\ i = j.
Proof.
  unfold flag. destruct c; simpl; intuition congruence.
Qed.

(** Each flag is in the issue list exactly when its own test holds. *)
Lemma issues_of_In (h : option Q) (mm hd : bool) (pt : Q) (doom : list Z)
    (pe : Q) (gr gp : option Q) (n : nat) (rate : Q) (i : issue) :
  In i (issues_of h mm hd pt doom pe gr gp n rate)
  <-> match i with
      | NEEDS_HS_INSTRUCTION => opt_test (fun q => Qgeb q 8) h = true
      | NEEDS_MM_INSTRUCTION =>
          opt_test (fun q => Qgeb q 8) h = false
          /\ opt_test (fun q => Qle_bool 2 q && Qle_bool q 7) h
             && negb mm && hd = true
      | OVER_TESTING => Qgtb pt 50 = true
      | DOOM_LOOP => (0 <? List.length doom)%nat = true
      | LOW_ENGAGEMENT => Qltb pe 50 = true
      | TIME_NO_GROWTH =>
          Qgeb pe 100 && opt_test (fun g => Qle_bool g 0) gr = true
      | AT_GRADE_NO_MOTIVATION =>
          opt_test (fun g => Qgeb g 0) gp && opt_test (fun g => Qltb g 0) gr
          = true
      | LARGE_GAP => opt_test (fun g => Qle_bool g (-3)) gp = true
      | LOW_EFFECTIVE_TESTS => (2 <? n)%nat && Qltb rate 50 = true
      end.
Proof.
  unfold issues_of. rewrite !in_app_iff, !flag_In.
  destruct (opt_test (fun q => Qgeb q 8) h); simpl; try rewrite flag_In;
    destruct i; intuition (try discriminate; try congruence).
Qed.

Lemma issues_of_NoDup (h : option Q) (mm hd : bool) (pt : Q) (doom : list Z)
    (pe : Q) (gr gp : option Q) (n : nat) (rate : Q) :
  NoDup (issues_of h mm hd pt doom pe gr gp n rate).
Proof.
  unfold issues_of, flag.
  repeat match goal with
         | |- context [if ?b then _ else _] => destruct b
         end;
    simpl; repeat constructor; simpl; intuition discriminate.
Qed.

(** ** Issue flags *)

(** X1.  No issue flag appears twice in a student's issue list. *)
Theorem X1_issues_no_duplicates
    (row : AssessmentRecord) (daily_data : list ActivityRecord)
    (test_data : list TestAttemptRecord) (spring_rit : option Q)
    (effective_days expected_minutes : Z) (m : StudentMetrics) :
  compute_student_metrics row daily_data test_data spring_rit
                          effective_days expected_minutes = Some m ->
  NoDup (issues m).
Proof.
  intros Hm. rewrite (d_issues _ _ _ _ (metrics_derived _ _ _ _ _ _ _ Hm)).
  apply issues_of_NoDup.
Qed.

Lemma X1_issues_no_duplicates_witness :
  exists m,
    test_bound_student "student@example.org" = Some m
    /\ issues m = [OVER_TESTING; DOOM_LOOP; LOW_EFFECTIVE_TESTS]
    /\ NoDup (issues m).
Proof.
  destruct (test_bound_student "student@example.org") as [m |] eqn:E;
    [| vm_compute in E; discriminate].
  pose proof E as E'.
  unfold test_bound_student, diligent_student, idle_student in E'.
  exists m. split; [reflexivity |]. split.
  - vm_compute in E. injection E as <-. reflexivity.
  - exact (X1_issues_no_duplicates _ _ _ _ _ _ m E').
Defined.

(** X2.  The two missing-instruction flags never occur together, and
    neither do low engagement and time without growth. *)
Theorem X2_exclusive_flags
    (row : AssessmentRecord) (daily_data : list ActivityRecord)
    (test_data : list TestAttemptRecord) (spring_rit : option Q)
    (effective_days expected_minutes : Z) (m : StudentMetrics) :
  compute_student_metrics row daily_data test_data spring_rit
                          effective_days expected_minutes = Some m ->
  ~ (In NEEDS_HS_INSTRUCTION (issues m) /\ In NEEDS_MM_INSTRUCTION (issues m))
  /\ ~ (In LOW_ENGAGEMENT (issues m) /\ In TIME_NO_GROWTH (issues m)).
Proof.
  intros Hm. rewrite (d_issues _ _ _ _ (metrics_derived _ _ _ _ _ _ _ Hm)).
  rewrite !issues_of_In. split.
  - intros (H1 & H2 & _). congruence.
  - intros (H1 & H2). apply andb_true_iff in H2. destruct H2 as (H2 & _).
    apply Qltb_true in H1. apply Qgeb_true in H2. lra.
Qed.

Lemma X2_exclusive_flags_witness :
  exists m,
    diligent_student "student@example.org" = Some m
    /\ In TIME_NO_GROWTH (issues m)
    /\ ~ In LOW_ENGAGEMENT (issues m).
Proof.
  destruct (diligent_student "student@example.org") as [m |] eqn:E;
    [| vm_compute in E; discriminate].
  pose proof E as E'.
  unfold test_bound_student, diligent_student, idle_student in E'.
  exists m. split; [reflexivity |].
  assert (Ht : In TIME_NO_GROWTH (issues m))
    by (vm_compute in E; injection E as <-; left; reflexivity).
  split; [exact Ht |].
  intros Hl.
  exact (proj2 (X2_exclusive_flags _ _ _ _ _ _ m E') (conj Hl Ht)).
Defined.

(** X3.  A student carries the doom-loop flag exactly when some grade
    has three or more failing attempts and no passing attempt; the
    above-HMG marker is set only on students that carry the flag, and
    then exactly when the resolved HMG is absent or some doom-loop grade
    lies above it. *)
Theorem X3_doom_loop_flag
    (row : AssessmentRecord) (daily_data : list ActivityRecord)
    (test_data : list TestAttemptRecord) (spring_rit : option Q)
    (effective_days expected_minutes : Z) (m : StudentMetrics) :
  compute_student_metrics row daily_data test_data spring_rit
                          effective_days expected_minutes = Some m ->
  (In DOOM_LOOP (issues m)
   <-> exists g, (3 <= failing_attempts g test_data)%nat
                 /\ passing_attempts g test_data = O)
  /\ (doom_loop_above_hmg m = true
      <-> In DOOM_LOOP (issues m)
          /\ (hmg m = None
              \/ exists h g, hmg m = Some h /\ In g (doom_grades m)
                             /\ py_int h < g)).
Proof.
  intros Hm.
  pose proof (metrics_derived _ _ _ _ _ _ _ Hm) as D.
  pose proof (metrics_fields _ _ _ _ _ _ _ Hm) as F.
  assert (Hflag : In DOOM_LOOP (issues m) <-> doom_grades m <> []).
  { rewrite (d_issues _ _ _ _ D), issues_of_In, Nat.ltb_lt.
    destruct (doom_grades m); simpl; split; intros H; try lia; congruence. }
  split.
  - rewrite Hflag, (f_doom _ _ _ _ _ _ F). split.
    + destruct (doom_grades_of test_data) as [| g l] eqn:E; [congruence |].
      intros _. exists g. apply doom_grades_of_In. rewrite E. now left.
    + intros (g & Hg). apply doom_grades_of_In in Hg.
      intros E. rewrite E in Hg. destruct Hg.
  - rewrite (d_above _ _ _ _ D), andb_true_iff, Hflag, Nat.ltb_lt.
    assert (Hne : (0 < List.length (doom_grades m))%nat <-> doom_grades m <> [])
      by (destruct (doom_grades m); simpl; split; intros H; try lia; congruence).
    rewrite Hne.
    destruct (hmg m) as [h |].
    + rewrite existsb_exists. split.
      * intros (H1 & g & Hg & Hlt). split; [assumption |]. right.
        exists h, g. apply Z.ltb_lt in Hlt. auto.
      * intros (H1 & [H2 | (h' & g & [= <-] & Hg & Hlt)]); [discriminate |].
        split; [assumption |]. exists g. split; [assumption | now apply Z.ltb_lt].
    + split; [intros (H1 & _); auto | intros (H1 & _); auto].
Qed.

Lemma X3_doom_loop_flag_witness :
  exists m,
    test_bound_student "student@example.org" = Some m
    /\ In DOOM_LOOP (issues m)
    /\ doom_loop_above_hmg m = true.
Proof.
  destruct (test_bound_student "student@example.org") as [m |] eqn:E;
    [| vm_compute in E; discriminate].
  pose proof E as E'.
  unfold test_bound_student, diligent_student, idle_student in E'.
  exists m. split; [reflexivity |].
  destruct (X3_doom_loop_flag _ _ _ _ _ _ m E') as (H1 & H2).
  assert (Hd : In DOOM_LOOP (issues m)).
  { apply H1. exists 5. split; [vm_compute; lia | reflexivity]. }
  split; [exact Hd |].
  apply H2. split; [exact Hd |]. right. exists 4%Q, 5.
  vm_compute in E. injection E as <-.
  split; [reflexivity |]. split; [left; reflexivity | reflexivity].
Defined.

(** ** Doom-loop grades, counts and rates *)

Lemma insert_uniq_sorted (z : Z) (l : list Z) :
  StronglySorted Z.lt l -> StronglySorted Z.lt (insert_uniq z l).
Proof.
  induction 1 as [| y ys Hs IH Hall]; simpl.
  - repeat constructor.
  - destruct (Z.ltb_spec z y) as [Hlt | Hge].
    + constructor; [now constructor |].
      constructor; [assumption |].
      eapply Forall_impl; [| exact Hall]. intros a Ha. lia.
    + destruct (Z.eqb_spec z y) as [-> | Hne]; [now constructor |].
      constructor; [assumption |].
      apply Forall_forall. intros a Ha.
      apply insert_uniq_In in Ha. destruct Ha as [-> | Ha]; [lia |].
      rewrite Forall_forall in Hall. now apply Hall.
Qed.

Lemma sorted_unique_sorted (l : list Z) : StronglySorted Z.lt (sorted_unique l).
Proof.
  induction l; simpl; [constructor | now apply insert_uniq_sorted].
Qed.

Lemma filter_sorted (p : Z -> bool) (l : list Z) :
  StronglySorted Z.lt l -> StronglySorted Z.lt (filter p l).
Proof.
  induction 1 as [| y ys Hs IH Hall]; simpl; [constructor |].
  destruct (p y); [| assumption].
  constructor; [assumption |].
  apply Forall_forall. intros a Ha. apply filter_In in Ha.
  rewrite Forall_forall in Hall. now apply Hall.
Qed.

(** X4.  The doom-loop grades of a student are listed in strictly
    ascending order, each once, and a grade is listed exactly when it has
    three or more failing attempts and no passing attempt. *)
Theorem X4_doom_grades_ascending
    (row : AssessmentRecord) (daily_data : list ActivityRecord)
    (test_data : list TestAttemptRecord) (spring_rit : option Q)
    (effective_days expected_minutes : Z) (m : StudentMetrics) :
  compute_student_metrics row daily_data test_data spring_rit
                          effective_days expected_minutes = Some m ->
  StronglySorted Z.lt (doom_grades m)
  /\ forall g,
       In g (doom_grades m)
       <-> (3 <= failing_attempts g test_data)%nat
           /\ passing_attempts g test_data = O.
Proof.
  intros Hm. pose proof (metrics_fields _ _ _ _ _ _ _ Hm) as F.
  rewrite (f_doom _ _ _ _ _ _ F). split.
  - unfold doom_grades_of. apply filter_sorted, filter_sorted, sorted_unique_sorted.
  - intros g. apply doom_grades_of_In.
Qed.

Lemma X4_doom_grades_ascending_witness :
  exists m,
    compute_student_metrics (sample_row None None) []
      [fail_at 7; fail_at 3; fail_at 7; fail_at 3; fail_at 7; fail_at 3;
       pass_at 4] None 86 2150 = Some m
    /\ doom_grades m = [3; 7]
    /\ StronglySorted Z.lt (doom_grades m).
Proof.
  eexists. split; [vm_compute; reflexivity |]. split; [reflexivity |].
  match goal with
  | |- StronglySorted Z.lt (doom_grades ?m) =>
      exact (proj1 (X4_doom_grades_ascending (sample_row None None) []
                      [fail_at 7; fail_at 3; fail_at 7; fail_at 3; fail_at 7;
                       fail_at 3; pass_at 4] None 86 2150 m
                      ltac:(vm_compute; reflexivity)))
  end.
Defined.

Lemma filter_length {A : Type} (p : A -> bool) (l : list A) :
  (List.length (filter p l) <= List.length l)%nat.
Proof.
  induction l as [| a l IH]; simpl; [lia |]. destruct (p a); simpl; lia.
Qed.

Lemma round1_0 : (round1 0 == 0)%Q.
Proof. reflexivity. Qed.

Lemma round1_50 : (round1 50 == 50)%Q.
Proof. reflexivity. Qed.

Lemma round1_100 : (round1 100 == 100)%Q.
Proof. reflexivity. Qed.

Lemma round1_percent_range (x : Q) :
  (0 <= x <= 100)%Q -> (0 <= round1 x <= 100)%Q.
Proof.
  intros (H0 & H100). split.
  - rewrite <- round1_0. now apply round1_mono.
  - rewrite <- round1_100. now apply round1_mono.
Qed.

Lemma ratio_range (e n : nat) :
  (e <= n)%nat -> n <> O -> (0 <= nat_Q e / nat_Q n * 100 <= 100)%Q.
Proof.
  intros Hle Hn.
  assert (Hpos : (0 < nat_Q n)%Q) by (apply nat_Q_pos; lia).
  pose proof (nat_Q_nonneg e) as He.
  assert (Hen : (nat_Q e <= nat_Q n)%Q)
    by (unfold nat_Q; rewrite <- Zle_Qle; lia).
  assert (H0 : (0 <= nat_Q e / nat_Q n)%Q)
    by (apply Qle_shift_div_l; [assumption | lra]).
  assert (H1 : (nat_Q e / nat_Q n <= 1)%Q)
    by (apply Qle_shift_div_r; [assumption | lra]).
  lra.
Qed.

(** X5.  Passing attempts never outnumber attempts, overall and at the
    grade above the resolved HMG, the attempts at that grade are attempts
    of the student, and both effective-test rates lie between 0 and
    100. *)
Theorem X5_test_counts_and_rates
    (row : AssessmentRecord) (daily_data : list ActivityRecord)
    (test_data : list TestAttemptRecord) (spring_rit : option Q)
    (effective_days expected_minutes : Z) (m : StudentMetrics) :
  compute_student_metrics row daily_data test_data spring_rit
                          effective_days expected_minutes = Some m ->
  (eff_tests m <= total_tests m)%nat
  /\ (hmg_plus1_passed m <= hmg_plus1_total m)%nat
  /\ (hmg_plus1_total m <= total_tests m)%nat
  /\ (0 <= eff_rate m <= 100)%Q
  /\ (0 <= hmg_plus1_eff_rate m <= 100)%Q.
Proof.
  intros Hm. pose proof (metrics_fields _ _ _ _ _ _ _ Hm) as F.
  assert (H1 : (eff_tests m <= total_tests m)%nat).
  { rewrite (f_eff_tests _ _ _ _ _ _ F), (f_total_tests _ _ _ _ _ _ F).
    apply filter_length. }
  assert (H2 : (hmg_plus1_passed m <= hmg_plus1_total m)%nat).
  { rewrite (f_plus1_passed _ _ _ _ _ _ F), (f_plus1_total _ _ _ _ _ _ F).
    apply filter_length. }
  assert (H3 : (hmg_plus1_total m <= total_tests m)%nat).
  { rewrite (f_plus1_total _ _ _ _ _ _ F), (f_total_tests _ _ _ _ _ _ F).
    unfold hmg_plus1_tests. destruct (hmg m); [apply filter_length | simpl; lia]. }
  repeat split; try assumption.
  - destruct (Nat.eq_dec (total_tests m) O) as [E | E].
    + rewrite (f_eff_rate_0 _ _ _ _ _ _ F E). apply Qle_refl.
    + rewrite (f_eff_rate _ _ _ _ _ _ F E).
      now apply round1_percent_range, ratio_range.
  - destruct (Nat.eq_dec (total_tests m) O) as [E | E].
    + rewrite (f_eff_rate_0 _ _ _ _ _ _ F E). discriminate.
    + rewrite (f_eff_rate _ _ _ _ _ _ F E).
      now apply round1_percent_range, ratio_range.
  - destruct (Nat.eq_dec (hmg_plus1_total m) O) as [E | E].
    + rewrite (f_plus1_rate_0 _ _ _ _ _ _ F E). apply Qle_refl.
    + rewrite (f_plus1_rate _ _ _ _ _ _ F E).
      now apply round1_percent_range, ratio_range.
  - destruct (Nat.eq_dec (hmg_plus1_total m) O) as [E | E].
    + rewrite (f_plus1_rate_0 _ _ _ _ _ _ F E). discriminate.
    + rewrite (f_plus1_rate _ _ _ _ _ _ F E).
      now apply round1_percent_range, ratio_range.
Qed.

Lemma X5_test_counts_and_rates_witness :
  exists m,
    compute_student_metrics (sample_row (Some 4%Q) None) []
      [pass_at 4; fail_at 5; pass_at 5; fail_at 5] None 86 2150 = Some m
    /\ total_tests m = 4%nat /\ eff_tests m = 2%nat
    /\ hmg_plus1_total m = 3%nat /\ hmg_plus1_passed m = 1%nat
    /\ (0 <= eff_rate m <= 100)%Q.
Proof.
  eexists. split; [vm_compute; reflexivity |].
  split; [reflexivity |]. split; [reflexivity |]. split; [reflexivity |].
  split; [reflexivity |].
  match goal with
  | |- (0 <= eff_rate ?m <= 100)%Q =>
      destruct (X5_test_counts_and_rates (sample_row (Some 4%Q) None) []
                  [pass_at 4; fail_at 5; pass_at 5; fail_at 5] None 86 2150 m
                  ltac:(vm_compute; reflexivity)) as (_ & _ & _ & H & _)
  end.
  exact H.
Defined.

(** ** Ranges of the percentages *)

Lemma Qsum_nonneg (l : list Q) :
  (forall q, In q l -> (0 <= q)%Q) -> (0 <= Qsum l)%Q.
Proof.
  induction l as [| a l IH]; intros H; simpl; [apply Qle_refl |].
  assert (0 <= a)%Q by (apply H; now left).
  assert (0 <= Qsum l)%Q by (apply IH; intros; apply H; now right).
  lra.
Qed.

Lemma app_groups_nonneg (daily_data : list ActivityRecord) (ag : string * Q) :
  (forall r, In r daily_data -> (0 <= xp_of r)%Q) ->
  in_int64_range (map xp_earned daily_data) ->
  In ag (app_groups daily_data) -> (0 <= snd ag)%Q.
Proof.
  intros H Hr Hin. rewrite (app_groups_exact daily_data ag Hr Hin).
  apply Qsum_nonneg.
  intros q Hq. apply in_map_iff in Hq. destruct Hq as (r & <- & Hin').
  apply filter_In in Hin'. apply H, Hin'.
Qed.

Lemma Qsum_filter_le {A : Type} (f : A -> Q) (p : A -> bool) (l : list A) :
  (forall a, In a l -> (0 <= f a)%Q) ->
  (Qsum (map f (filter p l)) <= Qsum (map f l))%Q.
Proof.
  induction l as [| a l IH]; intros H; simpl; [apply Qle_refl |].
  assert (Ha : (0 <= f a)%Q) by (apply H; now left).
  assert (IH' : (Qsum (map f (filter p l)) <= Qsum (map f l))%Q)
    by (apply IH; intros; apply H; now right).
  destruct (p a); simpl; lra.
Qed.

Lemma fold_add_group_nonneg (groups : list (string * Q)) :
  (forall ag, In ag groups -> (0 <= snd ag)%Q) ->
  forall acc,
    (0 <= instr_of acc /\ 0 <= practice_of acc /\ 0 <= testing_of acc
     /\ 0 <= elit_of acc /\ 0 <= admin_of acc)%Q ->
    (0 <= instr_of (fold_left add_group groups acc)
     /\ 0 <= practice_of (fold_left add_group groups acc)
     /\ 0 <= testing_of (fold_left add_group groups acc)
     /\ 0 <= elit_of (fold_left add_group groups acc)
     /\ 0 <= admin_of (fold_left add_group groups acc))%Q.
Proof.
  induction groups as [| ag groups IH]; intros H acc Hacc; simpl; [exact Hacc |].
  apply IH; [intros; apply H; now right |].
  assert (Hag : (0 <= snd ag)%Q) by (apply H; now left).
  destruct Hacc as (H1 & H2 & H3 & H4 & H5).
  unfold add_group. destruct (categorize_app (fst ag)); simpl;
    repeat split; try assumption; lra.
Qed.

Lemma share_range (a T : Q) :
  (0 <= a)%Q -> (a <= T)%Q -> (0 < T)%Q -> (0 <= a / T * 100 <= 100)%Q.
Proof.
  intros Ha HaT HT.
  assert (H0 : (0 <= a / T)%Q) by (apply Qle_shift_div_l; [assumption | lra]).
  assert (H1 : (a / T <= 1)%Q) by (apply Qle_shift_div_r; [assumption | lra]).
  lra.
Qed.

(** X6.  When no activity row has negative XP and the XP column stays
    in the int64 range, each stored XP percentage lies between 0 and
    100; when no activity row has negative minutes and the minutes
    column stays in the int64 range, percent-of-expected and the daily
    average are not negative. *)
Theorem X6_percentages_in_range
    (row : AssessmentRecord) (daily_data : list ActivityRecord)
    (test_data : list TestAttemptRecord) (spring_rit : option Q)
    (effective_days expected_minutes : Z) (m : StudentMetrics) :
  compute_student_metrics row daily_data test_data spring_rit
                          effective_days expected_minutes = Some m ->
  ((forall r, In r daily_data -> (0 <= xp_of r)%Q) ->
   in_int64_range (map xp_earned daily_data) ->
   (0 <= pct_instr m <= 100)%Q /\ (0 <= pct_practice m <= 100)%Q
   /\ (0 <= pct_testing m <= 100)%Q)
  /\ ((forall r, In r daily_data -> (0 <= minutes_of r)%Q) ->
      in_int64_range (map active_minutes daily_data) ->
      (0 <= pct_expected m)%Q /\ (0 <= daily_avg m)%Q).
Proof.
  intros Hm. pose proof (metrics_fields _ _ _ _ _ _ _ Hm) as F. split.
  - intros Hxp Hr.
    destruct (Qltb 0 (col_sum (map xp_earned daily_data))) eqn:HT.
    + destruct (f_pct_xp _ _ _ _ _ _ F HT) as (-> & -> & ->).
      apply Qltb_0_true in HT.
      pose proof (category_xp_total daily_data Hr) as Htot.
      pose proof (total_xp_exact daily_data Hr) as Hall.
      pose proof (Qsum_filter_le xp_of named daily_data Hxp) as Hle.
      unfold split_total in Htot.
      destruct (fold_add_group_nonneg (app_groups daily_data)
                  (fun ag => app_groups_nonneg daily_data ag Hxp Hr) xp_zero)
        as (H1 & H2 & H3 & H4 & H5);
        [simpl; repeat split; apply Qle_refl |].
      fold (category_xp daily_data) in H1, H2, H3, H4, H5.
      repeat split; apply round1_percent_range, share_range;
        try assumption; lra.
    + destruct (f_pct_xp_0 _ _ _ _ _ _ F HT) as (-> & -> & ->).
      repeat split; discriminate.
  - intros Hmin Hr.
    assert (HA : (0 <= col_sum (map active_minutes daily_data))%Q).
    { rewrite col_sum_exact by exact Hr. rewrite map_map.
      apply Qsum_nonneg. intros q Hq. apply in_map_iff in Hq.
      destruct Hq as (r & <- & Hin). now apply Hmin. }
    split.
    + destruct (0 <? expected_minutes) eqn:He.
      * rewrite (f_pct_expected _ _ _ _ _ _ F He).
        rewrite <- round1_0. apply round1_mono.
        assert (0 < inject_Z expected_minutes)%Q
          by (change 0%Q with (inject_Z 0); rewrite <- Zlt_Qlt;
              now apply Z.ltb_lt).
        assert (0 <= col_sum (map active_minutes daily_data)
                     / inject_Z expected_minutes)%Q
          by (apply Qle_shift_div_l; [assumption | lra]).
        lra.
      * rewrite (f_pct_expected_0 _ _ _ _ _ _ F He). apply Qle_refl.
    + destruct (0 <? effective_days) eqn:He.
      * rewrite (f_daily_avg _ _ _ _ _ _ F He).
        rewrite <- round1_0. apply round1_mono.
        assert (0 < inject_Z effective_days)%Q
          by (change 0%Q with (inject_Z 0); rewrite <- Zlt_Qlt;
              now apply Z.ltb_lt).
        apply Qle_shift_div_l; [assumption | lra].
      * rewrite (f_daily_avg_0 _ _ _ _ _ _ F He). apply Qle_refl.
Qed.

Lemma X6_percentages_in_range_witness :
  exists m,
    compute_student_metrics (sample_row None None) whole_minutes []
                            None 86 2150 = Some m
    /\ (0 <= pct_instr m <= 100)%Q /\ (0 <= pct_expected m)%Q.
Proof.
  eexists. split; [vm_compute; reflexivity |].
  match goal with
  | |- (0 <= pct_instr ?m <= 100)%Q /\ _ =>
      destruct (X6_percentages_in_range (sample_row None None)
                  whole_minutes [] None 86 2150 m
                  ltac:(vm_compute; reflexivity)) as (H1 & H2)
  end.
  split.
  - apply H1; [intros r [<- | [<- | []]]; discriminate | vm_compute; reflexivity].
  - apply H2; [intros r [<- | [<- | []]]; discriminate | vm_compute; reflexivity].
Defined.

(** The sum of an int64 minutes column wraps around: two rows of
    2^63 - 1 minutes are stored as a total of -2 minutes, and
    percent-of-expected is negative although no row is. *)
Example minutes_wrap_around :
  exists m,
    compute_student_metrics (sample_row None None) overflowing_minutes []
                            None 86 2150 = Some m
    /\ (total_active_minutes m == -2)%Q
    /\ (pct_expected m == - (1 # 10))%Q
    /\ In LOW_ENGAGEMENT (issues m).
Proof.
  eexists. split; [vm_compute; reflexivity |].
  split; [reflexivity |]. split; [reflexivity |]. simpl. auto.
Qed.

(** ** Reading group and labels *)

Lemma Qle_bool_false (a b : Q) : Qle_bool a b = false -> (b < a)%Q.
Proof.
  intros H. apply Qnot_le_lt. intros Hle. apply Qle_bool_iff in Hle. congruence.
Qed.

Ltac q_cases :=
  repeat match goal with
         | |- context [Qle_bool ?a ?b] =>
             let H := fresh "Hq" in
             destruct (Qle_bool a b) eqn:H;
             [apply Qle_bool_iff in H | apply Qle_bool_false in H]
         end.

(** The six-way test of the source comes down to one condition. *)
Lemma reading_group_of_G9 (level_ : string) (h a : option Q) :
  reading_group_of level_ h a = G9_plus
  <-> level_ = "HS"%string
      /\ ((exists q, h = Some q /\ (8 <= q)%Q)
          \/ ((h = None \/ exists q, h = Some q /\ (q <= 1)%Q)
              /\ exists g, a = Some g /\ (9 <= g)%Q)).
Proof.
  unfold reading_group_of, opt_test, Qgeb, notna, isna.
  destruct (String.eqb_spec level_ "HS") as [-> | Hne];
    destruct h as [q |], a as [g |]; simpl; q_cases; simpl;
    split; intros H; try discriminate; try reflexivity;
    try (exfalso; lra).
  all: try (split; [reflexivity |]).
  all: try (left; exists q; split; [reflexivity | lra]).
  all: try (right; split;
            [first [left; reflexivity | right; exists q; split; [reflexivity | lra]]
            | exists g; split; [reflexivity | lra]]).
  all: try (destruct H as (Hl & _); congruence).
  all: try (destruct H as (_ & [(q' & [= <-] & Hq') | ([Hn | (q' & [= <-] & Hq')]
                                 & (g' & [= <-] & Hg'))]);
            try discriminate; exfalso; lra).
  all: try (destruct H as (_ & [(q' & Hq' & _) | (_ & (g' & Hg' & _))]);
            discriminate).
  all: try (destruct H as (_ & [(q' & [= <-] & Hq')
                                | ([Hn | (q' & [= <-] & Hq')] & (g' & Hg' & _))]);
            try discriminate; exfalso; lra).
Qed.

(** X7.  A student is put in reading group G9+ exactly when the level is
    HS and either the resolved HMG is 8 or more, or the resolved HMG is
    absent or at most 1 and the age grade is 9 or more; every other
    student, and so every student outside the HS level, is in G3-8. *)
Theorem X7_reading_group
    (row : AssessmentRecord) (daily_data : list ActivityRecord)
    (test_data : list TestAttemptRecord) (spring_rit : option Q)
    (effective_days expected_minutes : Z) (m : StudentMetrics) :
  compute_student_metrics row daily_data test_data spring_rit
                          effective_days expected_minutes = Some m ->
  (reading_group m = G9_plus
   <-> Level row = "HS"%string
       /\ ((exists q, hmg m = Some q /\ (8 <= q)%Q)
           \/ ((hmg m = None \/ exists q, hmg m = Some q /\ (q <= 1)%Q)
               /\ exists g, AgeGrade row = Some g /\ (9 <= g)%Q)))
  /\ (Level row <> "HS"%string -> reading_group m = G3_8).
Proof.
  intros Hm. pose proof (metrics_derived _ _ _ _ _ _ _ Hm) as D.
  rewrite (d_reading_group _ _ _ _ D).
  split; [apply reading_group_of_G9 |].
  intros Hne.
  destruct (reading_group_of (Level row) (hmg m) (AgeGrade row)) eqn:E;
    [reflexivity |].
  apply reading_group_of_G9 in E. destruct E as (E & _). contradiction.
Qed.

Lemma X7_reading_group_witness :
  exists m,
    compute_student_metrics
      {| Email := "student@example.org"; Level := "HS"; HMG := Some 1%Q;
         AgeGrade := Some 10%Q; GrowthFW := None; FallRIT := None |}
      [] [pass_at 9] None 86 2150 = Some m
    /\ hmg m = Some 9%Q
    /\ reading_group m = G9_plus.
Proof.
  eexists. split; [vm_compute; reflexivity |]. split; [reflexivity |].
  match goal with
  | |- reading_group ?m = _ =>
      apply (proj1 (X7_reading_group
               {| Email := "student@example.org"; Level := "HS";
                  HMG := Some 1%Q; AgeGrade := Some 10%Q; GrowthFW := None;
                  FallRIT := None |}
               [] [pass_at 9] None 86 2150 m ltac:(vm_compute; reflexivity)))
  end.
  split; [reflexivity |]. left. exists 9%Q. split; [reflexivity | discriminate].
Defined.

(** The label of an HS student is decided by the resolved HMG alone. *)
Lemma hs_reading_category_of_spec (level_ : string) (h : option Q) :
  (hs_reading_category_of level_ h = HS_G9_plus
   <-> level_ = "HS"%string /\ exists q, h = Some q /\ (8 <= q)%Q)
  /\ (hs_reading_category_of level_ h = HS_le_G8
      <-> level_ = "HS"%string /\ exists q, h = Some q /\ (q <= 7)%Q)
  /\ (hs_reading_category_of level_ h = HS_no_HMG
      <-> level_ = "HS"%string
          /\ (h = None \/ exists q, h = Some q /\ (7 < q)%Q /\ (q < 8)%Q)).
Proof.
  unfold hs_reading_category_of, opt_test, Qgeb.
  destruct (String.eqb_spec level_ "HS") as [-> | Hne].
  - destruct h as [q |]; q_cases.
    all: (split; [| split]); (split; intros H).
    all: try discriminate; try reflexivity; try congruence.
    all: try (split; [reflexivity |]).
    all: try (exists q; split; [reflexivity | assumption]).
    all: try (right; exists q; split; [reflexivity | split; assumption]).
    all: try (left; reflexivity).
    all: try (destruct H as (_ & (q' & [= <-] & Hq')); exfalso; lra).
    all: try (destruct H as (_ & [Hn | (q' & [= <-] & Hq' & Hq'')]);
              [discriminate | exfalso; lra]).
    all: try (destruct H as (_ & (q' & Hq' & _)); discriminate).
  - (split; [| split]); (split; intros H).
    all: try discriminate.
    all: destruct H as (H & _); contradiction.
Qed.

Lemma hs_label_and_group (level_ : string) (h a : option Q) :
  (hs_reading_category_of level_ h = HS_G9_plus ->
   reading_group_of level_ h a = G9_plus)
  /\ (hs_reading_category_of level_ h = HS_le_G8 ->
      (exists q, h = Some q /\ (1 < q)%Q) ->
      reading_group_of level_ h a = G3_8)
  /\ (level_ = "HS"%string ->
      (exists q, h = Some q /\ (q <= 1)%Q) ->
      (exists g, a = Some g /\ (9 <= g)%Q) ->
      hs_reading_category_of level_ h = HS_le_G8
      /\ reading_group_of level_ h a = G9_plus)
  /\ (hs_reading_category_of level_ h = HS_none <-> level_ <> "HS"%string).
Proof.
  split; [| split; [| split]].
  - intros H. apply reading_group_of_G9.
    unfold hs_reading_category_of, opt_test, Qgeb in H.
    destruct (String.eqb_spec level_ "HS") as [-> | Hne]; [| discriminate].
    split; [reflexivity |]. left.
    destruct h as [q |]; [| discriminate]. exists q. split; [reflexivity |].
    revert H. q_cases; intros H; try discriminate. assumption.
  - intros H (q & -> & Hq).
    destruct (reading_group_of level_ (Some q) a) eqn:E; [reflexivity |].
    exfalso. apply reading_group_of_G9 in E.
    unfold hs_reading_category_of, opt_test, Qgeb in H.
    destruct (String.eqb level_ "HS"); [| discriminate].
    revert H. q_cases; intros H; try discriminate.
    destruct E as (_ & [(q' & [= <-] & Hq') | ([Hn | (q' & [= <-] & Hq')] & _)]);
      try discriminate; lra.
  - intros -> (q & -> & Hq) Ha. split.
    + unfold hs_reading_category_of, opt_test. simpl.
      q_cases; try reflexivity; exfalso; lra.
    + apply reading_group_of_G9. split; [reflexivity |]. right.
      split; [right; exists q; auto | exact Ha].
  - unfold hs_reading_category_of.
    destruct (String.eqb_spec level_ "HS") as [-> | Hne].
    + split; [| congruence].
      destruct (opt_test _ h); [discriminate |].
      destruct (opt_test _ h); discriminate.
    + split; [now intros _ | reflexivity].
Qed.

(** X8.  The label of an HS student follows the resolved HMG: G9+
    exactly when it is 8 or more, at most G8 exactly when it is 7 or
    less, and no HMG otherwise (absent, or strictly between 7 and 8); a
    student outside the HS level has no label.  Label and reading group
    agree when the resolved HMG is 8 or more (label G9+, group G9+) and
    when it is above 1 and at most 7 (label at most G8, group G3-8); with
    a resolved HMG of at most 1 and an age grade of 9 or more the label
    is at most G8 while the group is G9+. *)
Theorem X8_hs_label_and_group (level_ : string) (h a : option Q) :
  (hs_reading_category_of level_ h = HS_G9_plus
   <-> level_ = "HS"%string /\ exists q, h = Some q /\ (8 <= q)%Q)
  /\ (hs_reading_category_of level_ h = HS_le_G8
      <-> level_ = "HS"%string /\ exists q, h = Some q /\ (q <= 7)%Q)
  /\ (hs_reading_category_of level_ h = HS_no_HMG
      <-> level_ = "HS"%string
          /\ (h = None \/ exists q, h = Some q /\ (7 < q)%Q /\ (q < 8)%Q))
  /\ (hs_reading_category_of level_ h = HS_none <-> level_ <> "HS"%string)
  /\ (hs_reading_category_of level_ h = HS_G9_plus ->
      reading_group_of level_ h a = G9_plus)
  /\ (hs_reading_category_of level_ h = HS_le_G8 ->
      (exists q, h = Some q /\ (1 < q)%Q) ->
      reading_group_of level_ h a = G3_8)
  /\ (level_ = "HS"%string ->
      (exists q, h = Some q /\ (q <= 1)%Q) ->
      (exists g, a = Some g /\ (9 <= g)%Q) ->
      hs_reading_category_of level_ h = HS_le_G8
      /\ reading_group_of level_ h a = G9_plus).
Proof.
  destruct (hs_reading_category_of_spec level_ h) as (H9 & H8 & Hn).
  destruct (hs_label_and_group level_ h a) as (G9 & G8 & Gm & H0).
  repeat (split; [assumption |]). assumption.
Qed.

Lemma X8_hs_label_and_group_witness :
  hs_reading_category_of "HS" (Some 9%Q) = HS_G9_plus
  /\ reading_group_of "HS" (Some 9%Q) None = G9_plus
  /\ hs_reading_category_of "HS" (Some 5%Q) = HS_le_G8
  /\ reading_group_of "HS" (Some 5%Q) (Some 10%Q) = G3_8
  /\ hs_reading_category_of "HS" (Some 1%Q) = HS_le_G8
  /\ reading_group_of "HS" (Some 1%Q) (Some 10%Q) = G9_plus.
Proof.
  destruct (X8_hs_label_and_group "HS" (Some 9%Q) None)
    as ((_ & L9) & _ & _ & _ & G9 & _).
  destruct (X8_hs_label_and_group "HS" (Some 5%Q) (Some 10%Q))
    as (_ & (_ & L5) & _ & _ & _ & G5 & _).
  destruct (X8_hs_label_and_group "HS" (Some 1%Q) (Some 10%Q))
    as (_ & _ & _ & _ & _ & _ & M).
  assert (E9 : hs_reading_category_of "HS" (Some 9%Q) = HS_G9_plus)
    by (apply L9; split; [reflexivity |]; exists 9%Q; split;
        [reflexivity | discriminate]).
  assert (E5 : hs_reading_category_of "HS" (Some 5%Q) = HS_le_G8)
    by (apply L5; split; [reflexivity |]; exists 5%Q; split;
        [reflexivity | discriminate]).
  destruct M as (M1 & M2);
    [reflexivity | exists 1%Q; split; [reflexivity | discriminate]
    | exists 10%Q; split; [reflexivity | discriminate] |].
  split; [exact E9 |]. split; [exact (G9 E9) |].
  split; [exact E5 |].
  split; [apply (G5 E5); exists 5%Q; split; [reflexivity | reflexivity] |].
  split; [exact M1 | exact M2].
Defined.

(** ** Flags and rounding *)


Lemma round1_gt_50 (x : Q) : (50 < round1 x)%Q -> (50 < x)%Q.
Proof.
  intros H. apply Qnot_le_lt. intros Hle.
  apply round1_mono in Hle. rewrite round1_50 in Hle. lra.
Qed.

Lemma share_of_total (a T : Q) : (0 < T)%Q -> (a == a / T * T)%Q.
Proof. intros HT. field. lra. Qed.


Lemma share_gt_half (a T : Q) :
  (0 < T)%Q -> (50 < a / T * 100)%Q -> (T < 2 * a)%Q.
Proof.
  intros HT H.
  assert (Hx : ((1 # 2) < a / T)%Q) by lra.
  pose proof (Qmult_lt_compat_r _ _ T HT Hx) as Hm.
  rewrite <- (share_of_total a T HT) in Hm. lra.
Qed.



(** ** The ranking of systemic issues *)

Lemma insert_ranked_perm (x : SystemicIssue) (l : list SystemicIssue) :
  Permutation (insert_ranked x l) (x :: l).
Proof.
  induction l as [| y l IH]; simpl; [reflexivity |].
  destruct (count y <=? count x)%nat; [reflexivity |].
  rewrite IH. apply perm_swap.
Qed.

Lemma sort_ranked_perm (l : list SystemicIssue) : Permutation (sort_ranked l) l.
Proof.
  induction l as [| x l IH]; simpl; [reflexivity |].
  rewrite insert_ranked_perm. now constructor.
Qed.

Lemma detect_systemic_issues_perm (studs : list StudentMetrics) :
  Permutation (detect_systemic_issues studs)
              (testing_summary studs ++ instruction_summary studs
               ++ time_summary studs).
Proof.
  unfold detect_systemic_issues.
  destruct (summaries_at_most_one studs) as (H1 & H2 & H3).
  rewrite firstn_all2 by (rewrite sort_ranked_length, !length_app; lia).
  apply sort_ranked_perm.
Qed.

(** X10.  The ranking holds at most three summaries, in descending
    order of their counts and with pairwise different keys, and every
    summary in it affects at least one student. *)
Theorem X10_ranking_shape (studs : list StudentMetrics) :
  (List.length (detect_systemic_issues studs) <= 3)%nat
  /\ Sorted (fun a b => (count b <= count a)%nat) (detect_systemic_issues studs)
  /\ NoDup (map key (detect_systemic_issues studs))
  /\ forall e, In e (detect_systemic_issues studs) ->
               (1 <= count e)%nat /\ count e = List.length (students e).
Proof.
  split; [| split; [| split]].
  - unfold detect_systemic_issues. apply firstn_le_length.
  - apply detect_systemic_issues_sorted.
  - eapply Permutation_NoDup;
      [symmetry; apply Permutation_map, detect_systemic_issues_perm |].
    unfold testing_summary, instruction_summary, time_summary.
    repeat match goal with
           | |- context [if ?b then _ else _] => destruct b
           end; simpl; repeat constructor; simpl; intuition discriminate.
  - intros e He. apply detect_systemic_issues_In in He.
    unfold testing_summary, instruction_summary, time_summary in He.
    destruct He as [He | [He | He]];
      match type of He with
      | context [if ?b then _ else _] => destruct b eqn:Hb
      end; simpl in He; try contradiction;
      destruct He as [<- | []]; simpl; apply Nat.ltb_lt in Hb;
      rewrite ?length_map; split; try reflexivity; lia.
Qed.

Lemma dropna_nil {A : Type} (l : list (option A)) :
  dropna l = [] <-> forall o, In o l -> o = None.
Proof.
  induction l as [| [a |] l IH]; simpl.
  - split; [intros _ o [] | reflexivity].
  - split; [discriminate | intros H; specialize (H (Some a) (or_introl eq_refl));
                          discriminate].
  - rewrite IH. split.
    + intros H o [<- | Ho]; [reflexivity | now apply H].
    + intros H o Ho. apply H. now right.
Qed.

Lemma avg_growth_of_none (l : list StudentMetrics) :
  avg_growth_of l = None <-> forall s, In s l -> growth s = None.
Proof.
  unfold avg_growth_of, mean.
  destruct (dropna (map growth l)) as [| q qs] eqn:E.
  - split; [| reflexivity]. intros _ s Hs.
    apply (proj1 (dropna_nil (map growth l)) E). now apply in_map.
  - split; [discriminate |]. intros H. exfalso.
    assert (Hnil : dropna (map growth l) = []).
    { apply dropna_nil. intros o Ho. apply in_map_iff in Ho.
      destruct Ho as (s & <- & Hs). now apply H. }
    congruence.
Qed.

(** X11.  The average growth of a ranked summary is undefined exactly
    when none of its students has a growth value; it is never replaced
    by a number. *)
Theorem X11_average_growth_undefined
    (studs : list StudentMetrics) (e : SystemicIssue) :
  In e (detect_systemic_issues studs) ->
  (avg_growth e = None <-> forall s, In s (students e) -> growth s = None).
Proof.
  intros He. apply detect_systemic_issues_In in He.
  unfold testing_summary, instruction_summary, time_summary in He.
  destruct He as [He | [He | He]];
    match type of He with
    | context [if ?b then _ else _] => destruct b
    end; simpl in He; try contradiction;
    destruct He as [<- | []]; simpl; apply avg_growth_of_none.
Qed.

Lemma X11_average_growth_undefined_witness :
  exists s e,
    ungraded_tester "student@example.org" = Some s
    /\ In e (detect_systemic_issues [s])
    /\ key e = "OVER_TESTING_DOOM"%string
    /\ avg_growth e = None.
Proof.
  destruct (ungraded_tester "student@example.org") as [s |] eqn:E;
    [| vm_compute in E; discriminate].
  vm_compute in E. injection E as <-.
  eexists. eexists. split; [reflexivity |].
  match goal with
  | |- In _ (detect_systemic_issues ?l) /\ _ =>
      assert (Hin : In (hd {| key := ""; count := 0; avg_growth := None;
                              students := []; detail_counts := TestingDetail 0 0 |}
                           (detect_systemic_issues l))
                       (detect_systemic_issues l))
        by (left; reflexivity);
      split; [exact Hin |]; split; [reflexivity |];
      apply (proj2 (X11_average_growth_undefined l _ Hin))
  end.
  intros s' [<- | []]. reflexivity.
Defined.

(** ** Merged counts under unique emails *)

Lemma flagged_In (i : issue) (s : StudentMetrics) :
  flagged i s = true <-> In i (issues s).
Proof.
  unfold flagged. rewrite existsb_exists. split.
  - intros (j & Hj & E). apply issue_eqb_eq in E. now subst.
  - intros H. exists i. split; [assumption | now apply issue_eqb_eq].
Qed.

Lemma email_identifies (studs : list StudentMetrics) (s v : StudentMetrics) :
  NoDup (map email studs) -> In s studs -> In v studs -> email s = email v ->
  s = v.
Proof.
  induction studs as [| a l IH]; simpl; intros Hnd Hs Hv E; [contradiction |].
  inversion Hnd as [| ? ? Hnotin Hnd']; subst.
  destruct Hs as [-> | Hs], Hv as [-> | Hv].
  - reflexivity.
  - exfalso. apply Hnotin. rewrite E. now apply in_map.
  - exfalso. apply Hnotin. rewrite <- E. now apply in_map.
  - now apply IH.
Qed.

Lemma merged_length (studs : list StudentMetrics) (i j : issue) :
  NoDup (map email studs) ->
  List.length (by_email (issue_counts i studs ++ issue_counts j studs))
  = List.length (filter (fun s => flagged i s || flagged j s) studs).
Proof.
  intros Hnd.
  set (l := issue_counts i studs ++ issue_counts j studs).
  set (vals := map snd (by_email l)).
  set (hit := filter (fun s => flagged i s || flagged j s) studs).
  assert (Hl : forall s, In s l <-> In s hit).
  { intros s. unfold l, hit.
    rewrite in_app_iff, !issue_counts_In, filter_In, orb_true_iff, !flagged_In.
    tauto. }
  assert (Hvals : NoDup vals).
  { apply (NoDup_map_inv email). unfold vals.
    rewrite by_email_values_emails. apply by_email_keys_NoDup. }
  assert (Hhit : NoDup hit)
    by (apply NoDup_filter, (NoDup_map_inv email), Hnd).
  assert (H1 : incl vals hit).
  { intros v Hv. unfold vals in Hv. apply in_map_iff in Hv.
    destruct Hv as (e & <- & He). apply by_email_entries in He.
    apply Hl, He. }
  assert (H2 : incl hit vals).
  { intros s Hs.
    assert (Hk : In (email s) (map fst (by_email l)))
      by (apply by_email_keys_In, in_map, Hl, Hs).
    apply in_map_iff in Hk. destruct Hk as (e & Ek & He).
    pose proof (by_email_entries _ _ He) as (Hv & Ev).
    assert (snd e = s).
    { apply (email_identifies studs); trivial.
      - apply Hl in Hv. unfold hit in Hv. apply filter_In in Hv. apply Hv.
      - unfold hit in Hs. apply filter_In in Hs. apply Hs.
      - congruence. }
    subst s. unfold vals. now apply in_map. }
  replace (List.length (by_email l)) with (List.length vals)
    by (unfold vals; apply length_map).
  apply Nat.le_antisymm; now apply NoDup_incl_length.
Qed.

(** X12.  When no two students share an email, the count of the merged
    testing summary is the number of students flagged with over-testing
    or doom loop, and the count of the merged missing-instruction
    summary is the number of students flagged with either
    missing-instruction flag. *)
Theorem X12_merged_count_exact
    (studs : list StudentMetrics) (e : SystemicIssue) :
  NoDup (map email studs) ->
  In e (detect_systemic_issues studs) ->
  (key e = "OVER_TESTING_DOOM"%string ->
   count e
   = List.length (filter (fun s => flagged OVER_TESTING s || flagged DOOM_LOOP s)
                         studs))
  /\ (key e = "MISSING_READING_INSTRUCTION"%string ->
      count e
      = List.length (filter (fun s => flagged NEEDS_HS_INSTRUCTION s
                                      || flagged NEEDS_MM_INSTRUCTION s)
                            studs)).
Proof.
  intros Hnd He. apply detect_systemic_issues_In in He.
  unfold testing_summary, instruction_summary, time_summary in He.
  destruct He as [He | [He | He]];
    match type of He with
    | context [if ?b then _ else _] => destruct b
    end; simpl in He; try contradiction;
    destruct He as [<- | []]; simpl;
    split; intros Hk; try discriminate Hk; now apply merged_length.
Qed.

Lemma X12_merged_count_exact_witness :
  exists s1 s2 e,
    test_bound_student "first@example.org" = Some s1
    /\ ungraded_tester "second@example.org" = Some s2
    /\ In e (detect_systemic_issues [s1; s2])
    /\ key e = "OVER_TESTING_DOOM"%string
    /\ count e = 2%nat.
Proof.
  destruct (test_bound_student "first@example.org") as [s1 |] eqn:E1;
    [| vm_compute in E1; discriminate].
  destruct (ungraded_tester "second@example.org") as [s2 |] eqn:E2;
    [| vm_compute in E2; discriminate].
  vm_compute in E1. injection E1 as <-.
  vm_compute in E2. injection E2 as <-.
  eexists. eexists. eexists.
  split; [reflexivity |]. split; [reflexivity |].
  match goal with
  | |- In _ (detect_systemic_issues ?l) /\ _ =>
      assert (Hin : In (hd {| key := ""; count := 0; avg_growth := None;
                              students := []; detail_counts := TestingDetail 0 0 |}
                           (detect_systemic_issues l))
                       (detect_systemic_issues l))
        by (left; reflexivity);
      split; [exact Hin |]; split; [reflexivity |];
      rewrite (proj1 (X12_merged_count_exact l _
                        ltac:(repeat constructor; simpl; intuition discriminate)
                        Hin) eq_refl)
  end.
  reflexivity.
Defined.

(** ** School days *)

Lemma days_from_In (n : nat) :
  forall s d, In d (days_from s n) <-> s <= d < s + Z.of_nat n.
Proof.
  induction n as [| n IH]; intros s d; simpl days_from.
  - simpl. lia.
  - simpl In. rewrite IH. lia.
Qed.

Lemma days_from_sorted (n : nat) :
  forall s, StronglySorted Z.lt (days_from s n).
Proof.
  induction n as [| n IH]; intros s; simpl; constructor; [apply IH |].
  apply Forall_forall. intros d Hd. apply days_from_In in Hd. lia.
Qed.

Lemma days_between_In (s e d : Z) : In d (days_between s e) <-> s <= d <= e.
Proof.
  unfold days_between. rewrite days_from_In. lia.
Qed.

(** X13.  For every term window, the school dates returned are exactly
    the Monday-to-Friday dates of the window that are not on the
    exclusion list, in ascending order and each once; the effective days
    are their number less one. *)
Theorem X13_school_days (start_date end_date : Z) :
  let '(effective_days, expected_minutes, dates) :=
    compute_school_days start_date end_date in
  (forall d,
      In d dates
      <-> start_date <= d <= end_date /\ weekday d < 5 /\ ~ In d non_school)
  /\ StronglySorted Z.lt dates
  /\ effective_days = Z.of_nat (List.length dates) - 1
  /\ expected_minutes = 25 * effective_days.
Proof.
  unfold compute_school_days. split; [| split; [| split]].
  - intros d. unfold school_days, all_days, non_school_weekdays.
    rewrite !filter_In, days_between_In, negb_true_iff, Z.ltb_lt.
    rewrite <- not_true_iff_false, z_in_spec, filter_In.
    rewrite !andb_true_iff, !Z.leb_le, Z.ltb_lt. tauto.
  - unfold school_days, all_days, days_between.
    apply filter_sorted, filter_sorted, days_from_sorted.
  - reflexivity.
  - unfold EXPECTED_DAILY_MINUTES. lia.
Qed.

Lemma X13_school_days_witness :
  ~ In (date 2025 9 1) (snd (compute_school_days START_DATE END_DATE))
  /\ In (date 2025 9 2) (snd (compute_school_days START_DATE END_DATE)).
Proof.
  pose proof (X13_school_days START_DATE END_DATE) as H.
  destruct (compute_school_days START_DATE END_DATE) as ((ed & em) & dates) eqn:E.
  destruct H as (H & _). simpl. rewrite !H. split.
  - intros (_ & _ & Hn). apply Hn. vm_compute. tauto.
  - split; [vm_compute; split; discriminate |].
    split; [reflexivity |]. vm_compute. intuition discriminate.
Defined.

(** ** Labels of growth and of percent-of-expected *)

(** X14.  The CSS class of a growth figure names the growth category of
    the metrics record: negative, zero, positive or absent go together;
    and a student who met the 2x growth check is in the positive
    category. *)
Theorem X14_growth_labels (g : option Q) :
  (growth_class g = "growth-neg"%string
   <-> growth_category_of g = Growth_negative)
  /\ (growth_class g = "growth-zero"%string
      <-> growth_category_of g = Growth_zero)
  /\ (growth_class g = "growth-pos"%string
      <-> growth_category_of g = Growth_positive)
  /\ (growth_class g = ""%string <-> growth_category_of g = Growth_unknown)
  /\ (met_2x_of g = true -> growth_category_of g = Growth_positive).
Proof.
  unfold growth_class, growth_category_of, met_2x_of, opt_test.
  destruct g as [q |].
  - destruct (Qltb q 0) eqn:Hlt; [| destruct (Qeq_bool q 0) eqn:Heq];
      repeat split; intros H; try discriminate; try reflexivity.
    + apply Qltb_true in Hlt. apply Qgeb_true in H. lra.
    + apply Qeq_bool_iff in Heq. apply Qgeb_true in H. lra.
  - repeat split; intros H; try discriminate; reflexivity.
Qed.

Lemma X14_growth_labels_witness :
  growth_category_of (Some 3%Q) = Growth_positive
  /\ growth_class (Some 3%Q) = "growth-pos"%string.
Proof.
  destruct (X14_growth_labels (Some 3%Q)) as (_ & _ & H & _ & H2).
  assert (Hc : growth_category_of (Some 3%Q) = Growth_positive)
    by (apply H2; reflexivity).
  split; [exact Hc | now apply H].
Defined.

(** X15.  The percent-of-expected figure of a student flagged for low
    engagement is shown with the warning class, and that of a student
    flagged for time without growth with the ok class. *)
Theorem X15_pct_class_of_flagged
    (row : AssessmentRecord) (daily_data : list ActivityRecord)
    (test_data : list TestAttemptRecord) (spring_rit : option Q)
    (effective_days expected_minutes : Z) (m : StudentMetrics) :
  compute_student_metrics row daily_data test_data spring_rit
                          effective_days expected_minutes = Some m ->
  (In LOW_ENGAGEMENT (issues m) ->
   pct_class (Some (pct_expected m)) = "pct-warn"%string)
  /\ (In TIME_NO_GROWTH (issues m) ->
      pct_class (Some (pct_expected m)) = "pct-ok"%string).
Proof.
  intros Hm. pose proof (metrics_derived _ _ _ _ _ _ _ Hm) as D.
  rewrite (d_issues _ _ _ _ D), !issues_of_In. unfold pct_class. split.
  - intros H. apply Qltb_true in H.
    assert (E : Qltb (pct_expected m) 75 = true) by (apply Qltb_true; lra).
    now rewrite E.
  - intros H. apply andb_true_iff in H. destruct H as (H & _).
    assert (E : Qltb (pct_expected m) 75 = false).
    { apply not_true_is_false. intros E. apply Qltb_true in E.
      apply Qgeb_true in H. lra. }
    now rewrite E, H.
Qed.

Lemma X15_pct_class_of_flagged_witness :
  exists m,
    diligent_student "student@example.org" = Some m
    /\ In TIME_NO_GROWTH (issues m)
    /\ pct_class (Some (pct_expected m)) = "pct-ok"%string.
Proof.
  destruct (diligent_student "student@example.org") as [m |] eqn:E;
    [| vm_compute in E; discriminate].
  pose proof E as E'. unfold diligent_student in E'.
  exists m. split; [reflexivity |].
  assert (Ht : In TIME_NO_GROWTH (issues m))
    by (vm_compute in E; injection E as <-; left; reflexivity).
  split; [exact Ht |].
  exact (proj2 (X15_pct_class_of_flagged _ _ _ _ _ _ m E') Ht).
Defined.

(** ** The three categorizers *)

Ltac by_names n :=
  repeat match goal with
         | |- context [String.eqb n ?c] =>
             destruct (String.eqb_spec n c) as [-> | ?];
             [vm_compute; try reflexivity; try tauto |]
         end.

(** X16.  The pipeline's categorizer, the low-growth script's and the
    student page's agree on every app name but for these: Alpha Read is
    practice in the pipeline and instruction elsewhere; Clear Fluency
    and AlphaLiteracy are early literacy in the pipeline and unknown or
    other elsewhere; 100x100 is testing in the pipeline and the script
    and other on the page; and where the pipeline says Admin/Other the
    script says Admin/Other or Unknown and the page says Other. *)
Theorem X16_categorizers_agree (app_name : string) :
  categorize_app app_name
  = match LowGrowth.categorize_app app_name with
    | Instruction =>
        if String.eqb app_name "Alpha Read" then Practice else Instruction
    | Unknown =>
        if str_in app_name ["Clear Fluency"; "AlphaLiteracy"]%string
        then EarlyLit else AdminOther
    | c => c
    end
  /\ page_category_of app_name
     = match LowGrowth.categorize_app app_name with
       | Instruction => Page_Instruction
       | Testing =>
           if String.eqb app_name "100x100" then Page_Other else Page_Testing
       | EarlyLit => Page_Early_Lit
       | _ => Page_Other
       end.
Proof.
  unfold categorize_app, LowGrowth.categorize_app, page_category_of, str_in,
    INSTRUCTION_APPS, PRACTICE_APPS, TESTING_APPS, EARLY_LIT_APPS, ADMIN_APPS,
    LowGrowth.INSTRUCTION_APPS, LowGrowth.TESTING_APPS,
    LowGrowth.EARLY_LIT_APPS, LowGrowth.ADMIN_APPS.
  cbn [existsb].
  by_names app_name.
  split; reflexivity.
Qed.

(** ** Name matching *)

Section NameMatchingFacts.
Context {A : Type}.
Variables (name_of : A -> option string)
          (split : string -> list string)
          (contains : string -> string -> bool).

Lemma name_is_true (n : string) (r : A) :
  name_is name_of n r = true <-> name_of r = Some n.
Proof.
  unfold name_is. destruct (name_of r) as [x |].
  - rewrite String.eqb_eq. split; congruence.
  - split; discriminate.
Qed.

Lemma first_alias_match_In (alts : list string) (df : list A) (r : A) :
  In r (first_alias_match name_of alts df) ->
  In r df /\ exists alt, In alt alts /\ name_of r = Some alt.
Proof.
  induction alts as [| alt rest IH]; simpl; [contradiction |].
  destruct (0 <? List.length (filter (name_is name_of alt) df))%nat.
  - intros H. apply filter_In in H. destruct H as (H & E).
    apply name_is_true in E. split; [assumption |]. exists alt. auto.
  - intros H. destruct (IH H) as (H1 & alt' & H2 & H3).
    split; [assumption |]. exists alt'. auto.
Qed.

Lemma nonempty_filter (p : A -> bool) (l : list A) :
  (0 <? List.length (filter p l))%nat = true
  <-> exists r, In r l /\ p r = true.
Proof.
  rewrite Nat.ltb_lt. split.
  - destruct (filter p l) as [| r f] eqn:E; simpl; [lia |].
    intros _. exists r. apply filter_In. rewrite E. now left.
  - intros (r & Hr). apply filter_In in Hr.
    destruct (filter p l); [destruct Hr | simpl; lia].
Qed.

(** X17.  Looking a student up returns rows of the table only.  When
    some row carries the exact name, exactly the rows with the exact
    name are returned, whatever the alias table and the partial match
    would give.  Every returned row carries the exact name, or one of
    the name's known spellings, or a name that contains the first and
    the last word of a name of two or more words. *)
Theorem X17_find_student (student_name : string) (df : list A) :
  (forall r, In r (find_student_in_df name_of split contains student_name df) ->
             In r df)
  /\ ((exists r, In r df /\ name_of r = Some student_name) ->
      find_student_in_df name_of split contains student_name df
      = filter (name_is name_of student_name) df)
  /\ (forall r,
        In r (find_student_in_df name_of split contains student_name df) ->
        name_of r = Some student_name
        \/ (exists alts alt,
               dict_get student_name NAME_MAP = Some alts
               /\ In alt alts /\ name_of r = Some alt)
        \/ (exists x,
               (2 <= List.length (split student_name))%nat
               /\ name_of r = Some x
               /\ contains x (hd ""%string (split student_name)) = true
               /\ contains x (last (split student_name) ""%string) = true)).
Proof.
  assert (Hall :
    forall r, In r (find_student_in_df name_of split contains student_name df) ->
      In r df
      /\ (name_of r = Some student_name
          \/ (exists alts alt,
                 dict_get student_name NAME_MAP = Some alts
                 /\ In alt alts /\ name_of r = Some alt)
          \/ (exists x,
                 (2 <= List.length (split student_name))%nat
                 /\ name_of r = Some x
                 /\ contains x (hd ""%string (split student_name)) = true
                 /\ contains x (last (split student_name) ""%string) = true))).
  { intros r. unfold find_student_in_df.
    destruct (0 <? List.length (filter (name_is name_of student_name) df))%nat.
    - intros H. apply filter_In in H. destruct H as (H & E).
      apply name_is_true in E. auto.
    - destruct (dict_get student_name NAME_MAP) as [alts |] eqn:Ed.
      + destruct (0 <? List.length (first_alias_match name_of alts df))%nat.
        * intros H. apply first_alias_match_In in H.
          destruct H as (H & alt & Ha & En). split; [assumption |].
          right. left. exists alts, alt. auto.
        * destruct (2 <=? List.length (split student_name))%nat eqn:E2;
            [| intros H; exact (False_ind _ H)].
          destruct (0 <? List.length (filter _ df))%nat; [| intros H; exact (False_ind _ H)].
          intros H. apply filter_In in H. destruct H as (H & E).
          split; [assumption |]. right. right.
          unfold partial_match in E. destruct (name_of r) as [x |];
            [| discriminate].
          apply andb_true_iff in E. exists x. apply Nat.leb_le in E2. tauto.
      + cbn [List.length]. change (0 <? 0)%nat with false. cbv iota.
        destruct (2 <=? List.length (split student_name))%nat eqn:E2;
          [| intros H; exact (False_ind _ H)].
        destruct (0 <? List.length (filter _ df))%nat; [| intros H; exact (False_ind _ H)].
        intros H. apply filter_In in H. destruct H as (H & E).
        split; [assumption |]. right. right.
        unfold partial_match in E. destruct (name_of r) as [x |];
          [| discriminate].
        apply andb_true_iff in E. exists x. apply Nat.leb_le in E2. tauto. }
  split; [intros r Hr; apply Hall, Hr |].
  split; [| intros r Hr; apply Hall, Hr].
  intros (r & Hr & En). unfold find_student_in_df.
  assert (E : (0 <? List.length (filter (name_is name_of student_name) df))%nat
              = true).
  { apply nonempty_filter. exists r. split; [assumption |].
    now apply name_is_true. }
  now rewrite E.
Qed.
End NameMatchingFacts.

Lemma X17_find_student_witness :
  find_student_in_df (fun n : string => Some n) (fun s => [s])
                     (fun _ _ => false) "Bobbi Brown"
                     ["Bobbi Sue Brown"; "Bobbi Brown"]%string
  = ["Bobbi Brown"%string]
  /\ find_student_in_df (fun n : string => Some n) (fun s => [s])
                        (fun _ _ => false) "Bobbi Brown"
                        ["Bobbi Sue Brown"; "Bobby Brown"]%string
     = ["Bobbi Sue Brown"%string].
Proof.
  split; [| reflexivity].
  rewrite (proj1 (proj2 (X17_find_student (fun n : string => Some n)
                           (fun s => [s]) (fun _ _ => false) "Bobbi Brown"
                           ["Bobbi Sue Brown"; "Bobbi Brown"]%string))).
  - reflexivity.
  - exists "Bobbi Brown"%string. split; [right; left; reflexivity | reflexivity].
Defined.

(** ** XP flags and clusters of the low-growth script *)

(** X18.  Every student of the low-growth analysis is put in at least
    one cluster and in none twice.  Quality Issue and Mixed/Unclear are
    only given alone: Quality Issue when no other cluster applies and
    percent-of-expected is 75 or more, Mixed/Unclear when none applies
    and it is between 50 and 75.  Low Effort is never combined with
    Adequate Effort, Bad Test. *)
Theorem X18_student_clusters
    (pct : Q) (xp_r : option xp_result) (test_r : option (list Z))
    (rushed : option string) :
  let cs := student_clusters pct xp_r test_r rushed in
  cs <> []
  /\ NoDup cs
  /\ (In Quality_Issue cs -> cs = [Quality_Issue] /\ (75 <= pct)%Q)
  /\ (In Mixed_Unclear cs -> cs = [Mixed_Unclear] /\ (50 <= pct < 75)%Q)
  /\ ~ (In Low_Effort cs /\ In Adequate_Effort_Bad_Test cs).
Proof.
  unfold student_clusters, cluster_if.
  destruct (Qltb pct 50) eqn:H50;
    [apply Qltb_true in H50
    | apply not_true_iff_false in H50; rewrite Qltb_true in H50;
      apply Qnot_lt_le in H50];
    (destruct (Qgeb pct 75) eqn:H75;
     [apply Qgeb_true in H75
     | apply not_true_iff_false in H75; rewrite Qgeb_true in H75;
       apply Qnot_le_lt in H75]);
    try (exfalso; lra);
    destruct xp_r as [r |], test_r as [doom |], rushed as [v |];
    cbn [andb];
    repeat match goal with
           | |- context [if ?b then _ else _] =>
               match type of b with
               | bool => destruct b
               end
           end;
    cbv zeta; simpl.
  all: split; [discriminate |].
  all: split; [solve [repeat constructor; simpl; intuition discriminate] |].
  all: split;
    [first [solve [intros H; exfalso; simpl in H; intuition discriminate]
           | solve [intros _; split; [reflexivity | lra]]] |].
  all: split;
    [first [solve [intros H; exfalso; simpl in H; intuition discriminate]
           | solve [intros _; split; [reflexivity | lra]]] |].
  all: intros (Hl & Ha); simpl in Hl, Ha; intuition discriminate.
Qed.

Lemma X18_student_clusters_witness :
  student_clusters 80 None None (Some "No"%string) = [Quality_Issue]
  /\ student_clusters 60 None None None = [Mixed_Unclear]
  /\ (75 <= 80)%Q.
Proof.
  split; [reflexivity |]. split; [reflexivity |].
  destruct (X18_student_clusters 80 None None (Some "No"%string))
    as (_ & _ & H & _).
  apply H. left. reflexivity.
Defined.

Lemma xp_flag_if_In (c : bool) (f g : xp_flag) :
  In f (xp_flag_if c g) <-> c = true /\ f = g.
Proof.
  unfold xp_flag_if. destruct c; simpl; intuition congruence.
Qed.

(** X19.  The XP summary of the low-growth script is computed for every
    student without dividing by zero.  The zero-XP flag is raised
    exactly when total XP is 0, and then it is the only flag; a student
    flagged for over-testing has total XP above 0 and more than half of
    it from testing apps. *)
Theorem X19_xp_flags (b : LowGrowth.xp_buckets) :
  exists r,
    xp_result_of b = Some r
    /\ (In Flag_ZERO_XP (r_flags r) <-> (LowGrowth.total_xp b == 0)%Q)
    /\ (In Flag_ZERO_XP (r_flags r) -> r_flags r = [Flag_ZERO_XP])
    /\ (In Flag_OVER_TESTING (r_flags r) ->
        (0 < LowGrowth.total_xp b)%Q
        /\ (LowGrowth.total_xp b < 2 * LowGrowth.testing_xp b)%Q).
Proof.
  unfold xp_result_of. cbv zeta.
  set (T := LowGrowth.total_xp b).
  destruct (guarded_percent (Qltb 0 T) (LowGrowth.instruction_xp b) T
              (Qeq_bool_pos_Q _)) as (pi & -> & Hpi0 & Hpi).
  destruct (guarded_percent (Qltb 0 T) (LowGrowth.testing_xp b) T
              (Qeq_bool_pos_Q _)) as (pt & -> & Hpt0 & Hpt).
  destruct (guarded_percent (Qltb 0 T) (LowGrowth.early_lit_xp b) T
              (Qeq_bool_pos_Q _)) as (pe & -> & Hpe0 & Hpe).
  cbn [bind]. eexists. split; [reflexivity |]. cbn [r_flags].
  split; [| split].
  - rewrite !in_app_iff, !xp_flag_if_In, Qeq_bool_iff.
    intuition discriminate.
  - rewrite !in_app_iff, !xp_flag_if_In. intros H.
    assert (E0 : Qeq_bool T 0 = true) by intuition discriminate.
    assert (HT : Qltb 0 T = false).
    { apply Qltb_0_false. apply Qeq_bool_iff in E0. rewrite E0. apply Qle_refl. }
    rewrite (Hpi0 HT), (Hpt0 HT), (Hpe0 HT), HT, E0. reflexivity.
  - rewrite !in_app_iff, !xp_flag_if_In. intros H.
    assert (H50 : Qgtb pt 50 = true) by intuition discriminate.
    apply Qgtb_true in H50.
    destruct (Qltb 0 T) eqn:HT.
    + rewrite (Hpt eq_refl) in H50. apply Qltb_0_true in HT.
      split; [exact HT |]. apply round1_gt_50 in H50.
      now apply share_gt_half.
    + rewrite (Hpt0 eq_refl) in H50. discriminate.
Qed.

Lemma X19_xp_flags_witness :
  exists r,
    xp_result_of (LowGrowth.xp_breakdown []) = Some r
    /\ r_flags r = [Flag_ZERO_XP].
Proof.
  destruct (X19_xp_flags (LowGrowth.xp_breakdown [])) as (r & Hr & H0 & H1 & _).
  exists r. split; [exact Hr |]. apply H1, H0. reflexivity.
Defined.

(** ** Student pages *)

Lemma chosen_shape (has : string -> bool) :
  chosen has <> []
  /\ NoDup (chosen has)
  /\ (In Rec_default (chosen has) <-> chosen has = [Rec_default])
  /\ ~ (In Rec_low_effective_tests (chosen has)
        /\ (In Rec_over_testing (chosen has) \/ In Rec_doom_loop (chosen has)))
  /\ ~ (In Rec_at_grade (chosen has) /\ In Rec_no_instruction_app (chosen has)).
Proof.
  unfold chosen, rec_if. cbv zeta.
  destruct (has "NO_INSTRUCTION_APP"%string),
    (has "SHOULD_HAVE_MOBYMAX"%string),
    (has "OVER_TESTING"%string),
    (has "DOOM_LOOP"%string),
    (has "LOW_MINUTES"%string),
    (has "AT_GRADE_NO_MOTIVATION"%string),
    (has "LARGE_GAP_OVERWHELMED"%string),
    (has "LOW_EFFECTIVE_TESTS"%string);
    simpl.
  all: split; [discriminate |].
  all: split; [solve [repeat constructor; simpl; intuition discriminate] |].
  all: split;
    [split; [solve [simpl; intuition discriminate]
            | solve [intros H; first [discriminate H | left; reflexivity]]] |].
  all: simpl; intuition discriminate.
Qed.

Lemma bind_some {A B : Type} (c : option A) (k : A -> option B) (y : B) :
  bind c k = Some y <-> exists x, c = Some x /\ k x = Some y.
Proof.
  destruct c as [a |]; simpl; split.
  - intros H. exists a. auto.
  - intros (x & [= <-] & H). exact H.
  - discriminate.
  - intros (x & H & _). discriminate.
Qed.

(** A text that is built behind a guard. *)
Lemma guarded_text (b c : bool) (t : recommendation) (r : list recommendation) :
  (if b then _ <- check c ;; Some [t] else Some []) = Some r
  <-> (b = true -> c = true) /\ r = rec_if b t.
Proof.
  destruct b, c; simpl; split.
  all: try (intros [= <-]; split; [reflexivity | reflexivity]).
  all: try (intros [= <-]; split; [discriminate | reflexivity]).
  all: try (intros (_ & ->); reflexivity).
  - discriminate.
  - intros (H & _). discriminate (H eq_refl).
Qed.

Lemma guarded_text_key {A : Type} (b c : bool) (v : option A)
    (t : recommendation) (r : list recommendation) :
  (if b then _ <- check c ;; _ <- v ;; Some [t] else Some []) = Some r
  <-> (b = true -> c = true /\ v <> None) /\ r = rec_if b t.
Proof.
  destruct b;
    [| simpl; split;
       [intros [= <-]; split; [discriminate | reflexivity]
       | intros (_ & ->); reflexivity]].
  destruct c, v as [a |]; simpl; split.
  - intros [= <-]. split; [| reflexivity].
    intros _. split; [reflexivity | discriminate].
  - intros (_ & ->). reflexivity.
  - discriminate.
  - intros (H & _). destruct (H eq_refl) as (_ & H2). exfalso. now apply H2.
  - discriminate.
  - intros (H & _). destruct (H eq_refl) as (H1 & _). discriminate H1.
  - discriminate.
  - intros (H & _). destruct (H eq_refl) as (H1 & _). discriminate H1.
Qed.

Lemma default_if_none (l recs : list recommendation) :
  match l with
  | [] => Some [Rec_default]
  | _ :: _ => Some l
  end = Some recs
  <-> recs = match l with
             | [] => [Rec_default]
             | _ :: _ => l
             end.
Proof.
  destruct l; split; congruence.
Qed.

Section RecommendationFacts.
Variables (split : string -> list string) (int_literal : string -> bool).

Lemma gap_check (v : json) :
  negb (truthy v) || int_works int_literal v = true
  <-> truthy v = false \/ int_works int_literal v = true.
Proof.
  rewrite orb_true_iff, negb_true_iff. tauto.
Qed.

Lemma get_recommendation_spec (student : list (string * json))
    (recs : list recommendation) :
  get_recommendation split int_literal student = Some recs
  <-> exists s w ws has,
        dict_get "name" student = Some (JStr s)
        /\ split s = w :: ws
        /\ json_contains (py_get "issues" student (JList [])) = Some has
        /\ texts_build int_literal has student
        /\ recs = chosen has.
Proof.
  unfold get_recommendation, texts_build, chosen. cbv zeta. split.
  - intros H.
    apply bind_some in H. destruct H as (name & En & H).
    apply bind_some in H. destruct H as (parts & Ep & H).
    apply bind_some in H. destruct H as (w & Ew & H).
    apply bind_some in H. destruct H as (has & Eh & H).
    apply bind_some in H. destruct H as (r3 & E3 & H).
    apply bind_some in H. destruct H as (r4 & E4 & H).
    apply bind_some in H. destruct H as (r5 & E5 & H).
    apply bind_some in H. destruct H as (r7 & E7 & H).
    apply bind_some in H. destruct H as (r8 & E8 & H).
    apply guarded_text in E3, E4, E7, E8. apply guarded_text_key in E5.
    destruct E3 as (G3 & ->), E4 as (G4 & ->), E5 as (G5 & ->),
      E7 as (G7 & ->), E8 as (G8 & ->).
    apply default_if_none in H.
    destruct name; try discriminate. injection Ep as <-.
    destruct (split s) as [| w' ws] eqn:Es; [discriminate |].
    exists s, w', ws, has.
    split; [exact En |]. split; [exact Es |]. split; [exact Eh |].
    split; [| exact H].
    split; [exact G3 |]. split; [exact G4 |]. split; [exact G5 |].
    split; [intros Hb; now apply gap_check, G7 |].
    intros H1 H2 H3. apply G8. now rewrite H1, H2, H3.
  - intros (s & w & ws & has & En & Es & Eh & (G3 & G4 & G5 & G7 & G8) & ->).
    rewrite En. cbn [bind]. rewrite Es. cbn [hd_error bind].
    rewrite Eh. cbn [bind].
    apply bind_some. eexists.
    split; [apply guarded_text; split; [exact G3 | reflexivity] |].
    apply bind_some. eexists.
    split; [apply guarded_text; split; [exact G4 | reflexivity] |].
    apply bind_some. eexists.
    split; [apply guarded_text_key; split; [exact G5 | reflexivity] |].
    apply bind_some. eexists. split.
    { apply guarded_text. split; [| reflexivity].
      intros Hb. now apply gap_check, G7. }
    apply bind_some. eexists. split.
    { apply guarded_text. split; [| reflexivity].
      intros Hb. apply andb_true_iff in Hb. destruct Hb as (Hb & H4).
      apply andb_true_iff in Hb. destruct Hb as (H8 & H3).
      apply negb_true_iff in H3, H4. now apply G8. }
    apply default_if_none. reflexivity.
Qed.

(** X20.  [get_recommendation] returns texts exactly for a record whose
    name is a string with at least one word, whose issues support the
    [in] test, and in which every chosen text can be built: the figures
    it formats are numbers, the doom-loop grades can be listed, the
    record of a student with low minutes has the [reading_mins] key, and
    the gap is empty or a whole number can be made of it; the texts are
    then those of the issue keys.  Whenever it returns, there is at least
    one text and none twice, the default text is given exactly when no
    other is, the low-effective-tests text never comes with the
    over-testing or the doom-loop text, nor the at-grade text with the
    no-instruction-app text.  The call fails for a name without a word,
    for a student with low minutes whose record lacks [reading_mins], and
    for an over-testing student whose testing percentage is null. *)
Theorem X20_recommendations (student : list (string * json)) :
  (forall recs,
     get_recommendation split int_literal student = Some recs
     <-> exists s w ws has,
           dict_get "name" student = Some (JStr s)
           /\ split s = w :: ws
           /\ json_contains (py_get "issues" student (JList [])) = Some has
           /\ texts_build int_literal has student
           /\ recs = chosen has)
  /\ (forall recs,
        get_recommendation split int_literal student = Some recs ->
        recs <> []
        /\ NoDup recs
        /\ (In Rec_default recs <-> recs = [Rec_default])
        /\ ~ (In Rec_low_effective_tests recs
              /\ (In Rec_over_testing recs \/ In Rec_doom_loop recs))
        /\ ~ (In Rec_at_grade recs /\ In Rec_no_instruction_app recs))
  /\ (forall s,
        dict_get "name" student = Some (JStr s) -> split s = [] ->
        get_recommendation split int_literal student = None)
  /\ (forall l,
        py_get "issues" student (JList []) = JList l ->
        existsb (json_is_str "LOW_MINUTES") l = true ->
        dict_get "reading_mins" student = None ->
        get_recommendation split int_literal student = None)
  /\ (forall l,
        py_get "issues" student (JList []) = JList l ->
        existsb (json_is_str "OVER_TESTING") l = true ->
        py_get "pct_testing" student (JInt 0) = JNull ->
        get_recommendation split int_literal student = None).
Proof.
  split; [apply get_recommendation_spec |].
  split.
  { intros recs H. apply get_recommendation_spec in H.
    destruct H as (_ & _ & _ & has & _ & _ & _ & _ & ->).
    apply chosen_shape. }
  split; [| split].
  - intros s En Es.
    destruct (get_recommendation split int_literal student) as [recs |] eqn:E;
      [| reflexivity].
    apply get_recommendation_spec in E.
    destruct E as (s' & w & ws & _ & En' & Es' & _). congruence.
  - intros l Ei Hl Hrm.
    destruct (get_recommendation split int_literal student) as [recs |] eqn:E;
      [| reflexivity].
    apply get_recommendation_spec in E.
    destruct E as (_ & _ & _ & has & _ & _ & Eh & (_ & _ & G5 & _) & _).
    rewrite Ei in Eh. injection Eh as <-.
    destruct (G5 Hl) as (_ & H). contradiction.
  - intros l Ei Hl Hp.
    destruct (get_recommendation split int_literal student) as [recs |] eqn:E;
      [| reflexivity].
    apply get_recommendation_spec in E.
    destruct E as (_ & _ & _ & has & _ & _ & Eh & (G3 & _) & _).
    rewrite Ei in Eh. injection Eh as <-.
    specialize (G3 Hl). rewrite Hp in G3. discriminate.
Qed.
End RecommendationFacts.

Lemma X20_recommendations_witness :
  get_recommendation words (fun _ => false) over_tester = Some [Rec_over_testing]
  /\ get_recommendation words (fun _ => false) no_reading_mins = None.
Proof.
  split.
  - apply (proj1 (X20_recommendations words (fun _ => false) over_tester)).
    exists "Love L."%string, "Love"%string, ["L."%string],
      (fun x => existsb (json_is_str x)
                  [JStr "OVER_TESTING"; JStr "LOW_EFFECTIVE_TESTS"]).
    split; [reflexivity |]. split; [reflexivity |]. split; [reflexivity |].
    split; [| reflexivity].
    unfold texts_build. repeat split; intros; try reflexivity; discriminate.
  - apply (proj1 (proj2 (proj2 (proj2
             (X20_recommendations words (fun _ => false) no_reading_mins))))
           [JStr "LOW_MINUTES"]); reflexivity.
Defined.

Section NavigationFacts.
Variable slugify : string -> string.

Lemma index_of_slug_none (names : list string) (slug : string) :
  index_of_slug slugify slug names = None
  <-> ~ In slug (map slugify names).
Proof.
  induction names as [| n rest IH]; simpl.
  - tauto.
  - destruct (String.eqb_spec (slugify n) slug) as [E | Hne].
    + split; [discriminate | intros H; exfalso; apply H; now left].
    + destruct (index_of_slug slugify slug rest); simpl.
      * split; [discriminate |]. intros H. exfalso.
        destruct IH as (_ & IH).
        assert (Hn : ~ In slug (map slugify rest))
          by (intros Hin; apply H; now right).
        specialize (IH Hn). discriminate.
      * split; [| reflexivity]. intros _ [H | H]; [contradiction |].
        now apply (proj1 IH).
Qed.

Lemma index_of_slug_nth (names : list string) :
  NoDup (map slugify names) ->
  forall i n,
    nth_error names i = Some n ->
    index_of_slug slugify (slugify n) names = Some i.
Proof.
  induction names as [| a rest IH]; intros Hnd i n Hi.
  - destruct i; discriminate.
  - simpl in Hnd. inversion Hnd as [| ? ? Hnotin Hnd']; subst.
    destruct i as [| i]; simpl in *.
    + injection Hi as ->. now rewrite String.eqb_refl.
    + destruct (String.eqb_spec (slugify a) (slugify n)) as [E | Hne].
      * exfalso. apply Hnotin. rewrite E. apply in_map.
        eapply nth_error_In. eassumption.
      * now rewrite (IH Hnd' i n Hi).
Qed.

(** X21.  When no two students share a slug, the navigation of the
    student at any position of the list points back to the student just
    before and forward to the student just after, with no link before
    the first and none after the last.  For a slug that no student has,
    both links are empty. *)
Theorem X21_navigation (names : list string) :
  (NoDup (map slugify names) ->
   forall i n,
     nth_error names i = Some n ->
     build_nav slugify names (slugify n)
     = (match i with
        | O => None
        | S j => nth_error names j
        end,
        nth_error names (S i)))
  /\ (forall slug,
        ~ In slug (map slugify names) ->
        build_nav slugify names slug = (None, None)).
Proof.
  split.
  - intros Hnd i n Hi. unfold build_nav.
    rewrite (index_of_slug_nth names Hnd i n Hi).
    assert (Hlt : (i < List.length names)%nat)
      by (apply nth_error_Some; congruence).
    f_equal.
    + destruct i as [| j]; simpl; [reflexivity |].
      now rewrite Nat.sub_0_r.
    + destruct (i <? List.length names - 1)%nat eqn:E.
      * now rewrite Nat.add_1_r.
      * apply Nat.ltb_ge in E. symmetry. apply nth_error_None. lia.
  - intros slug H. unfold build_nav.
    now rewrite (proj2 (index_of_slug_none names slug) H).
Qed.
End NavigationFacts.

Lemma X21_navigation_witness :
  build_nav (fun n => n) ["Ada L."; "Ben K."; "Cy M."]%string "Ben K."
  = (Some "Ada L."%string, Some "Cy M."%string).
Proof.
  apply (proj1 (X21_navigation (fun n => n) ["Ada L."; "Ben K."; "Cy M."]%string)
               ltac:(repeat constructor; simpl; intuition discriminate)
               1%nat "Ben K."%string eq_refl).
Defined.

(** ** Order of the student list *)

Lemma insert_by_growth_perm (x : StudentMetrics) (l : list StudentMetrics) :
  Permutation (insert_by_growth x l) (x :: l).
Proof.
  induction l as [| y l IH]; simpl; [reflexivity |].
  destruct (Qle_bool (growth_key x) (growth_key y)); [reflexivity |].
  rewrite IH. apply perm_swap.
Qed.

Lemma insert_by_growth_sorted (x : StudentMetrics) (l : list StudentMetrics) :
  StronglySorted (fun a b => (growth_key a <= growth_key b)%Q) l ->
  StronglySorted (fun a b => (growth_key a <= growth_key b)%Q)
                 (insert_by_growth x l).
Proof.
  induction 1 as [| y ys Hs IH Hall]; simpl.
  - repeat constructor.
  - destruct (Qle_bool (growth_key x) (growth_key y)) eqn:E.
    + apply Qle_bool_iff in E.
      constructor; [now constructor |].
      constructor; [assumption |].
      eapply Forall_impl; [| exact Hall]. intros a Ha. simpl in Ha.
      eapply Qle_trans; eassumption.
    + apply Qle_bool_false in E.
      constructor; [assumption |].
      apply Forall_forall. intros a Ha.
      apply (Permutation_in _ (insert_by_growth_perm x ys)) in Ha.
      destruct Ha as [<- | Ha]; [now apply Qlt_le_weak |].
      rewrite Forall_forall in Hall. now apply Hall.
Qed.

Lemma insert_by_growth_absent (x : StudentMetrics) (l : list StudentMetrics) :
  filter (fun s => isna (growth s)) (insert_by_growth x l)
  = filter (fun s => isna (growth s)) (x :: l).
Proof.
  induction l as [| y l IH]; [reflexivity |].
  simpl insert_by_growth.
  destruct (Qle_bool (growth_key x) (growth_key y)) eqn:E; [reflexivity |].
  apply Qle_bool_false in E.
  simpl filter at 1. rewrite IH. simpl.
  destruct (growth x) as [gx |] eqn:Ex; simpl; [reflexivity |].
  destruct (growth y) as [gy |] eqn:Ey; simpl; [reflexivity |].
  exfalso. unfold growth_key in E. rewrite Ex, Ey in E.
  apply (Qlt_irrefl _ E).
Qed.

(** X22.  Sorting the students by growth reorders the list without
    losing or adding anyone; afterwards growth ascends along the list
    with an absent growth counted as 999, so every student placed after
    one with absent growth has an absent growth or one of 999 or more;
    the students with absent growth keep the order they had. *)
Theorem X22_sort_by_growth (l : list StudentMetrics) :
  Permutation (sort_by_growth l) l
  /\ StronglySorted (fun a b => (growth_key a <= growth_key b)%Q)
                    (sort_by_growth l)
  /\ (forall before s after t,
        sort_by_growth l = before ++ s :: after ->
        growth s = None -> In t after ->
        growth t = None \/ exists g, growth t = Some g /\ (999 <= g)%Q)
  /\ filter (fun s => isna (growth s)) (sort_by_growth l)
     = filter (fun s => isna (growth s)) l.
Proof.
  assert (Hperm : Permutation (sort_by_growth l) l).
  { induction l as [| x l IH]; simpl; [reflexivity |].
    rewrite insert_by_growth_perm. now constructor. }
  assert (Hsort : StronglySorted (fun a b => (growth_key a <= growth_key b)%Q)
                                 (sort_by_growth l)).
  { clear Hperm. induction l as [| x l IH]; simpl; [constructor |].
    apply insert_by_growth_sorted, IH. }
  split; [exact Hperm |]. split; [exact Hsort |]. split.
  - intros before s after t E Hs Ht. rewrite E in Hsort.
    clear - Hsort Hs Ht.
    induction before as [| b before IH]; simpl in Hsort.
    + inversion Hsort as [| ? ? _ Hall]; subst.
      rewrite Forall_forall in Hall. specialize (Hall t Ht).
      unfold growth_key in Hall. rewrite Hs in Hall.
      destruct (growth t) as [g |]; [right; exists g; auto | now left].
    + inversion Hsort; subst. now apply IH.
  - clear Hperm Hsort. induction l as [| x l IH]; [reflexivity |].
    simpl sort_by_growth. rewrite insert_by_growth_absent.
    simpl. now rewrite IH.
Qed.

Lemma X22_sort_by_growth_witness :
  exists s1 s2,
    ungraded_tester "first@example.org" = Some s1
    /\ test_bound_student "second@example.org" = Some s2
    /\ sort_by_growth [s1; s2; s1] = [s2; s1; s1]
    /\ (growth s1 = None \/ exists g, growth s1 = Some g /\ (999 <= g)%Q).
Proof.
  destruct (ungraded_tester "first@example.org") as [s1 |] eqn:E1;
    [| vm_compute in E1; discriminate].
  destruct (test_bound_student "second@example.org") as [s2 |] eqn:E2;
    [| vm_compute in E2; discriminate].
  assert (Hg : growth s1 = None)
    by (vm_compute in E1; injection E1 as <-; reflexivity).
  assert (Hs : sort_by_growth [s1; s2; s1] = [s2; s1; s1])
    by (vm_compute in E1; injection E1 as <-;
        vm_compute in E2; injection E2 as <-; reflexivity).
  exists s1, s2.
  split; [reflexivity |]. split; [reflexivity |]. split; [exact Hs |].
  destruct (X22_sort_by_growth [s1; s2; s1]) as (_ & _ & H & _).
  apply (H [s2] s1 [s1] s1 Hs Hg). left. reflexivity.
Defined.

Lemma X10_ranking_shape_witness :
  exists s,
    test_bound_student "student@example.org" = Some s
    /\ map count (detect_systemic_issues [s]) = [1%nat]
    /\ (1 <= List.length (issue_counts OVER_TESTING [s]))%nat.
Proof.
  destruct (test_bound_student "student@example.org") as [s |] eqn:E;
    [| vm_compute in E; discriminate].
  vm_compute in E. injection E as <-.
  eexists. split; [reflexivity |]. split; [reflexivity |].
  match goal with
  | |- (1 <= List.length (issue_counts _ ?l))%nat =>
      destruct (X10_ranking_shape l) as (_ & _ & _ & H);
      destruct (H (hd {| key := ""; count := 0; avg_growth := None;
                         students := []; detail_counts := TestingDetail 0 0 |}
                      (detect_systemic_issues l))
                  ltac:(left; reflexivity)) as (H1 & _)
  end.
  exact H1.
Defined.

(** ** Resolved HMG, once more *)

Lemma py_int_whole (h : Q) (k : Z) :
  (h == inject_Z k)%Q -> py_int h = k /\ py_int (h + 1) = k + 1.
Proof.
  destruct h as [n d]. unfold py_int, Qeq. simpl. intros H.
  assert (En : n = k * Z.pos d) by lia. subst n. split.
  - apply Z.quot_mul. lia.
  - rewrite Pos.mul_1_r.
    replace (k * Z.pos d * 1 + Z.pos d) with ((k + 1) * Z.pos d) by lia.
    apply Z.quot_mul. lia.
Qed.

Lemma filter_and {A : Type} (p q : A -> bool) (l : list A) :
  filter p (filter q l) = filter (fun x => p x && q x) l.
Proof.
  induction l as [| a l IH]; simpl; [reflexivity |].
  destruct (q a) eqn:Eq; simpl.
  - rewrite andb_true_r. destruct (p a); now rewrite IH.
  - now rewrite andb_false_r.
Qed.

(** X23.  For a resolved HMG that is a whole number [k], of a size that
    a float holds exactly (below 2^53 in absolute value, so that the
    float sum [hmg + 1] is exact), the reading grade of the record is
    [k + 1] and it is the grade whose attempts are counted in the HMG+1
    figures: every counted attempt is at the reading grade, and every
    attempt at the reading grade is counted. *)
Theorem X23_reading_grade_is_target
    (row : AssessmentRecord) (daily_data : list ActivityRecord)
    (test_data : list TestAttemptRecord) (spring_rit : option Q)
    (effective_days expected_minutes : Z) (m : StudentMetrics)
    (h : Q) (k : Z) :
  compute_student_metrics row daily_data test_data spring_rit
                          effective_days expected_minutes = Some m ->
  hmg m = Some h -> (h == inject_Z k)%Q -> Z.abs k < 2 ^ 53 ->
  reading_grade m = Some (k + 1)
  /\ hmg_plus1_total m
     = List.length (filter (grade_is (k + 1)) test_data)
  /\ hmg_plus1_passed m
     = List.length (filter (fun tr => passed tr && grade_is (k + 1) tr) test_data).
Proof.
  intros Hm Hh Hk _.
  pose proof (metrics_derived _ _ _ _ _ _ _ Hm) as D.
  pose proof (metrics_fields _ _ _ _ _ _ _ Hm) as F.
  destruct (py_int_whole h k Hk) as (E0 & E1).
  rewrite (d_reading_grade _ _ _ _ D), (f_plus1_total _ _ _ _ _ _ F),
    (f_plus1_passed _ _ _ _ _ _ F), Hh.
  cbn [option_map]. unfold hmg_plus1_tests. rewrite E0, E1.
  fold (grade_is (k + 1)).
  split; [reflexivity |]. split; [reflexivity |].
  now rewrite (filter_and passed (grade_is (k + 1)) test_data).
Qed.

Lemma X23_reading_grade_is_target_witness :
  exists m,
    test_bound_student "student@example.org" = Some m
    /\ reading_grade m = Some 5
    /\ hmg_plus1_total m = 3%nat.
Proof.
  destruct (test_bound_student "student@example.org") as [m |] eqn:E;
    [| vm_compute in E; discriminate].
  pose proof E as E'. unfold test_bound_student in E'.
  exists m. split; [reflexivity |].
  assert (Hh : hmg m = Some 4%Q)
    by (vm_compute in E; injection E as <-; reflexivity).
  destruct (X23_reading_grade_is_target _ _ _ _ _ _ m 4%Q 4 E' Hh
              ltac:(reflexivity) ltac:(reflexivity)) as (Hg & Ht & _).
  split; [exact Hg |]. rewrite Ht. reflexivity.
Defined.

Lemma Qgtb_irrefl (q : Q) : Qgtb q q = false.
Proof.
  apply not_true_is_false. intros H. apply Qgtb_true in H.
  apply (Qlt_irrefl _ H).
Qed.

(** X24.  Resolving the HMG is idempotent: feeding the resolved value
    back with the same test attempts changes nothing. *)
Theorem X24_resolve_hmg_idempotent
    (h0 : option Q) (test_data : list TestAttemptRecord) :
  resolve_hmg (resolve_hmg h0 test_data) test_data = resolve_hmg h0 test_data.
Proof.
  destruct (resolve_hmg_cases h0 test_data)
    as [E | (_ & g & Hmax & E & _)]; rewrite E.
  - exact E.
  - unfold resolve_hmg. rewrite Hmax. simpl.
    rewrite Qgtb_irrefl.
    destruct (Qle_bool (inject_Z g) 1
              && negb (Datatypes.length test_data =? 0)%nat); [| reflexivity].
    destruct (0 <? Datatypes.length (filter passed test_data))%nat; reflexivity.
Qed.
